(** * idrx-go: the blockchain client, token amounts and the bridge

    A shallow embedding of package [blockchain] of idrx-go (client.go,
    token.go, networks.go) and the properties of its connection pool,
    confirmation waiter, amount conversion and bridge orchestration.

    Conventions of the embedding.
    - Go integers are [Z]; a [uint64] read out of a [*big.Int] is written
      with its truncation ([Uint64]); [time.Duration] is a number of
      nanoseconds.
    - A Go pointer is an [option]; dereferencing [None] panics.
    - A Go [(T, error)] result is a pair whose second component is an
      [option error] ([None] is [nil]).
    - Calls that leave the process (dialling, JSON-RPC, contract
      transactions) are answered by an environment [Env], which sees the
      whole history of calls; every call is appended to the trace of the
      [World]. *)

From Stdlib Require Import ZArith List String Ascii Lia Bool Permutation.
From stdpp Require Import base option gmap strings list.

Local Open Scope string_scope.
Local Open Scope list_scope.
Local Open Scope Z_scope.

(** ** Go errors

    [fmt.Errorf format operands...]: an error is the format string and its
    operands: integers ([%d]), strings, hashes printed in hexadecimal, and
    errors ([%w]). *)

Inductive error : Type :=
| Errorf (format : string) (operands : list operand)
with operand : Type :=
| OpInt (n : Z)
| OpStr (s : string)
| OpHash (h : Z)
| OpErr (e : error).

(** The integers an error value holds, its wrapped errors included. *)
Fixpoint error_ints (e : error) : list Z :=
  match e with
  | Errorf _ ops =>
      (fix go (l : list operand) : list Z :=
         match l with
         | [] => []
         | OpInt n :: l' => n :: go l'
         | OpStr _ :: l' => go l'
         | OpHash _ :: l' => go l'
         | OpErr e' :: l' => error_ints e' ++ go l'
         end) ops
  end.

(** ** github.com/shopspring/decimal (v1.4.0), the part token.go calls

    A [Decimal] is [value * 10 ^ exp] with [value : *big.Int] and
    [exp : int32].  A function that can panic returns an [option], [None]
    being the panic. *)

Module decimal.

Record Decimal : Type := mkDecimal { value : Z; exp : Z }.

Definition MaxInt32 : Z := 2147483647.
Definition MinInt32 : Z := -2147483648.
Definition DivisionPrecision : Z := 16.
Definition PowPrecisionNegativeExponent : Z := 16.

Definition New (v e : Z) : Decimal := mkDecimal v e.
Definition NewFromInt (v : Z) : Decimal := mkDecimal v 0.
Definition NewFromInt32 (v : Z) : Decimal := mkDecimal v 0.
Definition NewFromBigInt (v e : Z) : Decimal := mkDecimal v e.

Definition in_int32 (e : Z) : bool := (MinInt32 <=? e) && (e <=? MaxInt32).

(** [rescale]: the same number at exponent [e]; digits below [10 ^ e]
    are cut off ([big.Int.Quo] truncates toward zero). *)
Definition rescale (d : Decimal) (e : Z) : Decimal :=
  if exp d =? e then d
  else
    let diff := Z.abs (e - exp d) in
    let expScale := 10 ^ diff in
    if exp d <? e then mkDecimal (Z.quot (value d) expScale) e
    else mkDecimal (value d * expScale) e.

Definition RescalePair (d1 d2 : Decimal) : Decimal * Decimal :=
  if exp d1 <? exp d2 then (d1, rescale d2 (exp d1))
  else if exp d2 <? exp d1 then (rescale d1 (exp d2), d2)
  else (d1, d2).

Definition Abs (d : Decimal) : Decimal := mkDecimal (Z.abs (value d)) (exp d).

Definition Add (d d2 : Decimal) : Decimal :=
  let '(rd, rd2) := RescalePair d d2 in
  mkDecimal (value rd + value rd2) (exp rd).

Definition Sub (d d2 : Decimal) : Decimal :=
  let '(rd, rd2) := RescalePair d d2 in
  mkDecimal (value rd - value rd2) (exp rd).

(** [Cmp] gives [-1], [0] or [1]. *)
Definition Cmp (d d2 : Decimal) : Z :=
  if exp d =? exp d2 then Z.sgn (value d - value d2)
  else
    let '(rd, rd2) := RescalePair d d2 in
    Z.sgn (value rd - value rd2).

Definition Equal (d d2 : Decimal) : bool := Cmp d d2 =? 0.

(** [Mul] panics when the exponent leaves [int32]. *)
Definition Mul (d d2 : Decimal) : option Decimal :=
  let expInt64 := exp d + exp d2 in
  if in_int32 expInt64 then Some (mkDecimal (value d * value d2) expInt64)
  else None.

(** [QuoRem d d2 precision = (q, r)] with [d = d2 * q + r] and [q] a
    multiple of [10 ^ -precision]; panics on division by zero and on an
    exponent out of [int32]. *)
Definition QuoRem (d d2 : Decimal) (precision : Z) : option (Decimal * Decimal) :=
  if value d2 =? 0 then None
  else
    let scale := - precision in
    let e := exp d - exp d2 - scale in
    if negb (in_int32 e) then None
    else
      let '(aa, bb, scalerest) :=
        if e <? 0
        then (value d, value d2 * 10 ^ (- e), exp d)
        else (value d * 10 ^ e, value d2, scale + exp d2) in
      Some (mkDecimal (Z.quot aa bb) scale, mkDecimal (Z.rem aa bb) scalerest).

(** [DivRound]: the quotient to [precision] fractional digits, rounded
    half away from zero. *)
Definition DivRound (d d2 : Decimal) (precision : Z) : option Decimal :=
  match QuoRem d d2 precision with
  | None => None
  | Some (q, r) =>
      let r2 := mkDecimal (Z.abs (value r) * 2) (exp r + precision) in
      let c := Cmp r2 (Abs d2) in
      if c <? 0 then Some q
      else if Z.sgn (value d) * Z.sgn (value d2) <? 0
           then Some (Sub q (New 1 (- precision)))
           else Some (Add q (New 1 (- precision)))
  end.

Definition Div (d d2 : Decimal) : option Decimal :=
  DivRound d d2 DivisionPrecision.

(** The loop of [powBigIntWithPrecision]: square and multiply over the
    bits of the exponent, lowest bit first. *)
Fixpoint pow_loop (tmpExp : positive) (n result : Decimal) : option Decimal :=
  match tmpExp with
  | xH => Mul result n
  | xO p => n2 ← Mul n n; pow_loop p n2 result
  | xI p => r ← Mul result n; n2 ← Mul n n; pow_loop p n2 r
  end.

(** [d.Pow(NewFromInt32(k))] for a non-zero base [d]: [Pow] splits the
    exponent with [QuoRem(one, 0)]; the exponent here is an integer, so
    the fractional part is zero and the result is [PowBigInt] of the
    integer part. *)
Definition PowInt32 (d : Decimal) (k : Z) : option Decimal :=
  match k with
  | Z0 => Some (New 1 0)
  | Zpos p => pow_loop p d (New 1 0)
  | Zneg p =>
      r ← pow_loop p d (New 1 0);
      DivRound (New 1 0) r PowPrecisionNegativeExponent
  end.

(** [BigInt]: the integer part. *)
Definition BigInt (d : Decimal) : Z := value (rescale d 0).

(** *** NewFromString *)

Definition is_digit (c : ascii) : bool :=
  let n := Z.of_nat (nat_of_ascii c) in (48 <=? n) && (n <=? 57).

Definition digit_val (c : ascii) : Z := Z.of_nat (nat_of_ascii c) - 48.

Fixpoint parse_digits (s : string) (acc : Z) : option Z :=
  match s with
  | EmptyString => Some acc
  | String c s' =>
      if is_digit c then parse_digits s' (10 * acc + digit_val c) else None
  end.

(** The syntax [strconv.ParseInt(s, 10, _)] and [big.Int.SetString(s, 10)]
    share: an optional sign and at least one digit. *)
Definition parse_int (s : string) : option Z :=
  match s with
  | EmptyString => None
  | String "+" EmptyString | String "-" EmptyString => None
  | String "+" s' => parse_digits s' 0
  | String "-" s' => n ← parse_digits s' 0; Some (- n)
  | _ => parse_digits s 0
  end.

(** [strings.IndexAny(s, chars)] for one-byte characters. *)
Fixpoint index_any (s : string) (p : ascii -> bool) : option nat :=
  match s with
  | EmptyString => None
  | String c s' => if p c then Some O else S <$> index_any s' p
  end.

Fixpoint count_char (s : string) (c : ascii) : nat :=
  match s with
  | EmptyString => O
  | String c' s' => (if Ascii.eqb c c' then 1 else 0)%nat + count_char s' c
  end.

Definition is_e (c : ascii) : bool := Ascii.eqb c "E" || Ascii.eqb c "e".
Definition is_dot (c : ascii) : bool := Ascii.eqb c ".".

Definition NewFromString (input : string) : Decimal * option error :=
  let zero := mkDecimal 0 0 in
  let split :=
    match index_any input is_e with
    | None => inr (input, 0)
    | Some eIndex =>
        let tail := substring (S eIndex) (String.length input - S eIndex) input in
        match parse_int tail with
        | None =>
            inl (Errorf "can't convert %s to decimal: exponent is not numeric"
                        [OpStr input])
        | Some expInt =>
            if in_int32 expInt then inr (substring 0 eIndex input, expInt)
            else inl (Errorf "can't convert %s to decimal: fractional part too long"
                             [OpStr input])
        end
    end in
  match split with
  | inl e => (zero, Some e)
  | inr (v, exp0) =>
      if (1 <? count_char v ".")%nat
      then (zero, Some (Errorf "can't convert %s to decimal: too many .s" [OpStr v]))
      else
        let '(intString, exp1) :=
          match index_any v is_dot with
          | None => (v, exp0)
          | Some pIndex =>
              let frac := substring (S pIndex) (String.length v - S pIndex) v in
              ((substring 0 pIndex v ++ frac)%string,
               exp0 - Z.of_nat (String.length frac))
          end in
        match parse_int intString with
        | None => (zero, Some (Errorf "can't convert %s to decimal" [OpStr v]))
        | Some dValue =>
            if in_int32 exp1 then (mkDecimal dValue exp1, None)
            else (zero, Some (Errorf "can't convert %s to decimal: fractional part too long"
                                     [OpStr input]))
        end
  end.

End decimal.

Import decimal.

(** ** token.go *)

(** [TokenAmount]: an amount and the number of decimals of its base unit. *)
Record TokenAmount : Type := mkTokenAmount { Amount : Decimal; Decimals : Z }.

(** [ToWei]: [Amount * 10 ^ Decimals] as an integer; [None] is a panic of
    the decimal library. *)
Definition ToWei (ta : TokenAmount) : option Z :=
  multiplier ← PowInt32 (NewFromInt 10) (Decimals ta);
  wei ← Mul (Amount ta) multiplier;
  Some (BigInt wei).

Definition FromWei (wei : Z) (decimals : Z) : option TokenAmount :=
  divisor ← PowInt32 (NewFromInt 10) decimals;
  amount ← Div (NewFromBigInt wei 0) divisor;
  Some (mkTokenAmount amount decimals).

Definition ParseTokenAmount (amountStr : string) (decimals : Z)
  : option TokenAmount * option error :=
  let '(amount, err) := NewFromString amountStr in
  match err with
  | Some e => (None, Some (Errorf "invalid amount format: %w" [OpErr e]))
  | None => (Some (mkTokenAmount amount decimals), None)
  end.


(** ** go-ethereum [common]: hashes and addresses from hexadecimal text

    A [Hash] is 32 bytes and an [Address] 20 bytes; both are kept as the
    big-endian number the bytes spell. *)

Module common.

Definition hex_digit (c : ascii) : option Z :=
  let n := Z.of_nat (nat_of_ascii c) in
  if (48 <=? n) && (n <=? 57) then Some (n - 48)
  else if (97 <=? n) && (n <=? 102) then Some (n - 87)
  else if (65 <=? n) && (n <=? 70) then Some (n - 55)
  else None.

(** [hex.DecodeString], its error dropped: the bytes decoded before the
    first pair that is not hexadecimal. *)
Fixpoint Hex2Bytes (s : string) : list Z :=
  match s with
  | String a (String b s') =>
      match hex_digit a, hex_digit b with
      | Some x, Some y => (16 * x + y) :: Hex2Bytes s'
      | _, _ => []
      end
  | _ => []
  end.

Definition has0xPrefix (s : string) : bool :=
  match s with
  | String "0" (String c _) => Ascii.eqb c "x" || Ascii.eqb c "X"
  | _ => false
  end.

Definition FromHex (s : string) : list Z :=
  let s1 := if has0xPrefix s then substring 2 (String.length s - 2) s else s in
  let s2 := if Nat.odd (String.length s1) then String "0" s1 else s1 in
  Hex2Bytes s2.

Definition bytes_value (b : list Z) : Z :=
  fold_left (fun acc x => acc * 256 + x) b 0.

Definition Hash : Type := Z.
Definition Address : Type := Z.

(** [SetBytes] keeps the last 32 (20) bytes and pads on the left. *)
Definition BytesToHash (b : list Z) : Hash := bytes_value b mod 2 ^ 256.
Definition BytesToAddress (b : list Z) : Address := bytes_value b mod 2 ^ 160.

Definition HexToHash (s : string) : Hash := BytesToHash (FromHex s).
Definition HexToAddress (s : string) : Address := BytesToAddress (FromHex s).

End common.

(** ** networks.go *)

Definition Nanosecond : Z := 1.
Definition Second : Z := 1000000000.
Definition Minute : Z := 60 * Second.

(** [int64] arithmetic of [time.Duration] wraps around. *)
Definition wrap64 (n : Z) : Z := (n + 2 ^ 63) mod 2 ^ 64 - 2 ^ 63.

Record NetworkConfig : Type := mkNetworkConfig {
  ChainID : Z;
  Name : string;
  RPCEndpoints : list string;
  ContractAddress : common.Address;
  BlockTime : Z;
  GasLimit : Z;
  MaxGasPrice : Z;
  IsTestnet : bool;
  TokenDecimals : Z   (* field Decimals of NetworkConfig *)
}.

Definition BaseMainnet := "BaseMainnet".
Definition PolygonMainnet := "PolygonMainnet".
Definition BSCMainnet := "BSCMainnet".
Definition LiskMainnet := "LiskMainnet".
Definition KaiaMainnet := "KaiaMainnet".
Definition WorldChainMainnet := "WorldChainMainnet".
Definition EtherlinkMainnet := "EtherlinkMainnet".
Definition GnosisMainnet := "GnosisMainnet".

Definition BaseChainID : Z := 8453.
Definition PolygonChainID : Z := 137.
Definition BSCChainID : Z := 56.
Definition LiskChainID : Z := 1135.
Definition KaiaChainID : Z := 8217.
Definition WorldChainChainID : Z := 480.
Definition EtherlinkChainID : Z := 42793.
Definition GnosisChainID : Z := 100.

(** The Go map [SupportedNetworks], its entries in the order of the source
    text.  Go enumerates a map in an unspecified order; a function that
    ranges over the map takes the order as the list it is given. *)
Definition SupportedNetworks : list (string * NetworkConfig) :=
  [ (BaseMainnet,
     mkNetworkConfig BaseChainID "Base"
       ["https://mainnet.base.org"; "https://base.llamarpc.com"]
       (common.HexToAddress "0x18Bc5bcC660cf2B9cE3cd51a404aFe1a0cBD3C22")
       (2 * Second) 3000000 10000000000 false 2);
    (PolygonMainnet,
     mkNetworkConfig PolygonChainID "Polygon"
       ["https://polygon-rpc.com"; "https://polygon.llamarpc.com"]
       (common.HexToAddress "0x649a2DA7B28E0D54c13D5eFf95d3A660652742cC")
       (2 * Second) 3000000 50000000000 false 0);
    (BSCMainnet,
     mkNetworkConfig BSCChainID "BNB Smart Chain"
       ["https://bsc-dataseed.binance.org"; "https://binance.llamarpc.com"]
       (common.HexToAddress "0x649a2DA7B28E0D54c13D5eFf95d3A660652742cC")
       (3 * Second) 3000000 5000000000 false 0);
    (LiskMainnet,
     mkNetworkConfig LiskChainID "Lisk"
       ["https://rpc.api.lisk.com"]
       (common.HexToAddress "0x18Bc5bcC660cf2B9cE3cd51a404aFe1a0cBD3C22")
       (2 * Second) 3000000 1000000000 false 2);
    (KaiaMainnet,
     mkNetworkConfig KaiaChainID "Kaia"
       ["https://public-en.node.kaia.io"]
       (common.HexToAddress "0x18Bc5bcC660cf2B9cE3cd51a404aFe1a0cBD3C22")
       (2 * Second) 3000000 1000000000 false 2);
    (WorldChainMainnet,
     mkNetworkConfig WorldChainChainID "World Chain"
       ["https://worldchain-mainnet.g.alchemy.com/public"]
       (common.HexToAddress "0x18Bc5bcC660cf2B9cE3cd51a404aFe1a0cBD3C22")
       (2 * Second) 3000000 1000000000 false 2);
    (EtherlinkMainnet,
     mkNetworkConfig EtherlinkChainID "Etherlink"
       ["https://node.mainnet.etherlink.com"]
       (common.HexToAddress "0x18bc5bcc660cf2b9ce3cd51a404afe1a0cbd3c22")
       (2 * Second) 30000000 1000000000 false 2);
    (GnosisMainnet,
     mkNetworkConfig GnosisChainID "Gnosis"
       ["https://rpc.gnosischain.com"; "https://0xrpc.io/gno"]
       (common.HexToAddress "0x18bc5bcc660cf2b9ce3cd51a404afe1a0cbd3c22")
       (5 * Second) 3000000 500000000 false 2) ].

(** A map lookup by key. *)
Fixpoint lookup_name (nets : list (string * NetworkConfig)) (networkName : string)
  : option NetworkConfig :=
  match nets with
  | [] => None
  | (n, config) :: rest =>
      if String.eqb n networkName then Some config else lookup_name rest networkName
  end.

Definition GetNetworkConfig (networkName : string) : option NetworkConfig * bool :=
  match lookup_name SupportedNetworks networkName with
  | Some config => (Some config, true)
  | None => (None, false)
  end.

(** The loop of [GetNetworkConfigByChainID] over an enumeration [nets] of
    the map: the first entry with the chain ID. *)
Fixpoint find_chain (nets : list (string * NetworkConfig)) (chainID : Z)
  : option NetworkConfig * string * bool :=
  match nets with
  | [] => (None, "", false)
  | (networkName, config) :: rest =>
      if ChainID config =? chainID then (Some config, networkName, true)
      else find_chain rest chainID
  end.

Definition GetNetworkConfigByChainID (chainID : Z)
  : option NetworkConfig * string * bool :=
  find_chain SupportedNetworks chainID.

Definition IsChainSupported (chainID : Z) : bool :=
  existsb (fun '(_, config) => ChainID config =? chainID) SupportedNetworks.

(** [GetDecimals]: 2 when the chain is unknown. *)
Definition GetDecimals (chainID : Z) : Z :=
  let '(config, _, found) := GetNetworkConfigByChainID chainID in
  if negb found then 2
  else match config with
       | Some cfg => TokenDecimals cfg
       | None => 2   (* a nil config with [found]: [find_chain] never gives it *)
       end.


(** ** The world outside the process *)

(** [*ethclient.Client]: a connection, named by the endpoint it was dialled
    to.  [*contracts.IDRX]: the binding of the contract at an address over
    a connection. *)
Record EthClient : Type := mkEthClient { rpcEndpoint : string }.
Record IDRX : Type := mkIDRX { boundAddress : common.Address; boundClient : EthClient }.

(** [context.Context]: the instant its [Done] channel closes, by deadline
    or by cancellation; [None] for a context that is never done. *)
Record Context : Type := mkContext { done_at : option Z }.
Definition Background : Context := mkContext None.

Record Log : Type := mkLog { Topics : list common.Hash; Data : list Z }.
Record Receipt : Type := mkReceipt { Status : Z; Logs : list Log }.
Definition ReceiptStatusSuccessful : Z := 1.

Record Transaction : Type := mkTransaction { Hash : common.Hash }.

(** [*bind.TransactOpts]: the signer's address, the chain ID its signer
    signs for, and the gas settings. *)
Record TransactOpts : Type := mkTransactOpts {
  From : common.Address;
  SignerChainID : Z;
  OptsGasLimit : Z;
  OptsGasPrice : option Z
}.

Record PrivateKey : Type := mkPrivateKey { D : Z }.

(** Every call that leaves the process. *)
Inductive Event : Type :=
| EvDial (rpcEndpoint : string) (ctx : Context)
| EvChainID (client : EthClient) (ctx : Context)
| EvTransactionReceipt (client : EthClient) (ctx : Context) (txHash : common.Hash)
| EvBurnBridge (contract : IDRX) (opts : TransactOpts) (amount toChainID : Z)
| EvMintBridge (contract : IDRX) (opts : TransactOpts) (to : common.Address)
    (amount fromChainID nonce : Z).

(** The calls made so far, oldest first, each with the instant it was made. *)
Definition History : Type := list (Z * Event).

(** What a library call hands back: a value or an error, never both nil. *)
Inductive result (A : Type) : Type :=
| Ok (a : A)
| Err (e : error).
Arguments Ok {A} a.
Arguments Err {A} e.

(** The environment answers each call from the history of the calls made
    so far.  [contracts.NewIDRX], [crypto.HexToECDSA] and
    [crypto.PubkeyToAddress] are functions of their arguments alone;
    [select_tick] decides a [select] whose two channels are ready at the
    same instant ([true]: the ticker). *)
Record Env : Type := mkEnv {
  HexToECDSA : string -> result PrivateKey;
  PubkeyToAddress : PrivateKey -> common.Address;
  NewIDRX : common.Address -> EthClient -> result IDRX;
  DialContext : History -> Context -> string -> result EthClient;
  rpcChainID : History -> EthClient -> Context -> result Z;
  rpcTransactionReceipt : History -> EthClient -> Context -> common.Hash -> result Receipt;
  txBurnBridge : History -> IDRX -> TransactOpts -> Z -> Z -> result Transaction;
  txMintBridge : History -> IDRX -> TransactOpts -> common.Address -> Z -> Z -> Z
                 -> result Transaction;
  select_tick : History -> bool
}.

(** The clock (nanoseconds) and the calls made so far.  A call takes no
    time on this clock: time passes only while the waiter is blocked in
    its [select]. *)
Record World : Type := mkWorld { now : Z; trace : History }.

(** ** Computations: a state monad over the world, with panics *)

Inductive outcome (A : Type) : Type :=
| Ret (a : A)
| Panic (msg : string)
| OutOfFuel.
Arguments Ret {A} a.
Arguments Panic {A} msg.
Arguments OutOfFuel {A}.

Definition M (A : Type) : Type := World -> outcome A * World.

Global Instance M_ret : MRet M := fun A a w => (Ret a, w).
Global Instance M_bind : MBind M := fun A B f m w =>
  match m w with
  | (Ret a, w') => f a w'
  | (Panic msg, w') => (Panic msg, w')
  | (OutOfFuel, w') => (OutOfFuel, w')
  end.

Definition panic {A : Type} (msg : string) : M A := fun w => (Panic msg, w).
Definition out_of_fuel {A : Type} : M A := fun w => (OutOfFuel, w).
Definition nil_dereference : string := "invalid memory address or nil pointer dereference".

(** A panic of a pure library function, raised in a computation. *)
Definition or_panic {A : Type} (msg : string) (o : option A) : M A :=
  match o with
  | Some a => mret a
  | None => panic msg
  end.

Definition get_now : M Z := fun w => (Ret (now w), w).
Definition sleep_until (t : Z) : M unit :=
  fun w => (Ret tt, mkWorld (Z.max (now w) t) (trace w)).

(** One call: the environment answers from the history, the call is
    recorded. *)
Definition call {A : Type} (answer : History -> A) (ev : Event) : M A :=
  fun w => (Ret (answer (trace w)), mkWorld (now w) (trace w ++ [(now w, ev)])).

(** [context.WithTimeout(parent, d)]: done at the parent's instant or [d]
    from now, whichever is first. *)
Definition WithTimeout (parent : Context) (d : Z) : M Context :=
  t ← get_now;
  mret (mkContext (Some match done_at parent with
                        | Some p => Z.min p (t + d)
                        | None => t + d
                        end)).

(** [Uint64] of a [big.Int]: the low 64 bits of the magnitude. *)
Definition Uint64 (x : Z) : Z := Z.abs x mod 2 ^ 64.

Definition deref {A : Type} (p : option A) : M A := or_panic nil_dereference p.

(** ** client.go *)

Record Client : Type := mkClient {
  clients : gmap Z (list EthClient);
  contracts : gmap Z (option IDRX);
  privateKey : PrivateKey;
  address : common.Address;
  timeout : Z
}.

Record ClientConfig : Type := mkClientConfig {
  PrivateKeyHex : string;
  Timeout : Z
}.

(** [BridgeRequest]; its [Amount] is a pointer. *)
Record BridgeRequest : Type := mkBridgeRequest {
  RequestAmount : option TokenAmount;
  ToChainID : Z;
  ToAddress : common.Address;
  FromChainID : Z
}.

(** [bind.NewKeyedTransactorWithChainID] with a chain ID that is not nil. *)
Definition NewKeyedTransactorWithChainID (from : common.Address) (chainID : Z)
  : TransactOpts :=
  mkTransactOpts from chainID 0 None.

(** [extractBridgeNonceFromReceipt]: the first log with a first topic equal
    to [burnBridgeTopic] ends the search. *)
Definition burnBridgeTopic : common.Hash := common.HexToHash "0x".

Fixpoint extract_from_logs (logs : list Log) : option Z * option error :=
  match logs with
  | [] => (None, Some (Errorf "bridge nonce not found in transaction receipt" []))
  | log :: rest =>
      match Topics log with
      | topic0 :: _ =>
          if topic0 =? burnBridgeTopic then (Some 0, None)
          else extract_from_logs rest
      | [] => extract_from_logs rest
      end
  end.

Definition extractBridgeNonceFromReceipt (receipt : Receipt) : option Z * option error :=
  extract_from_logs (Logs receipt).

Section WithEnv.

Variable env : Env.

(** The inner loop of [initializeNetworks]: dial each endpoint of one
    network, keep the connections that answered, bind the contract over
    the first of them.  (The line printed for a failed dial is left out.) *)
Fixpoint dial_endpoints (c : Client) (networkConfig : NetworkConfig)
    (endpoints : list string)
    (ethClients : list EthClient) (contractInstance : option IDRX)
  : M (list EthClient * option IDRX * option error) :=
  match endpoints with
  | [] => mret (ethClients, contractInstance, None)
  | rpcEndpoint :: rest =>
      ctx ← WithTimeout Background (timeout c);
      r ← call (fun h => DialContext env h ctx rpcEndpoint) (EvDial rpcEndpoint ctx);
      match r with
      | Err _ => dial_endpoints c networkConfig rest ethClients contractInstance
      | Ok ethClient =>
          let ethClients' := ethClients ++ [ethClient] in
          match contractInstance with
          | Some _ => dial_endpoints c networkConfig rest ethClients' contractInstance
          | None =>
              match NewIDRX env (ContractAddress networkConfig) ethClient with
              | Err e =>
                  mret (ethClients', None,
                        Some (Errorf "failed to create contract instance for %s: %w"
                                [OpStr (Name networkConfig); OpErr e]))
              | Ok ci => dial_endpoints c networkConfig rest ethClients' (Some ci)
              end
          end
      end
  end.

(** [initializeNetworks] over an enumeration [nets] of
    [SupportedNetworks]; the client with its two maps filled is handed
    back. *)
Fixpoint initializeNetworks (nets : list (string * NetworkConfig)) (c : Client)
  : M (Client * option error) :=
  match nets with
  | [] => mret (c, None)
  | (_, networkConfig) :: rest =>
      if ContractAddress networkConfig =? 0 then initializeNetworks rest c
      else
        '(ethClients, contractInstance, err) ←
          dial_endpoints c networkConfig (RPCEndpoints networkConfig) [] None;
        match err with
        | Some e => mret (c, Some e)
        | None =>
            if (length ethClients =? 0)%nat
            then mret (c, Some (Errorf "failed to connect to any RPC endpoint for %s"
                                  [OpStr (Name networkConfig)]))
            else
              initializeNetworks rest
                (mkClient (<[ChainID networkConfig := ethClients]> (clients c))
                          (<[ChainID networkConfig := contractInstance]> (contracts c))
                          (privateKey c) (address c) (timeout c))
        end
  end.

Definition NewClient (nets : list (string * NetworkConfig)) (config : ClientConfig)
  : M (option Client * option error) :=
  match HexToECDSA env (PrivateKeyHex config) with
  | Err e => mret (None, Some (Errorf "failed to parse private key: %w" [OpErr e]))
  | Ok key =>
      let client := mkClient ∅ ∅ key (PubkeyToAddress env key) (Timeout config) in
      let client :=
        if timeout client =? 0
        then mkClient (clients client) (contracts client) (privateKey client)
                      (address client) (30 * Second)
        else client in
      '(client, err) ← initializeNetworks nets client;
      match err with
      | Some e => mret (None, Some (Errorf "failed to initialize networks: %w" [OpErr e]))
      | None => mret (Some client, None)
      end
  end.

(** The loop of [GetClient]: probe the connections in order. *)
Fixpoint probe_clients (held : list EthClient) (chainID : Z)
  : M (option EthClient * option error) :=
  match held with
  | [] => mret (None, Some (Errorf "no available clients for chain ID %d" [OpInt chainID]))
  | client :: rest =>
      ctx ← WithTimeout Background (5 * Second);
      r ← call (fun h => rpcChainID env h client ctx) (EvChainID client ctx);
      match r with
      | Ok _ => mret (Some client, None)
      | Err _ => probe_clients rest chainID
      end
  end.

Definition GetClient (c : Client) (chainID : Z) : M (option EthClient * option error) :=
  match clients c !! chainID with
  | None =>
      mret (None, Some (Errorf "chain ID %d not supported or not connected" [OpInt chainID]))
  | Some held => probe_clients held chainID
  end.

Definition GetContract (c : Client) (chainID : Z) : M (option IDRX * option error) :=
  match contracts c !! chainID with
  | None =>
      mret (None, Some (Errorf "IDRX contract not available for chain ID %d" [OpInt chainID]))
  | Some contract => mret (contract, None)
  end.

Definition CreateTransactor (c : Client) (ctx : Context) (chainID : Z)
  : M (option TransactOpts * option error) :=
  '(client, err) ← GetClient c chainID;
  match err with
  | Some e => mret (None, Some e)
  | None =>
      cl ← deref client;
      r ← call (fun h => rpcChainID env h cl ctx) (EvChainID cl ctx);
      match r with
      | Err e => mret (None, Some (Errorf "failed to get chain ID: %w" [OpErr e]))
      | Ok clientChainID =>
          if negb (Uint64 clientChainID =? chainID)
          then mret (None,
                     Some (Errorf "client chain ID %d does not match requested chain ID %d"
                             [OpInt (Uint64 clientChainID); OpInt chainID]))
          else
            let transactor := NewKeyedTransactorWithChainID (address c) clientChainID in
            let '(networkConfig, _, found) := GetNetworkConfigByChainID chainID in
            if found then
              cfg ← deref networkConfig;
              mret (Some (mkTransactOpts (From transactor) (SignerChainID transactor)
                            (GasLimit cfg)
                            (if 0 <? MaxGasPrice cfg then Some (MaxGasPrice cfg)
                             else OptsGasPrice transactor)),
                    None)
            else mret (Some transactor, None)
      end
  end.

(** Both channels ready: the scheduler chooses. *)
Definition choose_ready : M bool :=
  fun w => (Ret (select_tick env (trace w)), w).

(** One [select] of the waiter: [true] when the ticker fires first (at
    [next]), [false] when the context is done first. *)
Definition select_tick_or_done (timeoutCtx : Context) (next : Z) : M bool :=
  match done_at timeoutCtx with
  | None => _ ← sleep_until next; mret true
  | Some d =>
      if next <? d then _ ← sleep_until next; mret true
      else if d <? next then _ ← sleep_until d; mret false
      else
        _ ← sleep_until d;
        choose_ready
  end.

(** The [for { select { ... } }] of [WaitForTransaction]; [next] is the
    instant of the next tick. *)
Fixpoint wait_loop (fuel : nat) (client : option EthClient) (timeoutCtx : Context)
    (period next : Z) (txHash : common.Hash) : M (option Receipt * option error) :=
  match fuel with
  | O => out_of_fuel
  | S fuel' =>
      tick ← select_tick_or_done timeoutCtx next;
      if tick : bool then
        cl ← deref client;
        r ← call (fun h => rpcTransactionReceipt env h cl timeoutCtx txHash)
                 (EvTransactionReceipt cl timeoutCtx txHash);
        match r with
        | Ok receipt => mret (Some receipt, None)
        | Err _ => wait_loop fuel' client timeoutCtx period (next + period) txHash
        end
      else
        mret (None, Some (Errorf "timeout waiting for transaction %s" [OpHash txHash]))
  end.

(** The ticks that can come before the context is done, and one more
    round for the end of the wait. *)
Definition wait_fuel (timeoutCtx : Context) (start period : Z) : nat :=
  match done_at timeoutCtx with
  | Some d => S (Z.to_nat ((d - start) / period))
  | None => O
  end.

Definition WaitForTransaction (c : Client) (ctx : Context) (chainID : Z)
    (txHash : common.Hash) : M (option Receipt * option error) :=
  '(client, err) ← GetClient c chainID;
  match err with
  | Some e => mret (None, Some e)
  | None =>
      let '(networkConfig, _, found) := GetNetworkConfigByChainID chainID in
      timeout ←
        (if found then
           cfg ← deref networkConfig;
           let t := wrap64 (BlockTime cfg * 10) in
           mret (if t <? Minute then Minute else t)
         else mret (5 * Minute));
      timeoutCtx ← WithTimeout ctx timeout;
      cfg ← deref networkConfig;
      let period := Z.quot (BlockTime cfg) 2 in
      if period <=? 0 then panic "non-positive interval for NewTicker"
      else
        start ← get_now;
        wait_loop (wait_fuel timeoutCtx start period) client timeoutCtx
                  period (start + period) txHash
  end.

Definition BurnBridge (c : Client) (ctx : Context) (request : BridgeRequest)
  : M (option Transaction * option error) :=
  '(contract, err) ← GetContract c (FromChainID request);
  match err with
  | Some e => mret (None, Some e)
  | None =>
      '(transactor, err) ← CreateTransactor c ctx (FromChainID request);
      match err with
      | Some e => mret (None, Some e)
      | None =>
          amount ← deref (RequestAmount request);
          wei ← or_panic "decimal" (ToWei amount);
          ci ← deref contract;
          opts ← deref transactor;
          r ← call (fun h => txBurnBridge env h ci opts wei (ToChainID request))
                   (EvBurnBridge ci opts wei (ToChainID request));
          match r with
          | Err e => mret (None, Some (Errorf "failed to burn for bridge: %w" [OpErr e]))
          | Ok tx => mret (Some tx, None)
          end
      end
  end.

Definition MintBridge (c : Client) (ctx : Context) (chainID : Z) (to : common.Address)
    (amount : option TokenAmount) (fromChainID : Z) (bridgeNonce : option Z)
  : M (option Transaction * option error) :=
  '(contract, err) ← GetContract c chainID;
  match err with
  | Some e => mret (None, Some e)
  | None =>
      '(transactor, err) ← CreateTransactor c ctx chainID;
      match err with
      | Some e => mret (None, Some e)
      | None =>
          ta ← deref amount;
          wei ← or_panic "decimal" (ToWei ta);
          ci ← deref contract;
          opts ← deref transactor;
          nonce ← deref bridgeNonce;
          r ← call (fun h => txMintBridge env h ci opts to wei fromChainID nonce)
                   (EvMintBridge ci opts to wei fromChainID nonce);
          match r with
          | Err e => mret (None, Some (Errorf "failed to mint bridge tokens: %w" [OpErr e]))
          | Ok tx => mret (Some tx, None)
          end
      end
  end.

Definition CompleteBridge (c : Client) (ctx : Context) (request : BridgeRequest)
  : M (option error) :=
  '(burnTx, err) ← BurnBridge c ctx request;
  match err with
  | Some e => mret (Some (Errorf "failed to burn on source chain: %w" [OpErr e]))
  | None =>
      tx ← deref burnTx;
      '(receipt, err) ← WaitForTransaction c ctx (FromChainID request) (Hash tx);
      match err with
      | Some e => mret (Some (Errorf "burn transaction failed: %w" [OpErr e]))
      | None =>
          rc ← deref receipt;
          if negb (Status rc =? ReceiptStatusSuccessful)
          then mret (Some (Errorf "burn transaction reverted" []))
          else
            let '(bridgeNonce, err) := extractBridgeNonceFromReceipt rc in
            match err with
            | Some e => mret (Some (Errorf "failed to extract bridge nonce: %w" [OpErr e]))
            | None =>
                '(_, err) ← MintBridge c ctx (ToChainID request) (ToAddress request)
                              (RequestAmount request) (FromChainID request) bridgeNonce;
                match err with
                | Some e =>
                    mret (Some (Errorf "failed to mint on destination chain: %w" [OpErr e]))
                | None => mret None
                end
            end
      end
  end.

End WithEnv.

(** ** A simulated environment, for running the client on concrete inputs *)

Module Sim.

(** The chain a node reports, what the contract calls and the receipt
    lookup answer, and which endpoints can be dialled. *)
Record Scenario : Type := mkScenario {
  dials : string -> bool;
  reports : EthClient -> result Z;
  receipt : result Receipt;
  burn : result Transaction;
  mint : result Transaction
}.

Definition sim (s : Scenario) : Env :=
  mkEnv (fun _ => Ok (mkPrivateKey 1))
        (fun _ => 0xabc)
        (fun a cl => Ok (mkIDRX a cl))
        (fun _ _ ep => if dials s ep then Ok (mkEthClient ep)
                       else Err (Errorf "dial failed" []))
        (fun _ cl _ => reports s cl)
        (fun _ _ _ _ => receipt s)
        (fun _ _ _ _ _ => burn s)
        (fun _ _ _ _ _ _ _ => mint s)
        (fun _ => true).

(** Every node reports the chain ID of the network it is listed under. *)
Definition honest (cl : EthClient) : result Z :=
  match find (fun '(_, cfg) =>
                existsb (String.eqb (rpcEndpoint cl)) (RPCEndpoints cfg))
             SupportedNetworks with
  | Some (_, cfg) => Ok (ChainID cfg)
  | None => Err (Errorf "connection refused" [])
  end.

Definition world0 : World := mkWorld 0 [].

Definition config0 : ClientConfig := mkClientConfig "01" 0.

(** What is left of an outcome when it is a value. *)
Definition value_of {A : Type} (r : outcome A * World) : option A :=
  match fst r with
  | Ret a => Some a
  | _ => None
  end.

(** The client [NewClient] builds in a scenario. *)
Definition client_of (s : Scenario) (config : ClientConfig) : M Client :=
  '(c, _) ← NewClient (sim s) SupportedNetworks config;
  deref c.

Definition no_client : Client := mkClient ∅ ∅ (mkPrivateKey 0) 0 0.

Definition client (s : Scenario) : Client :=
  default no_client (value_of (client_of s config0 world0)).

(** A bridge of 500 units from Base (two decimals) to Polygon. *)
Definition request_500 : BridgeRequest :=
  mkBridgeRequest (Some (mkTokenAmount (mkDecimal 500 0) 2)) PolygonChainID 0xbeef
                  BaseChainID.

(** A receipt with one log whose first topic is the zero hash and whose
    data is the 32-byte word of [n]. *)
Definition zero_topic_receipt (n : Z) : Receipt :=
  mkReceipt ReceiptStatusSuccessful [mkLog [0] (repeat 0 31 ++ [n])].

(** Honest nodes, every endpoint reachable, the burn accepted as
    transaction 77. *)
Definition bridging (receipt : result Receipt) (mint : result Transaction) : Scenario :=
  mkScenario (fun _ => true) honest receipt (Ok (mkTransaction 77)) mint.

Definition reverted : error := Errorf "execution reverted" [].

End Sim.

(** ** What the specification says, in its own words *)

(** [round(amount * 10 ^ decimals)]: the nearest integer, a half away
    from zero. *)
Definition spec_round_scaled (v k : Z) : Z :=
  if 0 <=? k then v * 10 ^ k
  else Z.quot (2 * v + Z.sgn v * 10 ^ (- k)) (2 * 10 ^ (- k)).

Definition spec_toBaseUnits (amount : Decimal) (decimals : Z) : Z :=
  spec_round_scaled (value amount) (exp amount + decimals).

(** An error value that carries a nonce holds it among its integers. *)
Definition spec_carries_nonce (e : error) (nonce : Z) : Prop :=
  In nonce (error_ints e).

(** The validation of a bridge request: both chains registered and
    distinct, the amount non-zero and with no more fractional digits than
    the source chain has decimals. *)
Definition spec_valid_request (request : BridgeRequest) : bool :=
  IsChainSupported (FromChainID request)
  && IsChainSupported (ToChainID request)
  && negb (FromChainID request =? ToChainID request)
  && match RequestAmount request with
     | Some ta =>
         negb (value (Amount ta) =? 0)
         && (- GetDecimals (FromChainID request) <=? exp (Amount ta))
     | None => false
     end.

(** The deadline of a dial or of a JSON-RPC call is a given timeout after
    the instant of the call. *)
Definition spec_deadline_is (t : Z) (st : Z * Event) : Prop :=
  match snd st with
  | EvDial _ ctx | EvChainID _ ctx | EvTransactionReceipt _ ctx _ =>
      ctx = mkContext (Some (fst st + t))
  | _ => True
  end.

(** ** Projections of a history *)

Definition is_mint (st : Z * Event) : bool :=
  match snd st with EvMintBridge _ _ _ _ _ _ => true | _ => false end.
Definition is_burn (st : Z * Event) : bool :=
  match snd st with EvBurnBridge _ _ _ _ => true | _ => false end.
Definition is_dial (st : Z * Event) : bool :=
  match snd st with EvDial _ _ => true | _ => false end.

Definition mint_calls (h : History) : list Event := map snd (List.filter is_mint h).
Definition burn_calls (h : History) : list Event := map snd (List.filter is_burn h).

(** [trunc(v * 10 ^ k)], the truncation toward zero. *)
Definition trunc_scaled (v k : Z) : Z :=
  if 0 <=? k then v * 10 ^ k else Z.quot v (10 ^ (- k)).

(** ** The vocabulary of the statements *)

Definition chain_of (entry : string * NetworkConfig) : Z := ChainID (snd entry).


(** [quiet f m]: the computation [m] makes no call of the kind [f]. *)
Definition quiet {A : Type} (f : Z * Event -> bool) (m : M A) : Prop :=
  forall w, List.filter f (trace (snd (m w))) = List.filter f (trace w).

Section Vocabulary.

Variable env : Env.

(** The context of a probe made in the world [w], the record of the
    probe, and the answer the [i]-th connection gives after the probes
    of the connections before it. *)
Definition probe_context (w : World) : Context :=
  mkContext (Some (now w + 5 * Second)).

Definition probe_event (w : World) (client : EthClient) : Z * Event :=
  (now w, EvChainID client (probe_context w)).

Definition probe_answer (w : World) (held : list EthClient) (i : nat)
    (client : EthClient) : result Z :=
  rpcChainID env (trace w ++ map (probe_event w) (take i held)) client (probe_context w).

Definition all_before_fail (w : World) (held : list EthClient) (i : nat) : Prop :=
  forall j cl, (j < i)%nat -> held !! j = Some cl ->
               exists e, probe_answer w held j cl = Err e.

Definition found_at (w : World) (held : list EthClient) (chainID : Z)
    (r : outcome (option EthClient * option error) * World) : Prop :=
  exists i client n,
    held !! i = Some client
    /\ probe_answer w held i client = Ok n
    /\ all_before_fail w held i
    /\ r = (Ret (Some client, None),
            mkWorld (now w) (trace w ++ map (probe_event w) (take (S i) held))).

Definition none_available (w : World) (held : list EthClient) (chainID : Z)
    (r : outcome (option EthClient * option error) * World) : Prop :=
  all_before_fail w held (length held)
  /\ r = (Ret (None, Some (Errorf "no available clients for chain ID %d" [OpInt chainID])),
          mkWorld (now w) (trace w ++ map (probe_event w) held)).

Definition timeout_error (txHash : common.Hash) : error :=
  Errorf "timeout waiting for transaction %s" [OpHash txHash].

(** The polls of a wait: one receipt lookup at each tick, [first] being
    the instant of the first of them. *)
Definition polls (client : EthClient) (timeoutCtx : Context) (txHash : common.Hash)
    (first period : Z) (n : nat) : History :=
  map (fun k => (first + Z.of_nat k * period,
                 EvTransactionReceipt client timeoutCtx txHash))
      (seq 0 n).

(** The deadline of a wait started at [start] under the caller's
    context [ctx], for a network with block time [blockTime]. *)
Definition wait_deadline (ctx : Context) (start blockTime : Z) : Z :=
  match done_at ctx with
  | Some p => Z.min p (start + Z.max (blockTime * 10) Minute)
  | None => start + Z.max (blockTime * 10) Minute
  end.

(** A dial made under a context that is done [t] after the call. *)
Definition dial_under (t : Z) (st : Z * Event) : Prop :=
  exists rpcEndpoint, snd st = EvDial rpcEndpoint (mkContext (Some (fst st + t))).

End Vocabulary.

(** * The rest of the package *)

(** ** networks.go: the other lookups

    A function that ranges over the map takes the enumeration [nets] it
    ranges over. *)

Definition GetSupportedNetworks (nets : list (string * NetworkConfig)) : list string :=
  map fst nets.

Definition GetSupportedChainIDs (nets : list (string * NetworkConfig)) : list Z :=
  map (fun entry => ChainID (snd entry)) nets.

Definition IsNetworkSupported (networkName : string) : bool :=
  match lookup_name SupportedNetworks networkName with
  | Some _ => true
  | None => false
  end.

(** [GetMainnetNetworks]: the entries of the map it builds. *)
Definition GetMainnetNetworks (nets : list (string * NetworkConfig))
  : list (string * NetworkConfig) :=
  List.filter (fun entry => negb (IsTestnet (snd entry))) nets.

(** The loop of [GetNetworkNameByChainID]. *)
Fixpoint find_name (nets : list (string * NetworkConfig)) (chainID : Z) : string * bool :=
  match nets with
  | [] => ("", false)
  | (networkName, config) :: rest =>
      if ChainID config =? chainID then (networkName, true)
      else find_name rest chainID
  end.

Definition GetNetworkNameByChainID (chainID : Z) : string * bool :=
  find_name SupportedNetworks chainID.

(** ** token.go: [String]

    [StringFixed] of the decimal library: round to [places] fractional
    digits, a half away from zero, and print with exactly that many. *)

From stdpp Require Import pretty.

Local Open Scope string_scope.
Local Open Scope list_scope.
Local Open Scope Z_scope.

(** [int32] arithmetic wraps around. *)
Definition wrap32 (n : Z) : Z := (n + 2 ^ 31) mod 2 ^ 32 - 2 ^ 31.

Definition Round (d : Decimal) (places : Z) : Decimal :=
  if exp d =? wrap32 (- places) then d
  else
    let ret := rescale d (wrap32 (wrap32 (- places) - 1)) in
    let shifted := if value ret <? 0 then value ret - 5 else value ret + 5 in
    let q := shifted / 10 in
    let m := shifted mod 10 in
    mkDecimal (if (q <? 0) && negb (m =? 0) then q + 1 else q) (wrap32 (exp ret + 1)).

Fixpoint zeros (n : nat) : string :=
  match n with
  | O => EmptyString
  | S n' => String "0" (zeros n')
  end.

(** The unexported [string(false)]: no trailing zero is cut. *)
Definition decimal_string (d : Decimal) : string :=
  if 0 <=? exp d then pretty (value (rescale d 0))
  else
    let str := pretty (Z.abs (value d)) in
    let len := String.length str in
    let dExpInt := Z.to_nat (- exp d) in
    let '(intPart, fractionalPart) :=
      if (dExpInt <? len)%nat
      then (substring 0 (len - dExpInt) str, substring (len - dExpInt) dExpInt str)
      else ("0", (zeros (dExpInt - len) ++ str)%string) in
    let number :=
      if (0 <? String.length fractionalPart)%nat
      then (intPart ++ "." ++ fractionalPart)%string
      else intPart in
    if value d <? 0 then ("-" ++ number)%string else number.

Definition StringFixed (d : Decimal) (places : Z) : string :=
  decimal_string (Round d places).

(** [TokenAmount.String]. *)
Definition TokenAmount_String (ta : TokenAmount) : string :=
  StringFixed (Amount ta) (Decimals ta).

(** A string of decimal digits. *)
Fixpoint all_digits (s : string) : bool :=
  match s with
  | EmptyString => true
  | String c s' => is_digit c && all_digits s'
  end.

(** The characters of a decimal literal: digits, the two signs, the point
    and the two exponent marks. *)
Definition is_numeral_char (c : ascii) : bool :=
  is_digit c || is_e c || is_dot c || Ascii.eqb c "+" || Ascii.eqb c "-".

Fixpoint all_numeral (s : string) : bool :=
  match s with
  | EmptyString => true
  | String c s' => is_numeral_char c && all_numeral s'
  end.

(** ** client.go: the lookups by network name *)

Definition GetAddress (c : Client) : common.Address := address c.

Definition GetClientByNetwork (env : Env) (c : Client) (networkName : string)
  : M (option EthClient * option error) :=
  let '(networkConfig, found) := GetNetworkConfig networkName in
  if negb found
  then mret (None, Some (Errorf "network %s not supported" [OpStr networkName]))
  else
    cfg ← deref networkConfig;
    GetClient env c (ChainID cfg).

Definition GetContractByNetwork (c : Client) (networkName : string)
  : M (option IDRX * option error) :=
  let '(networkConfig, found) := GetNetworkConfig networkName in
  if negb found
  then mret (None, Some (Errorf "network %s not supported" [OpStr networkName]))
  else
    cfg ← deref networkConfig;
    GetContract c (ChainID cfg).

(** ** The vocabulary of the further statements *)

(** A pool entry and a contract entry that belong together: the held
    connections are not empty and the contract is the binding of the
    network's contract address over the first of them. *)
Definition bound_entry (env : Env) (nets : list (string * NetworkConfig)) (chainID : Z)
    (held : list EthClient) (contract : option IDRX) : Prop :=
  exists cl rest ci n cfg,
    held = cl :: rest
    /\ contract = Some ci
    /\ In (n, cfg) nets
    /\ ChainID cfg = chainID
    /\ ContractAddress cfg <> 0
    /\ NewIDRX env (ContractAddress cfg) cl = Ok ci.

(** The two maps of a client have the same keys, with entries that belong
    together. *)
Definition pool_bound (env : Env) (nets : list (string * NetworkConfig)) (c : Client)
  : Prop :=
  forall chainID,
    match clients c !! chainID, contracts c !! chainID with
    | Some held, Some contract => bound_entry env nets chainID held contract
    | None, None => True
    | _, _ => False
    end.

(** The first topic of a log, if it has one. *)
Definition first_topic (log : Log) : option common.Hash :=
  match Topics log with
  | topic0 :: _ => Some topic0
  | [] => None
  end.

(** A result of the Go shape [(value, error)] with exactly one of the two. *)
Definition one_of {A : Type} (r : option A * option error) : Prop :=
  (exists a, r = (Some a, None)) \/ (exists e, r = (None, Some e)).

(** The accumulators of the dial loop: no connection and no contract yet,
    or a first connection and the contract bound over it. *)
Definition dialled (env : Env) (networkConfig : NetworkConfig) (ethClients : list EthClient)
    (contractInstance : option IDRX) : Prop :=
  (ethClients = [] /\ contractInstance = None)
  \/ exists cl rest ci,
      ethClients = cl :: rest /\ contractInstance = Some ci
      /\ NewIDRX env (ContractAddress networkConfig) cl = Ok ci.


(** The record of a dial made in the world [w] by the client [c]. *)
Definition dial_event (c : Client) (w : World) (rpcEndpoint : string) : Z * Event :=
  (now w, EvDial rpcEndpoint (mkContext (Some (now w + timeout c)))).

(** The client [NewClient] starts from. *)
Definition fresh_client (env : Env) (key : PrivateKey) (config : ClientConfig) : Client :=
  mkClient ∅ ∅ key (PubkeyToAddress env key)
           (if Timeout config =? 0 then 30 * Second else Timeout config).

(** The error of an extraction that finds no log. *)
Definition nonce_not_found : error :=
  Errorf "bridge nonce not found in transaction receipt" [].

(** A log that the extraction takes for the bridge event. *)
Definition zero_topic (log : Log) : Prop := first_topic log = Some 0.

(** ** token.go: the token operations

    The calls of these operations that the bridge does not make are
    recorded in a second history, beside the world; the environment
    answers them from both histories. *)

Inductive TokenCall : Type :=
| CallBalanceOf (contract : IDRX) (address : common.Address)
| CallTotalSupply (contract : IDRX)
| CallTransfer (contract : IDRX) (opts : TransactOpts) (to : common.Address) (amount : Z)
| CallMint (contract : IDRX) (opts : TransactOpts) (to : common.Address) (amount : Z)
| CallBurn (contract : IDRX) (opts : TransactOpts) (amount : Z)
| CallBurnWithAccountNumber (contract : IDRX) (opts : TransactOpts) (amount : Z)
    (accountNumber : string)
| CallTransactionByHash (client : EthClient) (ctx : Context) (txHash : common.Hash).

Definition TokenHistory : Type := list (Z * TokenCall).

(** [TransactionByHash] answers whether the transaction is pending; the
    transaction itself is not used by its caller. *)
Record TokenEnv : Type := mkTokenEnv {
  callBalanceOf : History -> TokenHistory -> IDRX -> common.Address -> result Z;
  callTotalSupply : History -> TokenHistory -> IDRX -> result Z;
  txTransfer : History -> TokenHistory -> IDRX -> TransactOpts -> common.Address -> Z
               -> result Transaction;
  txMint : History -> TokenHistory -> IDRX -> TransactOpts -> common.Address -> Z
           -> result Transaction;
  txBurn : History -> TokenHistory -> IDRX -> TransactOpts -> Z -> result Transaction;
  txBurnWithAccountNumber : History -> TokenHistory -> IDRX -> TransactOpts -> Z -> string
                            -> result Transaction;
  rpcTransactionByHash : History -> TokenHistory -> EthClient -> Context -> common.Hash
                         -> result bool
}.

Record Ledger : Type := mkLedger { world : World; calls : TokenHistory }.

Definition T (A : Type) : Type := Ledger -> outcome A * Ledger.

Global Instance T_ret : MRet T := fun A a l => (Ret a, l).
Global Instance T_bind : MBind T := fun A B f m l =>
  match m l with
  | (Ret a, l') => f a l'
  | (Panic msg, l') => (Panic msg, l')
  | (OutOfFuel, l') => (OutOfFuel, l')
  end.

(** A computation over the world, run on the world of the ledger. *)
Definition lift {A : Type} (m : M A) : T A :=
  fun l => let '(o, w) := m (world l) in (o, mkLedger w (calls l)).

Definition token_call {A : Type} (answer : History -> TokenHistory -> A) (ev : TokenCall)
  : T A :=
  fun l => (Ret (answer (trace (world l)) (calls l)),
            mkLedger (world l) (calls l ++ [(now (world l), ev)])).

Section TokenOperations.

Variable env : Env.
Variable tenv : TokenEnv.

(** [BalanceOf]; the context it is given is not used. *)
Definition BalanceOf (c : Client) (_ : Context) (chainID : Z) (address : common.Address)
  : T (option TokenAmount * option error) :=
  '(contract, err) ← lift (GetContract c chainID);
  match err with
  | Some e => mret (None, Some e)
  | None =>
      ci ← lift (deref contract);
      r ← token_call (fun h th => callBalanceOf tenv h th ci address)
                     (CallBalanceOf ci address);
      match r with
      | Err e => mret (None, Some (Errorf "failed to get balance: %w" [OpErr e]))
      | Ok balance =>
          ta ← lift (or_panic "decimal" (FromWei balance (GetDecimals chainID)));
          mret (Some ta, None)
      end
  end.


Definition Transfer (c : Client) (ctx : Context) (chainID : Z) (to : common.Address)
    (amount : option TokenAmount) : T (option Transaction * option error) :=
  '(contract, err) ← lift (GetContract c chainID);
  match err with
  | Some e => mret (None, Some e)
  | None =>
      '(transactor, err) ← lift (CreateTransactor env c ctx chainID);
      match err with
      | Some e => mret (None, Some e)
      | None =>
          ta ← lift (deref amount);
          wei ← lift (or_panic "decimal" (ToWei ta));
          ci ← lift (deref contract);
          opts ← lift (deref transactor);
          r ← token_call (fun h th => txTransfer tenv h th ci opts to wei)
                         (CallTransfer ci opts to wei);
          match r with
          | Err e => mret (None, Some (Errorf "failed to transfer tokens: %w" [OpErr e]))
          | Ok tx => mret (Some tx, None)
          end
      end
  end.



Definition BurnWithAccountNumber (c : Client) (ctx : Context) (chainID : Z)
    (amount : option TokenAmount) (accountNumber : string)
  : T (option Transaction * option error) :=
  '(contract, err) ← lift (GetContract c chainID);
  match err with
  | Some e => mret (None, Some e)
  | None =>
      '(transactor, err) ← lift (CreateTransactor env c ctx chainID);
      match err with
      | Some e => mret (None, Some e)
      | None =>
          ta ← lift (deref amount);
          wei ← lift (or_panic "decimal" (ToWei ta));
          ci ← lift (deref contract);
          opts ← lift (deref transactor);
          r ← token_call (fun h th => txBurnWithAccountNumber tenv h th ci opts wei
                                        accountNumber)
                         (CallBurnWithAccountNumber ci opts wei accountNumber);
          match r with
          | Err e =>
              mret (None,
                    Some (Errorf "failed to burn tokens with account number: %w" [OpErr e]))
          | Ok tx => mret (Some tx, None)
          end
      end
  end.

End TokenOperations.

(** ** The callers: the service and the facade of package [idrx] *)

(** [Hash.Hex]: the 32 bytes in lower-case hexadecimal after "0x". *)
Definition hex_char (n : Z) : ascii :=
  match String.get (Z.to_nat n) "0123456789abcdef" with
  | Some c => c
  | None => "0"%char
  end.

Fixpoint hex_digits (digits : nat) (n : Z) : string :=
  match digits with
  | O => ""
  | S digits' => (hex_digits digits' (n / 16) ++ String (hex_char (n mod 16)) "")%string
  end.

Definition Hash_Hex (h : common.Hash) : string := ("0x" ++ hex_digits 64 h)%string.

Module idrx.

(** [BlockchainService]: its client is a pointer. *)
Record BlockchainService : Type := mkBlockchainService { client : option Client }.

Definition NewBlockchainService (client : option Client) : BlockchainService :=
  mkBlockchainService client.

Record BridgeTransactionRequest : Type := mkBridgeTransactionRequest {
  FromChainID : Z;
  ToChainID : Z;
  ToAddress : string;
  Amount : string
}.

Record BridgeResult : Type := mkBridgeResult {
  ResultTxHash : string;
  ResultFromChainID : Z;
  ResultToChainID : Z;
  ResultToAddress : string;
  ResultAmount : string;
  ResultStatus : string
}.

(** [InitiateBridge]: both chains are looked up and the amount is parsed,
    at 18 decimals, before the burn is sent. *)
Definition InitiateBridge (env : Env) (bs : BlockchainService) (ctx : Context)
    (request : BridgeTransactionRequest) : M (option BridgeResult * option error) :=
  if negb (IsChainSupported (FromChainID request))
  then mret (None, Some (Errorf "source chain %d not supported"
                           [OpInt (FromChainID request)]))
  else if negb (IsChainSupported (ToChainID request))
  then mret (None, Some (Errorf "destination chain %d not supported"
                           [OpInt (ToChainID request)]))
  else
    let '(tokenAmount, err) := ParseTokenAmount (Amount request) 18 in
    match err with
    | Some e => mret (None, Some (Errorf "invalid amount: %w" [OpErr e]))
    | None =>
        let bridgeRequest :=
          mkBridgeRequest tokenAmount (ToChainID request)
                          (common.HexToAddress (ToAddress request))
                          (FromChainID request) in
        c ← deref (client bs);
        '(tx, err) ← BurnBridge env c ctx bridgeRequest;
        match err with
        | Some e => mret (None, Some e)
        | None =>
            t ← deref tx;
            mret (Some (mkBridgeResult (Hash_Hex (Hash t)) (FromChainID request)
                          (ToChainID request) (ToAddress request) (Amount request)
                          "burning"),
                  None)
        end
    end.

(** [TransactionStatus]; the block number and the gas used are read from
    the receipt, whose record above does not hold them: they are given
    as functions of the receipt, the block number being a pointer. *)
Record TransactionStatus : Type := mkTransactionStatus {
  StatusTxHash : string;
  StatusChainID : Z;
  StatusText : string;
  StatusBlockNumber : Z;
  StatusGasUsed : Z
}.

Record TransferResult : Type := mkTransferResult {
  TransferTxHash : string;
  TransferChainID : Z;
  TransferTo : string;
  TransferAmount : string;
  TransferStatus : string
}.

Record BurnResult : Type := mkBurnResult {
  BurnTxHash : string;
  BurnChainID : Z;
  BurnAmount : string;
  BurnAccountNumber : string;
  BurnStatus : string
}.

Section ServiceOperations.

Variable env : Env.
Variable tenv : TokenEnv.
Variable BlockNumber : Receipt -> option Z.
Variable GasUsed : Receipt -> Z.

Definition GetBalance (bs : BlockchainService) (ctx : Context) (chainID : Z)
    (address : string) : T (option TokenAmount * option error) :=
  let addr := common.HexToAddress address in
  c ← lift (deref (client bs));
  BalanceOf tenv c ctx chainID addr.

Definition Transfer (bs : BlockchainService) (ctx : Context) (chainID : Z)
    (toAddress : string) (amount : string) : T (option TransferResult * option error) :=
  let to := common.HexToAddress toAddress in
  let '(tokenAmount, err) := ParseTokenAmount amount 18 in
  match err with
  | Some e => mret (None, Some (Errorf "invalid amount: %w" [OpErr e]))
  | None =>
      c ← lift (deref (client bs));
      '(tx, err) ← Transfer env tenv c ctx chainID to tokenAmount;
      match err with
      | Some e => mret (None, Some e)
      | None =>
          t ← lift (deref tx);
          mret (Some (mkTransferResult (Hash_Hex (Hash t)) chainID toAddress amount
                        "pending"),
                None)
      end
  end.

Definition BurnForRedemption (bs : BlockchainService) (ctx : Context) (chainID : Z)
    (amount : string) (accountNumber : string) : T (option BurnResult * option error) :=
  let '(tokenAmount, err) := ParseTokenAmount amount 18 in
  match err with
  | Some e => mret (None, Some (Errorf "invalid amount: %w" [OpErr e]))
  | None =>
      c ← lift (deref (client bs));
      '(tx, err) ← BurnWithAccountNumber env tenv c ctx chainID tokenAmount accountNumber;
      match err with
      | Some e => mret (None, Some e)
      | None =>
          t ← lift (deref tx);
          mret (Some (mkBurnResult (Hash_Hex (Hash t)) chainID amount accountNumber
                        "pending"),
                None)
      end
  end.

(** The end of [GetTransactionStatus]: the status read off the receipt,
    on both paths that reach it. *)
Definition status_of_receipt (txHash : string) (chainID : Z) (receipt : option Receipt)
  : T (option TransactionStatus * option error) :=
  rc ← lift (deref receipt);
  let status :=
    if negb (Status rc =? ReceiptStatusSuccessful) then "failed" else "success" in
  blockNumber ← lift (deref (BlockNumber rc));
  mret (Some (mkTransactionStatus txHash chainID status (Uint64 blockNumber) (GasUsed rc)),
        None).

(** [GetTransactionStatus]: when the receipt lookup fails the receipt
    is nil, and only a transaction that is pending, or a failed second
    lookup, returns before the receipt is read. *)
Definition GetTransactionStatus (bs : BlockchainService) (ctx : Context) (chainID : Z)
    (txHash : string) : T (option TransactionStatus * option error) :=
  c ← lift (deref (client bs));
  '(client, err) ← lift (GetClient env c chainID);
  match err with
  | Some e => mret (None, Some e)
  | None =>
      let hash := common.HexToHash txHash in
      cl ← lift (deref client);
      r ← lift (call (fun h => rpcTransactionReceipt env h cl ctx hash)
                     (EvTransactionReceipt cl ctx hash));
      match r with
      | Ok receipt => status_of_receipt txHash chainID (Some receipt)
      | Err _ =>
          p ← token_call (fun h th => rpcTransactionByHash tenv h th cl ctx hash)
                         (CallTransactionByHash cl ctx hash);
          match p with
          | Err e =>
              mret (None,
                    Some (Errorf "failed to check transaction status: %w" [OpErr e]))
          | Ok pending =>
              if pending : bool
              then mret (Some (mkTransactionStatus txHash chainID "pending" 0 0), None)
              else status_of_receipt txHash chainID None
          end
      end
  end.

End ServiceOperations.

(** The facade [Client], with the fields its options for the blockchain
    service read and write: the base URL, the HTTP client (a pointer; of
    the [http.Client] its [Timeout]) and the blockchain service.  The
    authentication provider and the two API services, which none of
    these options reads, are left out. *)
Record HTTPClient : Type := mkHTTPClient { HTTPTimeout : Z }.

Record Client : Type := mkClient {
  baseURL : string;
  httpClient : option HTTPClient;
  Blockchain : option BlockchainService
}.

(** [ClientOption]: a function that updates the client it is given. *)
Definition ClientOption : Type := Client -> M Client.

Definition WithBaseURL (baseURL : string) : ClientOption :=
  fun c => mret (mkClient baseURL (httpClient c) (Blockchain c)).

Definition WithHTTPClient (httpClient : option HTTPClient) : ClientOption :=
  fun c => mret (mkClient (baseURL c) httpClient (Blockchain c)).

Definition WithTimeout (timeout : Z) : ClientOption :=
  fun c =>
    _ ← deref (httpClient c);
    mret (mkClient (baseURL c) (Some (mkHTTPClient timeout)) (Blockchain c)).

(** The key as [WithBlockchain] hands it on: without a leading "0x" when
    something follows it. *)
Definition trim_0x (privateKeyHex : string) : string :=
  if (2 <? String.length privateKeyHex)%nat
     && String.eqb (substring 0 2 privateKeyHex) "0x"
  then substring 2 (String.length privateKeyHex - 2) privateKeyHex
  else privateKeyHex.

(** [WithBlockchain] over the enumeration [nets] the construction ranges
    over; a construction that fails leaves the client as it was. *)
Definition WithBlockchain (env : Env) (nets : list (string * NetworkConfig))
    (privateKeyHex : string) : ClientOption :=
  fun c =>
    let privateKeyHex := trim_0x privateKeyHex in
    hc ← deref (httpClient c);
    '(blockchainClient, err) ←
      NewClient env nets (mkClientConfig privateKeyHex (HTTPTimeout hc));
    match err with
    | Some _ => mret c
    | None =>
        mret (mkClient (baseURL c) (httpClient c)
                       (Some (NewBlockchainService blockchainClient)))
    end.

Fixpoint apply_options (opts : list ClientOption) (client : Client) : M Client :=
  match opts with
  | [] => mret client
  | opt :: rest => client' ← opt client; apply_options rest client'
  end.

(** The facade [NewClient]: the defaults, then the options in order. *)
Definition NewClient (opts : list ClientOption) : M Client :=
  apply_options opts
    (mkClient "https://idrx.co" (Some (mkHTTPClient (30 * Second))) None).

End idrx.

Definition is_Some_bool {A : Type} (o : option A) : bool :=
  match o with
  | Some _ => true
  | None => false
  end.

(** A key written in hexadecimal digits only. *)
Fixpoint all_hex (s : string) : bool :=
  match s with
  | EmptyString => true
  | String c s' => is_Some_bool (common.hex_digit c) && all_hex s'
  end.


(** How a token read ends, from the ledger [l]: the world is as it was;
    an amount comes out only of the one call [ev] to the bound contract,
    answered by [answer], and it has the decimals of the chain and
    converts back to the number the contract gave. *)
Definition read_outcome (c : Client) (chainID : Z) (l : Ledger)
    (ev : IDRX -> TokenCall) (answer : History -> TokenHistory -> IDRX -> result Z)
    (r : outcome (option TokenAmount * option error) * Ledger) : Prop :=
  world (snd r) = world l
  /\ forall ta err,
      fst r = Ret (Some ta, err) ->
      exists ci n,
        contracts c !! chainID = Some (Some ci)
        /\ answer (trace (world l)) (calls l) ci = Ok n
        /\ err = None
        /\ Decimals ta = GetDecimals chainID
        /\ ToWei ta = Some n
        /\ calls (snd r) = calls l ++ [(now (world l), ev ci)].

(** * Properties *)

(** ** Token amounts *)

Section TokenAmounts.

Lemma in_int32_0 : in_int32 0 = true.
Proof. reflexivity. Qed.

Lemma Mul_int (a b : Decimal) :
  exp a = 0 -> exp b = 0 -> Mul a b = Some (mkDecimal (value a * value b) 0).
Proof. intros Ha Hb. unfold Mul. rewrite Ha, Hb. reflexivity. Qed.

(** Square and multiply computes the power. *)
Lemma pow_loop_int (p : positive) :
  forall n r : Decimal, exp n = 0 -> exp r = 0 ->
    pow_loop p n r = Some (mkDecimal (value r * value n ^ Zpos p) 0).
Proof.
  induction p as [p IH | p IH |]; intros n r Hn Hr; cbn [pow_loop].
  - rewrite (Mul_int r n Hr Hn), (Mul_int n n Hn Hn). cbn [mbind option_bind].
    rewrite IH by reflexivity. cbn [value]. f_equal. f_equal.
    rewrite Pos2Z.inj_xI, Z.pow_add_r, Z.pow_mul_r, Z.pow_2_r, Z.pow_1_r by lia.
    ring.
  - rewrite (Mul_int n n Hn Hn). cbn [mbind option_bind].
    rewrite IH by first [reflexivity | assumption]. cbn [value]. f_equal. f_equal.
    rewrite Pos2Z.inj_xO, Z.pow_mul_r, Z.pow_2_r by lia. reflexivity.
  - rewrite (Mul_int r n Hr Hn). rewrite Z.pow_1_r. reflexivity.
Qed.

Lemma PowInt32_ten (d : Z) :
  0 <= d -> PowInt32 (NewFromInt 10) d = Some (mkDecimal (10 ^ d) 0).
Proof.
  intros Hd. destruct d as [| p | p]; [reflexivity | | lia].
  unfold PowInt32. rewrite pow_loop_int by reflexivity.
  cbn [value New NewFromInt]. rewrite Z.mul_1_l. reflexivity.
Qed.

Lemma BigInt_trunc (v e : Z) : BigInt (mkDecimal v e) = trunc_scaled v e.
Proof.
  unfold BigInt, rescale, trunc_scaled. cbn [exp value].
  destruct (Z.eqb_spec e 0) as [-> | Hne]; [cbn; lia |].
  destruct (Z.ltb_spec e 0), (Z.leb_spec 0 e); try lia; cbn [value].
  - rewrite Z.abs_eq by lia. repeat f_equal; lia.
  - rewrite Z.abs_neq by lia. repeat f_equal; lia.
Qed.

Lemma trunc_scaled_shift (v e d : Z) :
  0 <= d -> trunc_scaled (v * 10 ^ d) e = trunc_scaled v (e + d).
Proof.
  intros Hd. unfold trunc_scaled.
  destruct (Z.leb_spec 0 e), (Z.leb_spec 0 (e + d)); try lia.
  - rewrite Z.pow_add_r by lia. ring.
  - replace d with ((e + d) + (- e)) at 1 by lia.
    rewrite Z.pow_add_r by lia. rewrite Z.mul_assoc.
    apply Z.quot_mul. apply Z.pow_nonzero; lia.
  - replace (- e) with (- (e + d) + d) by lia.
    rewrite Z.pow_add_r by lia.
    apply Z.quot_mul_cancel_r; apply Z.pow_nonzero; lia.
Qed.

(** [ToWei] is the truncation of [amount * 10 ^ decimals]. *)
Lemma ToWei_trunc (ta : TokenAmount) :
  0 <= Decimals ta ->
  in_int32 (exp (Amount ta)) = true ->
  ToWei ta = Some (trunc_scaled (value (Amount ta)) (exp (Amount ta) + Decimals ta)).
Proof.
  intros Hd He. unfold ToWei. rewrite PowInt32_ten by assumption.
  cbn [mbind option_bind]. unfold Mul. cbn [exp value].
  rewrite Z.add_0_r, He. cbn [mbind option_bind].
  rewrite BigInt_trunc, trunc_scaled_shift by assumption. reflexivity.
Qed.

(** [FromWei] at a precision of at most 16 digits: the quotient is exact
    at the 16 digits [Div] keeps. *)
Lemma FromWei_exact (wei d : Z) :
  0 <= d <= 16 ->
  FromWei wei d = Some (mkTokenAmount (mkDecimal (wei * 10 ^ (16 - d)) (-16)) d).
Proof.
  intros Hd. unfold FromWei. rewrite PowInt32_ten by lia.
  cbn [mbind option_bind]. unfold Div, DivRound, QuoRem, DivisionPrecision.
  cbn [value exp NewFromBigInt].
  assert (Hpos : 0 < 10 ^ d) by (apply Z.pow_pos_nonneg; lia).
  destruct (Z.eqb_spec (10 ^ d) 0) as [H0 | _]; [lia |].
  replace (0 - 0 - - (16)) with 16 by reflexivity.
  change (in_int32 16) with true.
  cbn [negb]. change (16 <? 0) with false. cbv iota beta.
  assert (Hsplit : wei * 10 ^ 16 = wei * 10 ^ (16 - d) * 10 ^ d).
  { rewrite <- Z.mul_assoc, <- Z.pow_add_r by lia.
    replace (16 - d + d) with 16 by lia. reflexivity. }
  rewrite Hsplit, Z.quot_mul, Z.rem_mul by lia.
  cbn [value exp]. unfold Cmp, Abs. cbn [value exp].
  replace (- (16) + 0 + 16 =? 0) with true by reflexivity. cbv iota.
  rewrite (Z.sgn_neg (Z.abs 0 * 2 - Z.abs (10 ^ d))) by lia.
  reflexivity.
Qed.

(** Below 17 digits of precision the conversion to base units and back
    gives the amount it started from. *)
Lemma roundtrip_upto_16 (x : Decimal) (d : Z) :
  0 <= d <= 16 ->
  - d <= exp x ->
  in_int32 (exp x) = true ->
  exists wei ta,
    ToWei (mkTokenAmount x d) = Some wei
    /\ FromWei wei d = Some ta
    /\ Equal (Amount ta) x = true.
Proof.
  intros Hd Hx Hi.
  exists (value x * 10 ^ (exp x + d)), (mkTokenAmount
      (mkDecimal (value x * 10 ^ (exp x + d) * 10 ^ (16 - d)) (-16)) d).
  split; [| split].
  - rewrite ToWei_trunc by (cbn; assumption || lia). cbn [Amount Decimals].
    unfold trunc_scaled. destruct (Z.leb_spec 0 (exp x + d)); [reflexivity | lia].
  - apply FromWei_exact; assumption.
  - cbn [Amount]. unfold Equal, Cmp, RescalePair, rescale. cbn [value exp].
    assert (Hv : value x * 10 ^ (exp x + d) * 10 ^ (16 - d)
                 = value x * 10 ^ (exp x + 16)).
    { rewrite <- Z.mul_assoc, <- Z.pow_add_r by lia.
      replace (exp x + d + (16 - d)) with (exp x + 16) by lia. reflexivity. }
    destruct (Z.eqb_spec (-16) (exp x)) as [He | He].
    + rewrite Hv, <- He. cbn. rewrite Z.mul_1_r, Z.sub_diag. reflexivity.
    + destruct (Z.ltb_spec (-16) (exp x)); [| lia].
      destruct (Z.eqb_spec (exp x) (-16)); [lia |].
      destruct (Z.ltb_spec (exp x) (-16)); [lia |]. cbn [value].
      rewrite Hv, Z.abs_neq by lia.
      replace (- (-16 - exp x)) with (exp x + 16) by lia.
      rewrite Z.sub_diag. reflexivity.
Qed.

(** C6 (amended): for a precision [d >= 0], [ToWei] is
    [trunc(amount * 10 ^ d)], the exact product cut off toward zero:
    fractional digits beyond [d] are dropped, and no error is raised. *)
Theorem ToWei_truncates (amount : Decimal) (d : Z) :
  0 <= d ->
  in_int32 (exp amount) = true ->
  ToWei (mkTokenAmount amount d) = Some (trunc_scaled (value amount) (exp amount + d)).
Proof. intros Hd He. apply (ToWei_trunc (mkTokenAmount amount d)); assumption. Qed.

Lemma ToWei_truncates_witness :
  ToWei (mkTokenAmount (mkDecimal 1009 (-3)) 2) = Some (trunc_scaled 1009 (-3 + 2)).
Proof. apply (ToWei_truncates (mkDecimal 1009 (-3)) 2); [lia | reflexivity]. Defined.

(** C6 (as stated) fails: ["1.009"] at precision 2 gives 100 base units,
    not [round(100.9) = 101]; the third fractional digit is dropped. *)
Lemma ToWei_not_rounded :
  exists ta,
    ParseTokenAmount "1.009" 2 = (Some ta, None)
    /\ ToWei ta = Some 100
    /\ spec_toBaseUnits (Amount ta) (Decimals ta) = 101
    /\ ToWei ta <> Some (spec_toBaseUnits (Amount ta) (Decimals ta)).
Proof.
  exists (mkTokenAmount (mkDecimal 1009 (-3)) 2).
  repeat split; try reflexivity. vm_compute. discriminate.
Qed.

(** C5: at precision 17 the amount [0.00000000000000001], which has 17
    fractional digits, is one base unit, and [FromWei] of one base unit
    is zero: [Div] keeps 16 digits. *)
Theorem roundtrip_fails_at_17 :
  exists ta back,
    ParseTokenAmount "0.00000000000000001" 17 = (Some ta, None)
    /\ - Decimals ta <= exp (Amount ta)
    /\ ToWei ta = Some 1
    /\ FromWei 1 17 = Some back
    /\ Amount back = mkDecimal 0 (-16)
    /\ Equal (Amount back) (Amount ta) = false.
Proof.
  exists (mkTokenAmount (mkDecimal 1 (-17)) 17),
         (mkTokenAmount (mkDecimal 0 (-16)) 17).
  repeat split; try (vm_compute; reflexivity). vm_compute. discriminate.
Qed.

(** The scenario of the specification: ["1000.50"] at precision 2. *)
Example parse_1000_50 :
  exists ta, ParseTokenAmount "1000.50" 2 = (Some ta, None) /\ ToWei ta = Some 100050.
Proof. eexists. split; reflexivity. Qed.

End TokenAmounts.

(** ** The registry *)

Section Registry.

Lemma find_chain_absent (nets : list (string * NetworkConfig)) (chainID : Z) :
  (forall entry, In entry nets -> chain_of entry <> chainID) ->
  find_chain nets chainID = (None, "", false).
Proof.
  induction nets as [| [n cfg] rest IH]; intros Habs; [reflexivity |].
  cbn [find_chain]. destruct (Z.eqb_spec (ChainID cfg) chainID) as [Heq | _].
  - exfalso. apply (Habs (n, cfg)); [left; reflexivity | exact Heq].
  - apply IH. intros entry Hin. apply Habs. right. exact Hin.
Qed.

Lemma find_chain_present (nets : list (string * NetworkConfig)) (n : string)
    (cfg : NetworkConfig) :
  List.NoDup (map chain_of nets) ->
  In (n, cfg) nets ->
  find_chain nets (ChainID cfg) = (Some cfg, n, true).
Proof.
  induction nets as [| [n' cfg'] rest IH]; intros Hnd Hin; [destruct Hin |].
  cbn [find_chain]. inversion Hnd as [| ? ? Hnotin Hnd']; subst.
  destruct Hin as [Heq | Hin].
  - inversion Heq; subst. rewrite Z.eqb_refl. reflexivity.
  - destruct (Z.eqb_spec (ChainID cfg') (ChainID cfg)) as [Heq | _].
    + exfalso. apply Hnotin. change (chain_of (n', cfg')) with (ChainID cfg').
      rewrite Heq. apply (in_map chain_of _ (n, cfg)). exact Hin.
    + apply IH; assumption.
Qed.

(** The lookup by chain ID does not depend on the order in which the map
    is enumerated. *)
Lemma find_chain_order (nets nets' : list (string * NetworkConfig)) (chainID : Z) :
  List.NoDup (map chain_of nets) ->
  Permutation nets nets' ->
  find_chain nets' chainID = find_chain nets chainID.
Proof.
  intros Hnd Hperm.
  assert (Hnd' : List.NoDup (map chain_of nets'))
    by (eapply Permutation_NoDup; [apply Permutation_map; exact Hperm | exact Hnd]).
  destruct (existsb (fun e => chain_of e =? chainID) nets) eqn:Hex.
  - apply existsb_exists in Hex as [[n cfg] [Hin Heq]].
    apply Z.eqb_eq in Heq. unfold chain_of in Heq. cbn in Heq. subst chainID.
    rewrite (find_chain_present nets n cfg Hnd Hin).
    apply find_chain_present; [exact Hnd' |].
    eapply Permutation_in; eassumption.
  - assert (Habs : forall entry, In entry nets -> chain_of entry <> chainID).
    { intros entry Hin Heq.
      assert (existsb (fun e => chain_of e =? chainID) nets = true) as Ht
        by (apply existsb_exists; exists entry; split; [exact Hin | apply Z.eqb_eq, Heq]).
      congruence. }
    rewrite (find_chain_absent nets chainID Habs).
    apply find_chain_absent. intros entry Hin. apply Habs.
    eapply Permutation_in; [symmetry; exact Hperm | exact Hin].
Qed.

Lemma SupportedNetworks_chains_NoDup : List.NoDup (map chain_of SupportedNetworks).
Proof.
  change (map chain_of SupportedNetworks)
    with [8453; 137; 56; 1135; 8217; 480; 42793; 100].
  repeat (constructor; [cbn; intuition lia |]). constructor.
Qed.

Lemma find_chain_found (nets : list (string * NetworkConfig)) (chainID : Z)
    (cfg : option NetworkConfig) (n : string) :
  find_chain nets chainID = (cfg, n, true) ->
  exists c, cfg = Some c /\ In (n, c) nets /\ ChainID c = chainID.
Proof.
  induction nets as [| [n' cfg'] rest IH]; cbn [find_chain]; intros H; [discriminate |].
  destruct (Z.eqb_spec (ChainID cfg') chainID) as [Heq | _].
  - inversion H; subst. exists cfg'. repeat split. left. reflexivity.
  - destruct (IH H) as (c & -> & Hin & Hc). exists c. repeat split; [right |]; assumption.
Qed.

Lemma find_chain_not_found (nets : list (string * NetworkConfig)) (chainID : Z)
    (cfg : option NetworkConfig) (n : string) :
  find_chain nets chainID = (cfg, n, false) -> cfg = None.
Proof.
  induction nets as [| [n' cfg'] rest IH]; cbn [find_chain]; intros H.
  - inversion H. reflexivity.
  - destruct (ChainID cfg' =? chainID); [discriminate | apply IH, H].
Qed.

(** The block times of the registered networks. *)
Lemma registered_block_time (chainID : Z) (cfg : NetworkConfig) (n : string) :
  GetNetworkConfigByChainID chainID = (Some cfg, n, true) ->
  BlockTime cfg = 2 * Second \/ BlockTime cfg = 3 * Second \/ BlockTime cfg = 5 * Second.
Proof.
  intros H. apply find_chain_found in H as (c & Hc & Hin & _).
  inversion Hc; subst c. unfold SupportedNetworks in Hin.
  repeat (destruct Hin as [Hin | Hin];
          [inversion Hin; cbn [BlockTime]; auto |]).
  destruct Hin.
Qed.

End Registry.

(** The cases of the repository's tests of the registry. *)
Example GetDecimals_registered :
  map GetDecimals [8453; 137; 56; 1135; 8217; 480; 42793; 100] = [2; 0; 0; 2; 2; 2; 2; 2].
Proof. reflexivity. Qed.

Example GetDecimals_fallback : GetDecimals 999999 = 2.
Proof. reflexivity. Qed.

Example chain_lookup_names :
  map (fun id => snd (fst (GetNetworkConfigByChainID id)))
      [8453; 137; 56; 1135; 8217; 480; 42793; 100]
  = [BaseMainnet; PolygonMainnet; BSCMainnet; LiskMainnet; KaiaMainnet;
     WorldChainMainnet; EtherlinkMainnet; GnosisMainnet].
Proof. reflexivity. Qed.

Example IsChainSupported_unknown : IsChainSupported 999999 = false.
Proof. reflexivity. Qed.

(** ** Running computations *)

Section Running.

Context {A B : Type}.

Lemma bind_ret (m : M A) (f : A -> M B) (w w1 : World) (a : A) :
  m w = (Ret a, w1) -> (m ≫= f) w = f a w1.
Proof. intros H. unfold mbind, M_bind. rewrite H. reflexivity. Qed.

Lemma bind_panic (m : M A) (f : A -> M B) (w w1 : World) (msg : string) :
  m w = (Panic msg, w1) -> (m ≫= f) w = (Panic msg, w1).
Proof. intros H. unfold mbind, M_bind. rewrite H. reflexivity. Qed.

Lemma bind_out_of_fuel (m : M A) (f : A -> M B) (w w1 : World) :
  m w = (OutOfFuel, w1) -> (m ≫= f) w = (OutOfFuel, w1).
Proof. intros H. unfold mbind, M_bind. rewrite H. reflexivity. Qed.

End Running.

(** Unfold the plumbing of the monad. *)
Ltac run :=
  cbv [mbind M_bind mret M_ret WithTimeout get_now call sleep_until panic
       out_of_fuel or_panic deref Background];
  cbn [done_at now trace fst snd].

Section Quiet.

Context {A B : Type} (f : Z * Event -> bool).

Lemma quiet_ret (a : A) : quiet f (mret a).
Proof. intros w. reflexivity. Qed.

Lemma quiet_panic (msg : string) : quiet f (panic (A := A) msg).
Proof. intros w. reflexivity. Qed.

Lemma quiet_out_of_fuel : quiet f (out_of_fuel (A := A)).
Proof. intros w. reflexivity. Qed.

Lemma quiet_bind (m : M A) (k : A -> M B) :
  quiet f m -> (forall a, quiet f (k a)) -> quiet f (m ≫= k).
Proof.
  intros Hm Hk w. specialize (Hm w). unfold mbind, M_bind.
  destruct (m w) as [[a | msg |] w1]; cbn [snd] in *; [| exact Hm | exact Hm].
  rewrite (Hk a w1). exact Hm.
Qed.

Lemma quiet_call (answer : History -> A) (ev : Event) :
  (forall t, f (t, ev) = false) -> quiet f (call answer ev).
Proof.
  intros Hf w. unfold call. cbn [snd trace].
  rewrite List.filter_app. cbn [List.filter]. rewrite Hf. apply app_nil_r.
Qed.

Lemma quiet_or_panic (msg : string) (o : option A) : quiet f (or_panic msg o).
Proof. destruct o; [apply quiet_ret | apply quiet_panic]. Qed.

Lemma quiet_deref (o : option A) : quiet f (deref o).
Proof. apply quiet_or_panic. Qed.

End Quiet.

Lemma quiet_get_now (f : Z * Event -> bool) : quiet f get_now.
Proof. intros w. reflexivity. Qed.

Lemma quiet_sleep_until (f : Z * Event -> bool) (t : Z) : quiet f (sleep_until t).
Proof. intros w. reflexivity. Qed.

Lemma quiet_WithTimeout (f : Z * Event -> bool) (ctx : Context) (d : Z) :
  quiet f (WithTimeout ctx d).
Proof. intros w. reflexivity. Qed.

Lemma world_eta (w : World) : mkWorld (now w) (trace w) = w.
Proof. destruct w. reflexivity. Qed.

(** ** The connection pool: [GetClient] *)

Section Pool.

Variable env : Env.

Lemma probe_clients_cons (chainID : Z) (cl : EthClient) (rest : list EthClient)
    (w : World) :
  probe_clients env (cl :: rest) chainID w
  = let w1 := mkWorld (now w) (trace w ++ [probe_event w cl]) in
    match rpcChainID env (trace w) cl (probe_context w) with
    | Ok _ => (Ret (Some cl, None), w1)
    | Err _ => probe_clients env rest chainID w1
    end.
Proof.
  cbn [probe_clients]. run. unfold probe_context, probe_event.
  destruct (rpcChainID env (trace w) cl (mkContext (Some (now w + 5 * Second))));
    reflexivity.
Qed.

Lemma probe_clients_spec (chainID : Z) (held : list EthClient) :
  forall w,
    found_at env w held chainID (probe_clients env held chainID w)
    \/ none_available env w held chainID (probe_clients env held chainID w).
Proof.
  induction held as [| cl rest IH]; intros w.
  - right. split.
    + intros j c Hj. inversion Hj.
    + cbn. rewrite app_nil_r, world_eta. reflexivity.
  - rewrite probe_clients_cons. cbv zeta.
    destruct (rpcChainID env (trace w) cl (probe_context w)) as [n | e] eqn:Hans.
    + left. exists O, cl, n. repeat split.
      * unfold probe_answer. cbn [take map]. rewrite app_nil_r. exact Hans.
      * intros j c Hj. inversion Hj.
    + set (w1 := mkWorld (now w) (trace w ++ [probe_event w cl])).
      assert (Hshift : forall i c, probe_answer env w1 rest i c = probe_answer env w (cl :: rest) (S i) c).
      { intros i c. unfold probe_answer. cbn [take map]. unfold w1. cbn [trace now].
        rewrite <- app_assoc. reflexivity. }
      assert (Htrace : forall l, trace w1 ++ map (probe_event w1) l
                                 = trace w ++ map (probe_event w) (cl :: l)).
      { intros l. unfold w1. cbn [trace now map]. rewrite <- app_assoc. reflexivity. }
      assert (Hfail : forall i, all_before_fail env w1 rest i ->
                                all_before_fail env w (cl :: rest) (S i)).
      { intros i Hall j c Hj Hlook. destruct j as [| j].
        - cbn in Hlook. inversion Hlook; subst c. exists e.
          unfold probe_answer. cbn [take map]. rewrite app_nil_r. exact Hans.
        - cbn in Hlook. rewrite <- Hshift. apply Hall; [lia | exact Hlook]. }
      destruct (IH w1) as [(i & c & n & Hlook & Hok & Hall & Hres) | [Hall Hres]].
      * left. exists (S i), c, n. repeat split.
        -- exact Hlook.
        -- rewrite <- Hshift. exact Hok.
        -- apply Hfail, Hall.
        -- rewrite Hres. change (now w1) with (now w).
           change (take (S (S i)) (cl :: rest)) with (cl :: take (S i) rest).
           rewrite Htrace. reflexivity.
      * right. split.
        -- apply (Hfail (length rest)), Hall.
        -- rewrite Hres. change (now w1) with (now w). rewrite Htrace. reflexivity.
Qed.

Lemma GetClient_cases (c : Client) (chainID : Z) (w : World) :
  match clients c !! chainID with
  | None =>
      GetClient env c chainID w
      = (Ret (None, Some (Errorf "chain ID %d not supported or not connected"
                            [OpInt chainID])), w)
  | Some held =>
      found_at env w held chainID (GetClient env c chainID w)
      \/ none_available env w held chainID (GetClient env c chainID w)
  end.
Proof.
  unfold GetClient. destruct (clients c !! chainID) as [held |].
  - apply probe_clients_spec.
  - reflexivity.
Qed.

(** What [GetClient] gives is a connection or an error; it only probes,
    and moves no clock. *)
Lemma GetClient_result (c : Client) (chainID : Z) (w : World) :
  exists r w', GetClient env c chainID w = (Ret r, w')
               /\ now w' = now w
               /\ ((exists cl, r = (Some cl, None)) \/ (exists e, r = (None, Some e))).
Proof.
  pose proof (GetClient_cases c chainID w) as H.
  destruct (clients c !! chainID) as [held |].
  - destruct H as [(i & cl & n & _ & _ & _ & Hres) | [_ Hres]]; rewrite Hres;
      eexists _, _; (split; [reflexivity |]); (split; [reflexivity |]); eauto.
  - rewrite H. eexists _, _. split; [reflexivity |]. split; [reflexivity |]. eauto.
Qed.

(** C9: [GetClient] probes the held connections in the order they were
    recorded, each probe under a context that is done 5 seconds after the
    call, and returns the first connection whose probe succeeds; when
    every probe fails it returns the no-available-clients error, when
    the chain has no entry the not-connected error; it never returns a
    nil connection with a nil error. *)
Theorem GetClient_ordered_failover (c : Client) (chainID : Z) (w : World) :
  match clients c !! chainID with
  | None =>
      GetClient env c chainID w
      = (Ret (None, Some (Errorf "chain ID %d not supported or not connected"
                            [OpInt chainID])), w)
  | Some held =>
      found_at env w held chainID (GetClient env c chainID w)
      \/ none_available env w held chainID (GetClient env c chainID w)
  end
  /\ (forall w', GetClient env c chainID w <> (Ret (None, None), w')).
Proof.
  split.
  - apply GetClient_cases.
  - intros w' H. destruct (GetClient_result c chainID w) as (r & w1 & Hr & _ & Hcase).
    rewrite Hr in H. inversion H; subst.
    destruct Hcase as [[cl Hcl] | [e He]]; discriminate.
Qed.

End Pool.

(** Failover: the first Base endpoint does not answer the probe, the
    second does, and is the connection returned. *)
Example GetClient_fails_over :
  let s := Sim.mkScenario (fun _ => true)
             (fun cl => if String.eqb (rpcEndpoint cl) "https://mainnet.base.org"
                        then Err (Errorf "connection reset" [])
                        else Sim.honest cl)
             (Err (Errorf "not found" [])) (Err (Errorf "unused" []))
             (Err (Errorf "unused" [])) in
  fst (GetClient (Sim.sim s) (Sim.client s) BaseChainID Sim.world0)
  = Ret (Some (mkEthClient "https://base.llamarpc.com"), None)
  /\ map snd (trace (snd (GetClient (Sim.sim s) (Sim.client s) BaseChainID Sim.world0)))
     = [EvChainID (mkEthClient "https://mainnet.base.org") (mkContext (Some (5 * Second)));
        EvChainID (mkEthClient "https://base.llamarpc.com") (mkContext (Some (5 * Second)))].
Proof. cbv zeta. split; vm_compute; reflexivity. Qed.

(** ** Signers: [CreateTransactor] *)

Section Signers.

Variable env : Env.

(** The three ways [CreateTransactor] ends once a connection is found. *)
Lemma CreateTransactor_cases (c : Client) (ctx : Context) (chainID : Z) (w : World) :
  exists r w1,
    GetClient env c chainID w = (Ret r, w1)
    /\ now w1 = now w
    /\ match r with
       | (_, Some e) => CreateTransactor env c ctx chainID w = (Ret (None, Some e), w1)
       | (None, None) => False
       | (Some cl, None) =>
           let w2 := mkWorld (now w1) (trace w1 ++ [(now w1, EvChainID cl ctx)]) in
           match rpcChainID env (trace w1) cl ctx with
           | Err e =>
               CreateTransactor env c ctx chainID w
               = (Ret (None, Some (Errorf "failed to get chain ID: %w" [OpErr e])), w2)
           | Ok reported =>
               if Uint64 reported =? chainID
               then exists opts,
                   CreateTransactor env c ctx chainID w = (Ret (Some opts, None), w2)
                   /\ SignerChainID opts = reported
                   /\ From opts = address c
               else CreateTransactor env c ctx chainID w
                    = (Ret (None,
                            Some (Errorf
                                    "client chain ID %d does not match requested chain ID %d"
                                    [OpInt (Uint64 reported); OpInt chainID])), w2)
           end
       end.
Proof.
  destruct (GetClient_result env c chainID w) as (r & w1 & Hr & Hnow & Hcase).
  exists r, w1. split; [exact Hr |]. split; [exact Hnow |].
  unfold CreateTransactor. rewrite (bind_ret _ _ _ _ _ Hr).
  destruct Hcase as [[cl ->] | [e ->]]; [| reflexivity].
  cbv zeta. run.
  destruct (rpcChainID env (trace w1) cl ctx) as [reported | e]; [| reflexivity].
  destruct (Uint64 reported =? chainID); cbn [negb]; [| reflexivity].
  destruct (GetNetworkConfigByChainID chainID) as [[cfg n] found] eqn:Hcfg.
  destruct found.
  - apply find_chain_found in Hcfg as (cf & -> & _ & _).
    eexists. split; [reflexivity |]. split; reflexivity.
  - eexists. split; [reflexivity |]. split; reflexivity.
Qed.

(** A signer comes out only when the low 64 bits of the chain ID the node
    reports are the requested chain ID; the signer signs for the chain
    ID as reported. *)
Lemma CreateTransactor_signer (c : Client) (ctx : Context) (chainID : Z)
    (w w' : World) (opts : TransactOpts) :
  CreateTransactor env c ctx chainID w = (Ret (Some opts, None), w') ->
  exists cl w1,
    GetClient env c chainID w = (Ret (Some cl, None), w1)
    /\ rpcChainID env (trace w1) cl ctx = Ok (SignerChainID opts)
    /\ Uint64 (SignerChainID opts) = chainID.
Proof.
  intros H. destruct (CreateTransactor_cases c ctx chainID w) as (r & w1 & Hr & _ & Hc).
  destruct r as [[cl |] [e |]]; try (rewrite Hc in H; discriminate); [| destruct Hc].
  exists cl, w1. split; [exact Hr |]. cbv zeta in Hc.
  destruct (rpcChainID env (trace w1) cl ctx) as [reported | e];
    [| rewrite Hc in H; discriminate].
  destruct (Uint64 reported =? chainID) eqn:Heq;
    [| rewrite Hc in H; discriminate].
  apply Z.eqb_eq in Heq.
  destruct Hc as (o & Ho & Hs & _). rewrite Ho in H. inversion H; subst.
  split; reflexivity.
Qed.

(** With a reported chain ID that fits 64 bits the check is the equality
    the error message speaks of. *)
Lemma CreateTransactor_matches (c : Client) (ctx : Context) (chainID : Z)
    (w w' : World) (opts : TransactOpts) :
  CreateTransactor env c ctx chainID w = (Ret (Some opts, None), w') ->
  0 <= SignerChainID opts < 2 ^ 64 ->
  SignerChainID opts = chainID.
Proof.
  intros H Hrange. destruct (CreateTransactor_signer c ctx chainID w w' opts H)
    as (cl & w1 & _ & _ & Hu).
  unfold Uint64 in Hu. rewrite Z.abs_eq, Z.mod_small in Hu by lia. exact Hu.
Qed.

End Signers.

(** C8: a node that reports the chain ID [2 ^ 64 + 8453] passes the check
    for chain 8453, whose comparison is made on the low 64 bits, and
    [CreateTransactor] returns a signer for the chain ID the node
    reported. *)
Theorem CreateTransactor_accepts_other_chain :
  let s := Sim.mkScenario (fun _ => true) (fun _ => Ok (2 ^ 64 + 8453))
             (Err (Errorf "not found" [])) (Err (Errorf "unused" []))
             (Err (Errorf "unused" [])) in
  exists c w1 opts w2,
    Sim.client_of s Sim.config0 Sim.world0 = (Ret c, w1)
    /\ CreateTransactor (Sim.sim s) c Background BaseChainID w1 = (Ret (Some opts, None), w2)
    /\ SignerChainID opts = 2 ^ 64 + 8453
    /\ SignerChainID opts <> BaseChainID.
Proof.
  cbv zeta. eexists _, _, _, _. split; [vm_compute; reflexivity |].
  split; [vm_compute; reflexivity |]. split; [reflexivity | vm_compute; discriminate].
Qed.

(** ** The confirmation waiter: [WaitForTransaction] *)

Section Waiter.

Variable env : Env.

Lemma polls_S (client : EthClient) (timeoutCtx : Context) (txHash : common.Hash)
    (first period : Z) (n : nat) :
  polls client timeoutCtx txHash first period (S n)
  = (first, EvTransactionReceipt client timeoutCtx txHash)
      :: polls client timeoutCtx txHash (first + period) period n.
Proof.
  unfold polls. cbn [seq map]. f_equal.
  - f_equal. lia.
  - rewrite <- seq_shift, map_map. apply map_ext. intros k. f_equal. lia.
Qed.

(** One round of the loop when the lookup fails. *)
Lemma wait_loop_S (fuel : nat) (cl : EthClient) (timeoutCtx : Context)
    (period next : Z) (txHash : common.Hash) (w : World) (D : Z) :
  done_at timeoutCtx = Some D ->
  (forall h, exists e, rpcTransactionReceipt env h cl timeoutCtx txHash = Err e) ->
  wait_loop env (S fuel) (Some cl) timeoutCtx period next txHash w
  = if (next <? D) || ((next =? D) && select_tick env (trace w))
    then wait_loop env fuel (Some cl) timeoutCtx period (next + period) txHash
           (mkWorld (Z.max (now w) next)
              (trace w ++ [(Z.max (now w) next,
                            EvTransactionReceipt cl timeoutCtx txHash)]))
    else (Ret (None, Some (timeout_error txHash)), mkWorld (Z.max (now w) D) (trace w)).
Proof.
  intros HD Hfail. cbn [wait_loop]. unfold select_tick_or_done, choose_ready.
  rewrite HD. run.
  destruct (Z.ltb_spec next D) as [Hlt | Hge]; cbn [orb now trace].
  - destruct (Hfail (trace w)) as [e He]. rewrite He. reflexivity.
  - destruct (Z.ltb_spec D next) as [Hlt | Hle]; cbn [now trace].
    + destruct (Z.eqb_spec next D); [lia |]. reflexivity.
    + assert (next = D) as -> by lia. rewrite Z.eqb_refl. cbn [andb].
      destruct (select_tick env (trace w)); cbn [now trace]; [| reflexivity].
      destruct (Hfail (trace w)) as [e He]. rewrite He. reflexivity.
Qed.

(** With no receipt, the loop ends with the timeout error once the
    context is done, after the polls at the ticks up to that instant. *)
Lemma wait_loop_timeout (cl : EthClient) (timeoutCtx : Context) (D period : Z)
    (txHash : common.Hash) :
  done_at timeoutCtx = Some D ->
  0 < period ->
  (forall h, exists e, rpcTransactionReceipt env h cl timeoutCtx txHash = Err e) ->
  forall (fuel : nat) (next : Z) (w : World),
    now w <= next ->
    D < next + (Z.of_nat fuel - 1) * period ->
    (0 < fuel)%nat ->
    exists n w',
      wait_loop env fuel (Some cl) timeoutCtx period next txHash w
      = (Ret (None, Some (timeout_error txHash)), w')
      /\ trace w' = trace w ++ polls cl timeoutCtx txHash next period n
      /\ now w' = Z.max (now w) D
      /\ (forall k, (k < n)%nat -> next + Z.of_nat k * period <= D)
      /\ D <= next + Z.of_nat n * period.
Proof.
  intros HD Hp Hfail. induction fuel as [| fuel IH]; intros next w Hnow Hfuel Hpos; [lia |].
  rewrite (wait_loop_S fuel cl timeoutCtx period next txHash w D HD Hfail).
  destruct ((next <? D) || ((next =? D) && select_tick env (trace w))) eqn:Htick.
  - assert (Hle : next <= D).
    { apply orb_true_iff in Htick as [H | H]; [apply Z.ltb_lt in H; lia |].
      apply andb_true_iff in H as [H _]. apply Z.eqb_eq in H. lia. }
    assert (Hf : (0 < fuel)%nat) by (destruct fuel; [cbn in Hfuel; lia | lia]).
    rewrite Z.max_r by lia.
    destruct (IH (next + period)
                 (mkWorld next (trace w ++ [(next, EvTransactionReceipt cl timeoutCtx txHash)])))
      as (n & w' & Hrun & Htr & Hnw & Hks & Hend); cbn [now trace]; try lia.
    exists (S n), w'. split; [exact Hrun |]. split; [| split; [| split]].
    + rewrite Htr, polls_S. cbn [trace]. rewrite <- app_assoc. reflexivity.
    + rewrite Hnw. cbn [now]. lia.
    + intros k Hk. destruct k as [| k]; [lia |].
      specialize (Hks k ltac:(lia)). lia.
    + lia.
  - exists O, (mkWorld (Z.max (now w) D) (trace w)).
    split; [reflexivity |]. split; [cbn; rewrite app_nil_r; reflexivity |].
    split; [reflexivity |]. split; [intros k Hk; lia |].
    apply orb_false_iff in Htick as [H _]. apply Z.ltb_ge in H. lia.
Qed.

(** C7: for a chain with a registered network configuration and a live
    connection, the wait runs under a context that is done
    [max(blockTime * 10, 1 minute)] after its start (or when the caller's
    context is done, if that is earlier), looks the receipt up at every
    [blockTime / 2] from its start, and, when no lookup finds a receipt,
    returns the timeout error at the deadline. *)
Theorem WaitForTransaction_times_out (c : Client) (ctx : Context) (chainID : Z)
    (txHash : common.Hash) (w w1 : World) (cfg : NetworkConfig) (name : string)
    (cl : EthClient) :
  GetNetworkConfigByChainID chainID = (Some cfg, name, true) ->
  GetClient env c chainID w = (Ret (Some cl, None), w1) ->
  let D := wait_deadline ctx (now w1) (BlockTime cfg) in
  let timeoutCtx := mkContext (Some D) in
  let period := BlockTime cfg / 2 in
  (forall h, exists e, rpcTransactionReceipt env h cl timeoutCtx txHash = Err e) ->
  exists n w2,
    WaitForTransaction env c ctx chainID txHash w
    = (Ret (None, Some (timeout_error txHash)), w2)
    /\ trace w2 = trace w1 ++ polls cl timeoutCtx txHash (now w1 + period) period n
    /\ (forall k, (k < n)%nat -> now w1 + period + Z.of_nat k * period <= D)
    /\ D <= now w1 + period + Z.of_nat n * period
    /\ now w2 = Z.max (now w1) D.
Proof.
  intros Hcfg Hcl D timeoutCtx period Hfail.
  assert (Hbt : BlockTime cfg = 2 * Second \/ BlockTime cfg = 3 * Second
                \/ BlockTime cfg = 5 * Second)
    by (eapply registered_block_time; exact Hcfg).
  assert (Hwrap : wrap64 (BlockTime cfg * 10) = BlockTime cfg * 10)
    by (destruct Hbt as [-> | [-> | ->]]; reflexivity).
  assert (Hquot : Z.quot (BlockTime cfg) 2 = period)
    by (destruct Hbt as [H | [H | H]]; unfold period; rewrite H; reflexivity).
  assert (Hper : 0 < period)
    by (destruct Hbt as [H | [H | H]]; unfold period; rewrite H; reflexivity).
  assert (Hctx : WithTimeout ctx (Z.max (BlockTime cfg * 10) Minute) w1
                 = (Ret timeoutCtx, w1)).
  { unfold timeoutCtx, D, wait_deadline. run. destruct (done_at ctx); reflexivity. }
  destruct (wait_loop_timeout cl timeoutCtx D period txHash eq_refl Hper Hfail
              (wait_fuel timeoutCtx (now w1) period) (now w1 + period) w1)
    as (n & w2 & Hrun & Htr & Hnw & Hks & Hend).
  { lia. }
  { unfold wait_fuel. cbn [done_at timeoutCtx]. rewrite Nat2Z.inj_succ.
    destruct (Z.le_gt_cases 0 (D - now w1)) as [Hpos | Hneg].
    - rewrite Z2Nat.id by (apply Z.div_pos; lia).
      pose proof (Z.mod_pos_bound (D - now w1) period Hper).
      pose proof (Z.div_mod (D - now w1) period ltac:(lia)). nia.
    - assert (Z.of_nat (Z.to_nat ((D - now w1) / period)) >= 0) by lia. nia. }
  { unfold wait_fuel. cbn [done_at timeoutCtx]. lia. }
  exists n, w2. split; [| repeat split; assumption].
  unfold WaitForTransaction. rewrite (bind_ret _ _ _ _ _ Hcl). cbv beta iota zeta.
  rewrite Hcfg. cbv beta iota zeta.
  assert (H1 : (deref (Some cfg)
                 ≫= fun cfg0 : NetworkConfig =>
                      mret (M := M)
                        (if wrap64 (BlockTime cfg0 * 10) <? Minute then Minute
                         else wrap64 (BlockTime cfg0 * 10))) w1
               = (Ret (Z.max (BlockTime cfg * 10) Minute), w1)).
  { run. rewrite Hwrap. do 2 f_equal.
    destruct (Z.ltb_spec (BlockTime cfg * 10) Minute); lia. }
  rewrite (bind_ret _ _ _ _ _ H1), (bind_ret _ _ _ _ _ Hctx).
  assert (H3 : deref (Some cfg) w1 = (Ret cfg, w1)) by reflexivity.
  rewrite (bind_ret _ _ _ _ _ H3), Hquot.
  destruct (Z.leb_spec period 0); [lia |].
  assert (H4 : get_now w1 = (Ret (now w1), w1)) by reflexivity.
  rewrite (bind_ret _ _ _ _ _ H4). exact Hrun.
Qed.

End Waiter.

Section WaiterTermination.

Variable env : Env.

(** The fuel [WaitForTransaction] gives its loop is enough: the loop
    ends by itself. *)
Lemma wait_loop_ends (client : option EthClient) (timeoutCtx : Context) (D period : Z)
    (txHash : common.Hash) :
  done_at timeoutCtx = Some D ->
  0 < period ->
  forall (fuel : nat) (next : Z) (w : World),
    D < next + (Z.of_nat fuel - 1) * period ->
    (0 < fuel)%nat ->
    fst (wait_loop env fuel client timeoutCtx period next txHash w) <> OutOfFuel.
Proof.
  intros HD Hp. induction fuel as [| fuel IH]; intros next w Hfuel Hpos; [lia |].
  assert (Hrec : forall w', next <= D ->
             fst (wait_loop env fuel client timeoutCtx period (next + period) txHash w')
             <> OutOfFuel).
  { intros w' Hle. apply IH; [lia |]. destruct fuel; [cbn in Hfuel; lia | lia]. }
  cbn [wait_loop]. unfold select_tick_or_done, choose_ready. rewrite HD. run.
  destruct (Z.ltb_spec next D) as [Hlt | Hge]; cbn [now trace].
  - destruct client as [cl |]; cbn [now trace]; [| (cbv beta; cbn [fst]; discriminate)].
    destruct (rpcTransactionReceipt env (trace w) cl timeoutCtx txHash);
      [(cbv beta; cbn [fst]; discriminate) | apply Hrec; lia].
  - destruct (Z.ltb_spec D next) as [Hlt | Hle]; cbn [now trace]; [(cbv beta; cbn [fst]; discriminate) |].
    destruct (select_tick env (trace w)); [| (cbv beta; cbn [fst]; discriminate)].
    destruct client as [cl |]; cbn [now trace]; [| (cbv beta; cbn [fst]; discriminate)].
    destruct (rpcTransactionReceipt env (trace w) cl timeoutCtx txHash);
      [(cbv beta; cbn [fst]; discriminate) | apply Hrec; lia].
Qed.

Lemma wait_fuel_enough (D start period : Z) :
  0 < period ->
  D < start + period + (Z.of_nat (wait_fuel (mkContext (Some D)) start period) - 1) * period.
Proof.
  intros Hper. unfold wait_fuel. cbn [done_at]. rewrite Nat2Z.inj_succ.
  destruct (Z.le_gt_cases 0 (D - start)) as [Hpos | Hneg].
  - rewrite Z2Nat.id by (apply Z.div_pos; lia).
    pose proof (Z.mod_pos_bound (D - start) period Hper).
    pose proof (Z.div_mod (D - start) period ltac:(lia)). nia.
  - assert (Z.of_nat (Z.to_nat ((D - start) / period)) >= 0) by lia. nia.
Qed.

(** [WaitForTransaction] returns or panics; it never runs out of fuel. *)
Lemma WaitForTransaction_ends (c : Client) (ctx : Context) (chainID : Z)
    (txHash : common.Hash) (w : World) :
  fst (WaitForTransaction env c ctx chainID txHash w) <> OutOfFuel.
Proof.
  destruct (GetClient_result env c chainID w) as (r & w1 & Hr & _ & Hcase).
  unfold WaitForTransaction. rewrite (bind_ret _ _ _ _ _ Hr).
  destruct Hcase as [[cl ->] | [e ->]]; [| (cbv beta; cbn [fst]; discriminate)]. cbv beta iota zeta.
  destruct (GetNetworkConfigByChainID chainID) as [[cfg n] found] eqn:Hcfg.
  destruct found.
  - apply find_chain_found in Hcfg as (cf & -> & _ & _).
    run. destruct (done_at ctx) as [p |];
      (destruct (Z.leb_spec (Z.quot (BlockTime cf) 2) 0); [(cbv beta; cbn [fst]; discriminate) |];
       eapply wait_loop_ends; [reflexivity | lia | apply wait_fuel_enough; lia |
                               unfold wait_fuel; cbn [done_at]; lia]).
  - apply find_chain_not_found in Hcfg as ->. run.
    destruct (done_at ctx); (cbv beta; cbn [fst]; discriminate).
Qed.

End WaiterTermination.

Lemma WaitForTransaction_times_out_witness :
  let s := Sim.mkScenario (fun _ => true) Sim.honest
             (Err (Errorf "not found" [])) (Err (Errorf "unused" []))
             (Err (Errorf "unused" [])) in
  exists n w2,
    WaitForTransaction (Sim.sim s) (Sim.client s) Background BaseChainID 77 Sim.world0
    = (Ret (None, Some (timeout_error 77)), w2)
    /\ now w2 = 60 * Second
    /\ (0 < n)%nat.
Proof.
  cbv zeta.
  set (s := Sim.mkScenario (fun _ => true) Sim.honest
              (Err (Errorf "not found" [])) (Err (Errorf "unused" []))
              (Err (Errorf "unused" []))).
  destruct (WaitForTransaction_times_out (Sim.sim s) (Sim.client s) Background
              BaseChainID 77 Sim.world0
              (mkWorld 0 [(0, EvChainID (mkEthClient "https://mainnet.base.org")
                                 (mkContext (Some (5 * Second))))])
              (mkNetworkConfig BaseChainID "Base"
                 ["https://mainnet.base.org"; "https://base.llamarpc.com"]
                 (common.HexToAddress "0x18Bc5bcC660cf2B9cE3cd51a404aFe1a0cBD3C22")
                 (2 * Second) 3000000 10000000000 false 2)
              BaseMainnet (mkEthClient "https://mainnet.base.org"))
    as (n & w2 & Hrun & Htr & Hks & Hend & Hnow).
  - reflexivity.
  - vm_compute. reflexivity.
  - intros h. eexists. reflexivity.
  - exists n, w2. split; [exact Hrun |]. split.
    + rewrite Hnow. reflexivity.
    + destruct n; [| lia]. exfalso. revert Hend. vm_compute. intros H. apply H. reflexivity.
Defined.

(** ** Construction: [NewClient] *)

Section Construction.

Variable env : Env.

Lemma dial_endpoints_dials (c : Client) (networkConfig : NetworkConfig)
    (endpoints : list string) :
  forall (ethClients : list EthClient) (contractInstance : option IDRX) (w : World),
  exists r evs,
    dial_endpoints env c networkConfig endpoints ethClients contractInstance w
    = (Ret r, mkWorld (now w) (trace w ++ evs))
    /\ Forall (dial_under (timeout c)) evs.
Proof.
  induction endpoints as [| ep rest IH]; intros ethClients contractInstance w.
  - exists (ethClients, contractInstance, None), []. split; [| constructor].
    cbn. rewrite app_nil_r, world_eta. reflexivity.
  - cbn [dial_endpoints]. run.
    set (ctx := mkContext (Some (now w + timeout c))).
    set (w1 := mkWorld (now w) (trace w ++ [(now w, EvDial ep ctx)])).
    assert (Hev : dial_under (timeout c) (now w, EvDial ep ctx))
      by (exists ep; reflexivity).
    assert (Hrec : forall cls ci, exists r evs,
               dial_endpoints env c networkConfig rest cls ci w1
               = (Ret r, mkWorld (now w) (trace w ++ evs))
               /\ Forall (dial_under (timeout c)) evs).
    { intros cls ci. destruct (IH cls ci w1) as (r & evs & Hrun & Hall).
      exists r, ((now w, EvDial ep ctx) :: evs). split; [| constructor; assumption].
      rewrite Hrun. unfold w1. cbn [now trace]. rewrite <- app_assoc. reflexivity. }
    destruct (DialContext env (trace w) ctx ep) as [ethClient | e]; [| apply Hrec].
    destruct contractInstance as [ci |]; [apply Hrec |].
    destruct (NewIDRX env (ContractAddress networkConfig) ethClient) as [ci | e];
      [apply Hrec |].
    eexists _, [(now w, EvDial ep ctx)]. split; [reflexivity |].
    constructor; [exact Hev | constructor].
Qed.

Lemma initializeNetworks_dials (nets : list (string * NetworkConfig)) :
  forall (c : Client) (w : World),
  exists c' err evs,
    initializeNetworks env nets c w = (Ret (c', err), mkWorld (now w) (trace w ++ evs))
    /\ Forall (dial_under (timeout c)) evs
    /\ timeout c' = timeout c.
Proof.
  induction nets as [| [n networkConfig] rest IH]; intros c w.
  - exists c, None, []. split; [| split; [constructor | reflexivity]].
    cbn. rewrite app_nil_r, world_eta. reflexivity.
  - cbn [initializeNetworks].
    destruct (ContractAddress networkConfig =? 0); [apply IH |].
    destruct (dial_endpoints_dials c networkConfig (RPCEndpoints networkConfig) [] None w)
      as ([[ethClients contractInstance] err] & evs & Hrun & Hall).
    rewrite (bind_ret _ _ _ _ _ Hrun).
    destruct err as [e |]; [exists c, (Some e), evs; auto |].
    destruct (length ethClients =? 0)%nat; [eexists c, _, evs; split; [reflexivity | auto] |].
    match goal with |- context [initializeNetworks env rest ?c1 ?w1] =>
      destruct (IH c1 w1) as (c' & err & evs' & Hrun' & Hall' & Ht) end.
    exists c', err, (evs ++ evs'). split; [| split].
    + rewrite Hrun'. cbn [now trace]. rewrite <- app_assoc. reflexivity.
    + apply Forall_app. split; [exact Hall | exact Hall'].
    + exact Ht.
Qed.

(** C10 (amended): a configured timeout of zero makes the client's
    timeout 30 seconds, any other value is kept as it is; each endpoint
    is dialled under a context that is done that long after the dial,
    and dials are the only calls of the construction. *)
Theorem NewClient_timeout (nets : list (string * NetworkConfig)) (config : ClientConfig)
    (w : World) :
  let t := if Timeout config =? 0 then 30 * Second else Timeout config in
  exists r evs,
    NewClient env nets config w = (Ret r, mkWorld (now w) (trace w ++ evs))
    /\ Forall (dial_under t) evs
    /\ (forall c, fst r = Some c -> timeout c = t).
Proof.
  cbv zeta. unfold NewClient.
  destruct (HexToECDSA env (PrivateKeyHex config)) as [key | e].
  - cbv zeta. cbn [timeout].
    set (c0 := if Timeout config =? 0 then _ else _).
    assert (Ht0 : timeout c0 = if Timeout config =? 0 then 30 * Second else Timeout config)
      by (unfold c0; destruct (Timeout config =? 0); reflexivity).
    destruct (initializeNetworks_dials nets c0 w) as (c' & err & evs & Hrun & Hall & Ht).
    rewrite (bind_ret _ _ _ _ _ Hrun). rewrite Ht0 in *.
    destruct err as [e |].
    + eexists _, evs. split; [reflexivity |]. split; [exact Hall |].
      intros c Hc. discriminate.
    + eexists _, evs. split; [reflexivity |]. split; [exact Hall |].
      intros c Hc. cbn in Hc. inversion Hc; subst. exact Ht.
  - eexists _, []. split; [| split; [constructor |]].
    + cbn. rewrite app_nil_r, world_eta. reflexivity.
    + intros c Hc. discriminate.
Qed.

End Construction.

(** A construction with the timeout left at zero: every endpoint of the
    eight networks is dialled under a 30-second context. *)
Example NewClient_default_timeout :
  let s := Sim.mkScenario (fun _ => true) Sim.honest
             (Err (Errorf "not found" [])) (Err (Errorf "unused" []))
             (Err (Errorf "unused" [])) in
  let r := NewClient (Sim.sim s) SupportedNetworks Sim.config0 Sim.world0 in
  (timeout <$> Sim.value_of (Sim.client_of s Sim.config0 Sim.world0)) = Some (30 * Second)
  /\ length (trace (snd r)) = 12%nat
  /\ forallb (fun st => match snd st with
                        | EvDial _ ctx => bool_decide (done_at ctx = Some (30 * Second))
                        | _ => false
                        end) (trace (snd r)) = true.
Proof. cbv zeta. repeat split; vm_compute; reflexivity. Qed.

(** C10 (as stated) fails: a client configured with a timeout of 10
    seconds probes its connection under a context that is done 5 seconds
    after the call, not 10. *)
Lemma probe_deadline_not_configured :
  let s := Sim.mkScenario (fun _ => true) Sim.honest
             (Err (Errorf "not found" [])) (Err (Errorf "unused" []))
             (Err (Errorf "unused" [])) in
  let config := mkClientConfig "01" (10 * Second) in
  exists c w1 r w2 ev,
    NewClient (Sim.sim s) SupportedNetworks config Sim.world0 = (Ret (Some c, None), w1)
    /\ timeout c = 10 * Second
    /\ GetClient (Sim.sim s) c BaseChainID w1 = (Ret r, w2)
    /\ In ev (trace w2)
    /\ ~ spec_deadline_is (Timeout config) ev.
Proof.
  cbv zeta.
  eexists _, _, _, _, (0, EvChainID (mkEthClient "https://mainnet.base.org")
                            (mkContext (Some (5 * Second)))).
  split; [vm_compute; reflexivity |]. split; [reflexivity |].
  split; [vm_compute; reflexivity |]. split.
  - cbn [trace In]. repeat first [left; reflexivity | right].
  - unfold spec_deadline_is. cbn [snd fst Timeout]. intros H. inversion H.
Qed.

(** ** Which calls an operation makes *)

Ltac quiet_auto :=
  repeat first
    [ apply quiet_ret | apply quiet_panic | apply quiet_out_of_fuel
    | apply quiet_deref | apply quiet_or_panic
    | apply quiet_get_now | apply quiet_sleep_until | apply quiet_WithTimeout
    | apply quiet_call; solve [auto]
    | match goal with H : _ |- quiet _ _ => simple apply H end
    | match goal with |- quiet _ (match ?x with _ => _ end) => destruct x end
    | apply quiet_bind; [| intros ?] ].

Section QuietReads.

Variable env : Env.
Variable f : Z * Event -> bool.
Hypothesis f_probe : forall t cl ctx, f (t, EvChainID cl ctx) = false.
Hypothesis f_receipt : forall t cl ctx h, f (t, EvTransactionReceipt cl ctx h) = false.

Lemma GetContract_quiet (c : Client) (chainID : Z) : quiet f (GetContract c chainID).
Proof. unfold GetContract. quiet_auto. Qed.

Lemma probe_clients_quiet (held : list EthClient) (chainID : Z) :
  quiet f (probe_clients env held chainID).
Proof. induction held as [| cl rest IH]; cbn [probe_clients]; quiet_auto; exact IH. Qed.

Lemma GetClient_quiet (c : Client) (chainID : Z) : quiet f (GetClient env c chainID).
Proof. unfold GetClient. destruct (clients c !! chainID); [apply probe_clients_quiet | quiet_auto]. Qed.

Lemma CreateTransactor_quiet (c : Client) (ctx : Context) (chainID : Z) :
  quiet f (CreateTransactor env c ctx chainID).
Proof.
  pose proof GetClient_quiet as HG. unfold CreateTransactor. quiet_auto.
Qed.

Lemma wait_loop_quiet (client : option EthClient) (timeoutCtx : Context)
    (period : Z) (txHash : common.Hash) (fuel : nat) :
  forall next, quiet f (wait_loop env fuel client timeoutCtx period next txHash).
Proof.
  induction fuel as [| fuel IH]; intros next; cbn [wait_loop]; [apply quiet_out_of_fuel |].
  unfold select_tick_or_done, choose_ready.
  apply quiet_bind.
  - destruct (done_at timeoutCtx) as [d |]; [| quiet_auto].
    destruct (next <? d); [quiet_auto |]. destruct (d <? next); [quiet_auto |].
    apply quiet_bind; [apply quiet_sleep_until |]. intros _ w. reflexivity.
  - intros tick. destruct tick; quiet_auto.
Qed.

Lemma WaitForTransaction_quiet (c : Client) (ctx : Context) (chainID : Z)
    (txHash : common.Hash) :
  quiet f (WaitForTransaction env c ctx chainID txHash).
Proof.
  pose proof GetClient_quiet as HG.
  pose proof wait_loop_quiet as HW.
  unfold WaitForTransaction. quiet_auto.
Qed.

End QuietReads.

Lemma is_mint_probe (t : Z) (cl : EthClient) (ctx : Context) :
  is_mint (t, EvChainID cl ctx) = false.
Proof. reflexivity. Qed.

Lemma is_mint_receipt (t : Z) (cl : EthClient) (ctx : Context) (h : common.Hash) :
  is_mint (t, EvTransactionReceipt cl ctx h) = false.
Proof. reflexivity. Qed.

Lemma is_burn_probe (t : Z) (cl : EthClient) (ctx : Context) :
  is_burn (t, EvChainID cl ctx) = false.
Proof. reflexivity. Qed.

Lemma is_burn_receipt (t : Z) (cl : EthClient) (ctx : Context) (h : common.Hash) :
  is_burn (t, EvTransactionReceipt cl ctx h) = false.
Proof. reflexivity. Qed.

Section QuietBridge.

Variable env : Env.

Lemma BurnBridge_no_mint (c : Client) (ctx : Context) (request : BridgeRequest) :
  quiet is_mint (BurnBridge env c ctx request).
Proof.
  pose proof (GetContract_quiet is_mint) as HC.
  pose proof (CreateTransactor_quiet env is_mint is_mint_probe) as HT.
  unfold BurnBridge. quiet_auto.
Qed.

Lemma MintBridge_no_burn (c : Client) (ctx : Context) (chainID : Z) (to : common.Address)
    (amount : option TokenAmount) (fromChainID : Z) (bridgeNonce : option Z) :
  quiet is_burn (MintBridge env c ctx chainID to amount fromChainID bridgeNonce).
Proof.
  pose proof (GetContract_quiet is_burn) as HC.
  pose proof (CreateTransactor_quiet env is_burn is_burn_probe) as HT.
  unfold MintBridge. quiet_auto.
Qed.

(** What follows the burn in [CompleteBridge] makes no burn call. *)
Lemma after_burn_no_burn (c : Client) (ctx : Context) (request : BridgeRequest)
    (burnTx : option Transaction) :
  quiet is_burn
    (tx ← deref burnTx;
     '(receipt, err) ← WaitForTransaction env c ctx (FromChainID request) (Hash tx);
     match err with
     | Some e => mret (Some (Errorf "burn transaction failed: %w" [OpErr e]))
     | None =>
         rc ← deref receipt;
         if negb (Status rc =? ReceiptStatusSuccessful)
         then mret (Some (Errorf "burn transaction reverted" []))
         else
           let '(bridgeNonce, err) := extractBridgeNonceFromReceipt rc in
           match err with
           | Some e => mret (Some (Errorf "failed to extract bridge nonce: %w" [OpErr e]))
           | None =>
               '(_, err) ← MintBridge env c ctx (ToChainID request) (ToAddress request)
                             (RequestAmount request) (FromChainID request) bridgeNonce;
               match err with
               | Some e =>
                   mret (Some (Errorf "failed to mint on destination chain: %w" [OpErr e]))
               | None => mret None
               end
           end
     end).
Proof.
  pose proof (WaitForTransaction_quiet env is_burn is_burn_probe is_burn_receipt) as HW.
  pose proof MintBridge_no_burn as HM.
  quiet_auto.
Qed.

End QuietBridge.

(** ** The bridge *)

Lemma quiet_then {A B : Type} (f : Z * Event -> bool) (m : M A) (k : A -> M B) (w : World) :
  (forall a, quiet f (k a)) ->
  List.filter f (trace (snd ((m ≫= k) w))) = List.filter f (trace (snd (m w))).
Proof.
  intros Hk. unfold mbind, M_bind.
  destruct (m w) as [[a | msg |] w1]; cbn [snd]; [apply Hk | reflexivity | reflexivity].
Qed.

Lemma mint_calls_quiet {A : Type} (m : M A) (w : World) (r : outcome A) (w' : World) :
  quiet is_mint m -> m w = (r, w') -> mint_calls (trace w') = mint_calls (trace w).
Proof. intros Hq Hm. specialize (Hq w). rewrite Hm in Hq. unfold mint_calls. cbn [snd] in Hq. rewrite Hq. reflexivity. Qed.

Lemma burn_calls_quiet {A : Type} (m : M A) (w : World) (r : outcome A) (w' : World) :
  quiet is_burn m -> m w = (r, w') -> burn_calls (trace w') = burn_calls (trace w).
Proof. intros Hq Hm. specialize (Hq w). rewrite Hm in Hq. unfold burn_calls. cbn [snd] in Hq. rewrite Hq. reflexivity. Qed.

Lemma mint_calls_snoc (h : History) (t : Z) (contract : IDRX) (opts : TransactOpts)
    (to : common.Address) (amount fromChainID nonce : Z) :
  mint_calls (h ++ [(t, EvMintBridge contract opts to amount fromChainID nonce)])
  = mint_calls h ++ [EvMintBridge contract opts to amount fromChainID nonce].
Proof. unfold mint_calls. rewrite List.filter_app, map_app. reflexivity. Qed.

Lemma burn_calls_snoc (h : History) (t : Z) (contract : IDRX) (opts : TransactOpts)
    (amount toChainID : Z) :
  burn_calls (h ++ [(t, EvBurnBridge contract opts amount toChainID)])
  = burn_calls h ++ [EvBurnBridge contract opts amount toChainID].
Proof. unfold burn_calls. rewrite List.filter_app, map_app. reflexivity. Qed.

(** The extraction gives the constant 0 or the not-found error; the data
    of the logs is never read. *)
Lemma extract_from_logs_cases (logs : list Log) :
  extract_from_logs logs = (Some 0, None)
  \/ extract_from_logs logs
     = (None, Some (Errorf "bridge nonce not found in transaction receipt" [])).
Proof.
  induction logs as [| log rest IH]; [right; reflexivity |].
  cbn [extract_from_logs]. destruct (Topics log) as [| topic0 topics]; [exact IH |].
  destruct (topic0 =? burnBridgeTopic); [left; reflexivity | exact IH].
Qed.

Section Bridge.

Variable env : Env.

Lemma GetContract_found (c : Client) (chainID : Z) (contract : option IDRX) (w : World) :
  contracts c !! chainID = Some contract ->
  GetContract c chainID w = (Ret (contract, None), w).
Proof. intros H. unfold GetContract. rewrite H. reflexivity. Qed.

Lemma GetContract_missing (c : Client) (chainID : Z) (w : World) :
  contracts c !! chainID = None ->
  GetContract c chainID w
  = (Ret (None, Some (Errorf "IDRX contract not available for chain ID %d"
                        [OpInt chainID])), w).
Proof. intros H. unfold GetContract. rewrite H. reflexivity. Qed.

(** [BurnBridge] with a bound contract, a signer and an amount: the burn
    transaction is sent. *)
Lemma BurnBridge_sends (c : Client) (ctx : Context) (request : BridgeRequest)
    (w w1 : World) (ci : IDRX) (opts : TransactOpts) (ta : TokenAmount) (wei : Z) :
  contracts c !! FromChainID request = Some (Some ci) ->
  CreateTransactor env c ctx (FromChainID request) w = (Ret (Some opts, None), w1) ->
  RequestAmount request = Some ta ->
  ToWei ta = Some wei ->
  BurnBridge env c ctx request w
  = (Ret match txBurnBridge env (trace w1) ci opts wei (ToChainID request) with
         | Ok tx => (Some tx, None)
         | Err e => (None, Some (Errorf "failed to burn for bridge: %w" [OpErr e]))
         end,
     mkWorld (now w1)
       (trace w1 ++ [(now w1, EvBurnBridge ci opts wei (ToChainID request))])).
Proof.
  intros Hc Ht Ha Hw. unfold BurnBridge.
  rewrite (bind_ret _ _ _ _ _ (GetContract_found c _ _ w Hc)).
  rewrite (bind_ret _ _ _ _ _ Ht). cbv beta iota. rewrite Ha. run. rewrite Hw.
  destruct (txBurnBridge env (trace w1) ci opts wei (ToChainID request)); reflexivity.
Qed.

(** [BurnBridge] sends nothing when the source chain has no contract or
    no signer can be made. *)
Lemma BurnBridge_rejects (c : Client) (ctx : Context) (request : BridgeRequest)
    (w : World) :
  (contracts c !! FromChainID request = None ->
   BurnBridge env c ctx request w
   = (Ret (None, Some (Errorf "IDRX contract not available for chain ID %d"
                         [OpInt (FromChainID request)])), w))
  /\ (forall contract e w1,
         contracts c !! FromChainID request = Some contract ->
         CreateTransactor env c ctx (FromChainID request) w = (Ret (None, Some e), w1) ->
         BurnBridge env c ctx request w = (Ret (None, Some e), w1)
         /\ burn_calls (trace w1) = burn_calls (trace w)).
Proof.
  split.
  - intros Hc. unfold BurnBridge.
    rewrite (bind_ret _ _ _ _ _ (GetContract_missing c _ w Hc)). reflexivity.
  - intros contract e w1 Hc Ht. split.
    + unfold BurnBridge. rewrite (bind_ret _ _ _ _ _ (GetContract_found c _ _ w Hc)).
      rewrite (bind_ret _ _ _ _ _ Ht). reflexivity.
    + eapply burn_calls_quiet; [| exact Ht].
      apply CreateTransactor_quiet. apply is_burn_probe.
Qed.

(** [MintBridge] makes one mint call, with the nonce it is given, or
    none. *)
Lemma MintBridge_mints (c : Client) (ctx : Context) (chainID : Z) (to : common.Address)
    (amount : option TokenAmount) (fromChainID : Z) (bridgeNonce : option Z) (w : World) :
  let w' := snd (MintBridge env c ctx chainID to amount fromChainID bridgeNonce w) in
  mint_calls (trace w') = mint_calls (trace w)
  \/ exists ci opts wei nonce,
      bridgeNonce = Some nonce
      /\ mint_calls (trace w')
         = mint_calls (trace w) ++ [EvMintBridge ci opts to wei fromChainID nonce].
Proof.
  cbv zeta. unfold MintBridge.
  destruct (contracts c !! chainID) as [contract |] eqn:Hc.
  - rewrite (bind_ret _ _ _ _ _ (GetContract_found c _ _ w Hc)).
    destruct (CreateTransactor env c ctx chainID w) as [[[transactor err] | msg |] w1] eqn:Ht.
    + pose proof (mint_calls_quiet _ _ _ _
                    (CreateTransactor_quiet env is_mint is_mint_probe c ctx chainID) Ht) as Hq.
      rewrite (bind_ret _ _ _ _ _ Ht).
      destruct err as [e |]; [left; exact Hq |].
      destruct amount as [ta |]; [| left; exact Hq]. run.
      destruct (ToWei ta) as [wei |]; [| left; exact Hq].
      destruct contract as [ci |]; [| left; exact Hq].
      destruct transactor as [opts |]; [| left; exact Hq].
      destruct bridgeNonce as [nonce |]; [| left; exact Hq].
      right. exists ci, opts, wei, nonce. split; [reflexivity |].
      destruct (txMintBridge env (trace w1) ci opts to wei fromChainID nonce);
        cbn [snd trace]; rewrite mint_calls_snoc, Hq; reflexivity.
    + rewrite (bind_panic _ _ _ _ _ Ht). left.
      eapply mint_calls_quiet; [| exact Ht].
      apply CreateTransactor_quiet, is_mint_probe.
    + rewrite (bind_out_of_fuel _ _ _ _ Ht). left.
      eapply mint_calls_quiet; [| exact Ht].
      apply CreateTransactor_quiet, is_mint_probe.
  - rewrite (bind_ret _ _ _ _ _ (GetContract_missing c _ w Hc)). left. reflexivity.
Qed.

(** [CompleteBridge] after a burn that was sent and a wait that ended. *)
Lemma CompleteBridge_after_wait (c : Client) (ctx : Context) (request : BridgeRequest)
    (w w1 w2 : World) (tx : Transaction) (receipt : option Receipt) (err : option error) :
  BurnBridge env c ctx request w = (Ret (Some tx, None), w1) ->
  WaitForTransaction env c ctx (FromChainID request) (Hash tx) w1 = (Ret (receipt, err), w2) ->
  CompleteBridge env c ctx request w
  = match err with
    | Some e => (Ret (Some (Errorf "burn transaction failed: %w" [OpErr e])), w2)
    | None =>
        match receipt with
        | None => (Panic nil_dereference, w2)
        | Some rc =>
            if negb (Status rc =? ReceiptStatusSuccessful)
            then (Ret (Some (Errorf "burn transaction reverted" [])), w2)
            else
              match extractBridgeNonceFromReceipt rc with
              | (_, Some e) =>
                  (Ret (Some (Errorf "failed to extract bridge nonce: %w" [OpErr e])), w2)
              | (bridgeNonce, None) =>
                  match MintBridge env c ctx (ToChainID request) (ToAddress request)
                          (RequestAmount request) (FromChainID request) bridgeNonce w2 with
                  | (Ret (_, Some e), w3) =>
                      (Ret (Some (Errorf "failed to mint on destination chain: %w"
                                    [OpErr e])), w3)
                  | (Ret (_, None), w3) => (Ret None, w3)
                  | (Panic msg, w3) => (Panic msg, w3)
                  | (OutOfFuel, w3) => (OutOfFuel, w3)
                  end
              end
        end
    end.
Proof.
  intros Hb Hw. unfold CompleteBridge.
  rewrite (bind_ret _ _ _ _ _ Hb). cbv beta iota.
  assert (Hd : deref (Some tx) w1 = (Ret tx, w1)) by reflexivity.
  rewrite (bind_ret _ _ _ _ _ Hd), (bind_ret _ _ _ _ _ Hw). cbv beta iota.
  destruct err as [e |]; [reflexivity |].
  destruct receipt as [rc |]; [| reflexivity].
  assert (Hr : deref (Some rc) w2 = (Ret rc, w2)) by reflexivity.
  rewrite (bind_ret _ _ _ _ _ Hr).
  destruct (negb (Status rc =? ReceiptStatusSuccessful)); [reflexivity |].
  destruct (extractBridgeNonceFromReceipt rc) as [bridgeNonce [e |]]; [reflexivity |].
  unfold mbind, M_bind.
  destruct (MintBridge env c ctx (ToChainID request) (ToAddress request)
              (RequestAmount request) (FromChainID request) bridgeNonce w2)
    as [[[m [e |]] | msg |] w3]; reflexivity.
Qed.

End Bridge.

Section BridgeProperties.

Variable env : Env.

Lemma CompleteBridge_burn_stops (c : Client) (ctx : Context) (request : BridgeRequest)
    (w w1 : World) (r : outcome (option Transaction * option error)) :
  BurnBridge env c ctx request w = (r, w1) ->
  match r with Ret (Some _, None) => False | _ => True end ->
  snd (CompleteBridge env c ctx request w) = w1.
Proof.
  intros Hb Hr. unfold CompleteBridge.
  destruct r as [[burnTx [e |]] | msg |].
  - rewrite (bind_ret _ _ _ _ _ Hb). reflexivity.
  - destruct burnTx; [destruct Hr |]. rewrite (bind_ret _ _ _ _ _ Hb). reflexivity.
  - rewrite (bind_panic _ _ _ _ _ Hb). reflexivity.
  - rewrite (bind_out_of_fuel _ _ _ _ Hb). reflexivity.
Qed.

Lemma CompleteBridge_wait_stops (c : Client) (ctx : Context) (request : BridgeRequest)
    (w w1 w2 : World) (tx : Transaction) (msg : string) :
  BurnBridge env c ctx request w = (Ret (Some tx, None), w1) ->
  (WaitForTransaction env c ctx (FromChainID request) (Hash tx) w1 = (Panic msg, w2)
   \/ WaitForTransaction env c ctx (FromChainID request) (Hash tx) w1 = (OutOfFuel, w2)) ->
  snd (CompleteBridge env c ctx request w) = w2.
Proof.
  intros Hb Hw. unfold CompleteBridge. rewrite (bind_ret _ _ _ _ _ Hb). cbv beta iota.
  assert (Hd : deref (Some tx) w1 = (Ret tx, w1)) by reflexivity.
  rewrite (bind_ret _ _ _ _ _ Hd).
  destruct Hw as [Hw | Hw];
    [rewrite (bind_panic _ _ _ _ _ Hw) | rewrite (bind_out_of_fuel _ _ _ _ Hw)];
    reflexivity.
Qed.

(** The mint call of a bridge operation, if there is one, follows a
    burn that was sent, a receipt with the successful status and an
    extraction that gave a nonce, and it carries that nonce. *)
Lemma CompleteBridge_mint_only_after (c : Client) (ctx : Context)
    (request : BridgeRequest) (w : World) :
  let w' := snd (CompleteBridge env c ctx request w) in
  mint_calls (trace w') = mint_calls (trace w)
  \/ exists tx w1 rc w2 nonce ci opts wei,
      BurnBridge env c ctx request w = (Ret (Some tx, None), w1)
      /\ WaitForTransaction env c ctx (FromChainID request) (Hash tx) w1
         = (Ret (Some rc, None), w2)
      /\ Status rc = ReceiptStatusSuccessful
      /\ extractBridgeNonceFromReceipt rc = (Some nonce, None)
      /\ mint_calls (trace w')
         = mint_calls (trace w)
             ++ [EvMintBridge ci opts (ToAddress request) wei (FromChainID request) nonce].
Proof.
  cbv zeta.
  destruct (BurnBridge env c ctx request w) as [r w1] eqn:Hb.
  pose proof (mint_calls_quiet _ _ _ _ (BurnBridge_no_mint env c ctx request) Hb) as Hq1.
  assert (Hstop : match r with Ret (Some _, None) => False | _ => True end ->
                  mint_calls (trace (snd (CompleteBridge env c ctx request w)))
                  = mint_calls (trace w)).
  { intros Hr. rewrite (CompleteBridge_burn_stops c ctx request w w1 r Hb Hr). exact Hq1. }
  destruct r as [[[tx |] [e |]] | msg |]; try (left; apply Hstop; exact I).
  destruct (WaitForTransaction env c ctx (FromChainID request) (Hash tx) w1)
    as [r2 w2] eqn:Hw.
  pose proof (mint_calls_quiet _ _ _ _
                (WaitForTransaction_quiet env is_mint is_mint_probe is_mint_receipt
                   c ctx (FromChainID request) (Hash tx)) Hw) as Hq2.
  rewrite Hq1 in Hq2.
  destruct r2 as [[receipt err] | msg | ];
    [| left; rewrite (CompleteBridge_wait_stops c ctx request w w1 w2 tx msg Hb); auto
     | left; rewrite (CompleteBridge_wait_stops c ctx request w w1 w2 tx "" Hb); auto].
  rewrite (CompleteBridge_after_wait env c ctx request w w1 w2 tx receipt err Hb Hw).
  destruct err as [e |]; [left; exact Hq2 |].
  destruct receipt as [rc |]; [| left; exact Hq2].
  destruct (Status rc =? ReceiptStatusSuccessful) eqn:Hs; cbn [negb]; [| left; exact Hq2].
  apply Z.eqb_eq in Hs.
  destruct (extractBridgeNonceFromReceipt rc) as [bridgeNonce [e |]] eqn:He;
    [left; exact Hq2 |].
  pose proof (MintBridge_mints env c ctx (ToChainID request) (ToAddress request)
                (RequestAmount request) (FromChainID request) bridgeNonce w2) as Hm.
  cbv zeta in Hm.
  assert (Hsnd : forall x : outcome (option Transaction * option error) * World,
             snd (match x with
                  | (Ret (_, Some e), w3) =>
                      (Ret (Some (Errorf "failed to mint on destination chain: %w"
                                    [OpErr e])), w3)
                  | (Ret (_, None), w3) => (Ret None, w3)
                  | (Panic msg, w3) => (Panic msg, w3)
                  | (OutOfFuel, w3) => (OutOfFuel, w3)
                  end) = snd x).
  { intros [[[m [e |]] | msg |] w3]; reflexivity. }
  rewrite Hsnd.
  destruct Hm as [Hm | (ci & opts & wei & nonce & -> & Hm)].
  - left. rewrite Hm. exact Hq2.
  - right. exists tx, w1, rc, w2, nonce, ci, opts, wei.
    repeat split; try assumption. rewrite Hm, Hq2. reflexivity.
Qed.

(** C3: a bridge operation whose wait for the burn fails, or whose burn
    receipt does not have the successful status, ends with the
    burn-failure error and makes no mint call; a mint call is made only
    after a burn that was sent, a receipt with the successful status and
    an extraction that gave a nonce. *)
Theorem CompleteBridge_no_mint_without_burn (c : Client) (ctx : Context)
    (request : BridgeRequest) (w : World) :
  (forall w1 w2 tx receipt err,
      BurnBridge env c ctx request w = (Ret (Some tx, None), w1) ->
      WaitForTransaction env c ctx (FromChainID request) (Hash tx) w1
      = (Ret (receipt, err), w2) ->
      (forall e, err = Some e ->
         CompleteBridge env c ctx request w
         = (Ret (Some (Errorf "burn transaction failed: %w" [OpErr e])), w2)
         /\ mint_calls (trace w2) = mint_calls (trace w))
      /\ (forall rc, err = None -> receipt = Some rc ->
             Status rc <> ReceiptStatusSuccessful ->
             CompleteBridge env c ctx request w
             = (Ret (Some (Errorf "burn transaction reverted" [])), w2)
             /\ mint_calls (trace w2) = mint_calls (trace w)))
  /\ (let w' := snd (CompleteBridge env c ctx request w) in
      mint_calls (trace w') = mint_calls (trace w)
      \/ exists tx w1 rc w2 nonce ci opts wei,
          BurnBridge env c ctx request w = (Ret (Some tx, None), w1)
          /\ WaitForTransaction env c ctx (FromChainID request) (Hash tx) w1
             = (Ret (Some rc, None), w2)
          /\ Status rc = ReceiptStatusSuccessful
          /\ extractBridgeNonceFromReceipt rc = (Some nonce, None)
          /\ mint_calls (trace w')
             = mint_calls (trace w)
                 ++ [EvMintBridge ci opts (ToAddress request) wei (FromChainID request)
                       nonce]).
Proof.
  split; [| apply CompleteBridge_mint_only_after].
  intros w1 w2 tx receipt err Hb Hw.
  pose proof (mint_calls_quiet _ _ _ _ (BurnBridge_no_mint env c ctx request) Hb) as Hq1.
  pose proof (mint_calls_quiet _ _ _ _
                (WaitForTransaction_quiet env is_mint is_mint_probe is_mint_receipt
                   c ctx (FromChainID request) (Hash tx)) Hw) as Hq2.
  rewrite Hq1 in Hq2.
  pose proof (CompleteBridge_after_wait env c ctx request w w1 w2 tx receipt err Hb Hw)
    as Hrun.
  split.
  - intros e ->. split; [exact Hrun | exact Hq2].
  - intros rc -> -> Hs. split; [| exact Hq2]. rewrite Hrun.
    destruct (Z.eqb_spec (Status rc) ReceiptStatusSuccessful); [contradiction | reflexivity].
Qed.

(** C2 (amended): when the burn was sent and confirmed with the
    successful status, the extraction gave a nonce and the mint then
    fails, [CompleteBridge] returns the error "failed to mint on
    destination chain" whose one operand is the error of the mint; the
    nonce is no part of it.  The nonce the extraction gave is 0.
    [MintBridge], called again with that nonce, makes no burn call. *)
Theorem CompleteBridge_mint_failure (c : Client) (ctx : Context)
    (request : BridgeRequest) (w w1 w2 w3 : World) (tx : Transaction) (rc : Receipt)
    (bridgeNonce : option Z) (minted : option Transaction) (e : error) :
  BurnBridge env c ctx request w = (Ret (Some tx, None), w1) ->
  WaitForTransaction env c ctx (FromChainID request) (Hash tx) w1
  = (Ret (Some rc, None), w2) ->
  Status rc = ReceiptStatusSuccessful ->
  extractBridgeNonceFromReceipt rc = (bridgeNonce, None) ->
  MintBridge env c ctx (ToChainID request) (ToAddress request) (RequestAmount request)
    (FromChainID request) bridgeNonce w2 = (Ret (minted, Some e), w3) ->
  CompleteBridge env c ctx request w
  = (Ret (Some (Errorf "failed to mint on destination chain: %w" [OpErr e])), w3)
  /\ bridgeNonce = Some 0
  /\ (forall ctx' w',
        burn_calls (trace (snd (MintBridge env c ctx' (ToChainID request)
                                  (ToAddress request) (RequestAmount request)
                                  (FromChainID request) bridgeNonce w')))
        = burn_calls (trace w')).
Proof.
  intros Hb Hw Hs He Hm. split; [| split].
  - rewrite (CompleteBridge_after_wait env c ctx request w w1 w2 tx (Some rc) None Hb Hw).
    rewrite Hs, Z.eqb_refl. cbn [negb]. rewrite He, Hm. reflexivity.
  - unfold extractBridgeNonceFromReceipt in He.
    destruct (extract_from_logs_cases (Logs rc)) as [H | H]; rewrite H in He;
      inversion He. reflexivity.
  - intros ctx' w'. eapply burn_calls_quiet; [apply MintBridge_no_burn |].
    apply surjective_pairing.
Qed.

End BridgeProperties.

(** C1: a receipt with a log whose first topic is the zero hash makes the
    extraction succeed with the constant 0, whatever the log holds (here
    the word of 7), and 0 is the nonce [CompleteBridge] passes to the
    mint. *)
Theorem extraction_returns_placeholder :
  (forall status topics data,
      extractBridgeNonceFromReceipt (mkReceipt status [mkLog (0 :: topics) data])
      = (Some 0, None))
  /\ extractBridgeNonceFromReceipt (Sim.zero_topic_receipt 7) = (Some 0, None)
  /\ let s := Sim.bridging (Ok (Sim.zero_topic_receipt 7)) (Ok (mkTransaction 78)) in
     exists ci opts wei,
       CompleteBridge (Sim.sim s) (Sim.client s) Background Sim.request_500 Sim.world0
       = (Ret None,
          snd (CompleteBridge (Sim.sim s) (Sim.client s) Background Sim.request_500
                 Sim.world0))
       /\ mint_calls
            (trace (snd (CompleteBridge (Sim.sim s) (Sim.client s) Background
                           Sim.request_500 Sim.world0)))
          = [EvMintBridge ci opts (ToAddress Sim.request_500) wei BaseChainID 0].
Proof.
  split; [intros; reflexivity |]. split; [reflexivity |].
  cbv zeta. eexists _, _, _. split; vm_compute; reflexivity.
Qed.

(** C2 (as stated) fails: the burn is confirmed, the extraction gives a
    nonce, the mint is rejected, and the error [CompleteBridge] returns
    holds no nonce. *)
Lemma mint_failure_error_has_no_nonce :
  let s := Sim.bridging (Ok (Sim.zero_topic_receipt 7)) (Err Sim.reverted) in
  let env := Sim.sim s in
  let c := Sim.client s in
  exists tx w1 rc w2 nonce w3 e,
    BurnBridge env c Background Sim.request_500 Sim.world0 = (Ret (Some tx, None), w1)
    /\ WaitForTransaction env c Background BaseChainID (Hash tx) w1
       = (Ret (Some rc, None), w2)
    /\ Status rc = ReceiptStatusSuccessful
    /\ extractBridgeNonceFromReceipt rc = (Some nonce, None)
    /\ MintBridge env c Background PolygonChainID (ToAddress Sim.request_500)
         (RequestAmount Sim.request_500) BaseChainID (Some nonce) w2
       = (Ret (None, Some (Errorf "failed to mint bridge tokens: %w" [OpErr Sim.reverted])),
          w3)
    /\ CompleteBridge env c Background Sim.request_500 Sim.world0 = (Ret (Some e), w3)
    /\ ~ spec_carries_nonce e nonce.
Proof.
  cbv zeta. eexists _, _, _, _, _, _, _.
  split; [vm_compute; reflexivity |]. split; [vm_compute; reflexivity |].
  split; [reflexivity |]. split; [reflexivity |].
  split; [vm_compute; reflexivity |]. split; [vm_compute; reflexivity |].
  unfold spec_carries_nonce. cbn. tauto.
Qed.

Lemma CompleteBridge_mint_failure_witness :
  let s := Sim.bridging (Ok (Sim.zero_topic_receipt 7)) (Err Sim.reverted) in
  exists w3,
    CompleteBridge (Sim.sim s) (Sim.client s) Background Sim.request_500 Sim.world0
    = (Ret (Some (Errorf "failed to mint on destination chain: %w"
                    [OpErr (Errorf "failed to mint bridge tokens: %w"
                              [OpErr Sim.reverted])])), w3).
Proof.
  cbv zeta.
  set (s := Sim.bridging (Ok (Sim.zero_topic_receipt 7)) (Err Sim.reverted)).
  set (w1 := snd (BurnBridge (Sim.sim s) (Sim.client s) Background Sim.request_500
                    Sim.world0)).
  set (w2 := snd (WaitForTransaction (Sim.sim s) (Sim.client s) Background BaseChainID 77 w1)).
  set (w3 := snd (MintBridge (Sim.sim s) (Sim.client s) Background PolygonChainID
                    (ToAddress Sim.request_500) (RequestAmount Sim.request_500)
                    BaseChainID (Some 0) w2)).
  exists w3.
  apply (CompleteBridge_mint_failure (Sim.sim s) (Sim.client s) Background Sim.request_500
           Sim.world0 w1 w2 w3 (mkTransaction 77) (Sim.zero_topic_receipt 7) (Some 0) None
           (Errorf "failed to mint bridge tokens: %w" [OpErr Sim.reverted])).
  - vm_compute. reflexivity.
  - vm_compute. reflexivity.
  - reflexivity.
  - reflexivity.
  - vm_compute. reflexivity.
Defined.

Lemma CompleteBridge_no_mint_without_burn_witness :
  let s := Sim.bridging (Ok (mkReceipt 0 [])) (Ok (mkTransaction 78)) in
  exists w2,
    CompleteBridge (Sim.sim s) (Sim.client s) Background Sim.request_500 Sim.world0
    = (Ret (Some (Errorf "burn transaction reverted" [])), w2)
    /\ mint_calls (trace w2) = mint_calls (trace Sim.world0).
Proof.
  cbv zeta.
  set (s := Sim.bridging (Ok (mkReceipt 0 [])) (Ok (mkTransaction 78))).
  set (w1 := snd (BurnBridge (Sim.sim s) (Sim.client s) Background Sim.request_500
                    Sim.world0)).
  set (w2 := snd (WaitForTransaction (Sim.sim s) (Sim.client s) Background BaseChainID 77 w1)).
  exists w2.
  refine (proj2 (proj1 (CompleteBridge_no_mint_without_burn (Sim.sim s) (Sim.client s)
                          Background Sim.request_500 Sim.world0)
                   w1 w2 (mkTransaction 77) (Some (mkReceipt 0 [])) None _ _)
            (mkReceipt 0 []) eq_refl eq_refl _).
  - vm_compute. reflexivity.
  - vm_compute. reflexivity.
  - cbn. discriminate.
Defined.

(** * Further properties *)

(** ** The registry lookups *)

Section RegistryLookups.

Variable nets : list (string * NetworkConfig).
Hypothesis names_NoDup : List.NoDup (map fst nets).
Hypothesis chains_NoDup : List.NoDup (map chain_of nets).

Lemma lookup_name_In (n : string) (cfg : NetworkConfig) :
  lookup_name nets n = Some cfg <-> In (n, cfg) nets.
Proof.
  clear chains_NoDup. induction nets as [| [n' cfg'] rest IH]; cbn [lookup_name In].
  - split; [discriminate | tauto].
  - inversion names_NoDup as [| ? ? Hnotin Hnd]; subst.
    destruct (String.eqb_spec n' n) as [-> | Hne].
    + split.
      * intros H. inversion H. left. reflexivity.
      * intros [H | H]; [inversion H; reflexivity |].
        exfalso. apply Hnotin. apply (in_map fst _ (n, cfg)). exact H.
    + rewrite (IH Hnd). split; [tauto |].
      intros [H | H]; [inversion H; contradiction | exact H].
Qed.

Lemma find_chain_In (chainID : Z) (n : string) (cfg : NetworkConfig) :
  find_chain nets chainID = (Some cfg, n, true) <-> In (n, cfg) nets /\ ChainID cfg = chainID.
Proof.
  split.
  - intros H. apply find_chain_found in H as (c & Hc & Hin & Hid).
    inversion Hc; subst c. split; assumption.
  - intros [Hin <-]. apply find_chain_present; assumption.
Qed.

Lemma find_name_find_chain (chainID : Z) :
  find_name nets chainID
  = (snd (fst (find_chain nets chainID)), snd (find_chain nets chainID)).
Proof.
  clear names_NoDup chains_NoDup.
  induction nets as [| [n cfg] rest IH]; cbn [find_name find_chain]; [reflexivity |].
  destruct (ChainID cfg =? chainID); [reflexivity | exact IH].
Qed.

Lemma existsb_find_chain (chainID : Z) :
  existsb (fun '(_, config) => ChainID config =? chainID) nets
  = snd (find_chain nets chainID).
Proof.
  clear names_NoDup chains_NoDup.
  induction nets as [| [n cfg] rest IH]; cbn [existsb find_chain]; [reflexivity |].
  destruct (ChainID cfg =? chainID); [reflexivity | exact IH].
Qed.

Lemma find_chain_supported (chainID : Z) :
  snd (find_chain nets chainID) = true <-> In chainID (GetSupportedChainIDs nets).
Proof.
  clear names_NoDup chains_NoDup. unfold GetSupportedChainIDs.
  induction nets as [| [n cfg] rest IH]; cbn [find_chain map In snd].
  - split; [discriminate | tauto].
  - destruct (Z.eqb_spec (ChainID cfg) chainID) as [Heq | Hne]; cbn [snd].
    + split; [intros _; left; exact Heq | reflexivity].
    + rewrite IH. split; [tauto | intros [H | H]; [contradiction | exact H]].
Qed.

End RegistryLookups.

Lemma SupportedNetworks_names_NoDup : List.NoDup (map fst SupportedNetworks).
Proof.
  cbn [map fst SupportedNetworks].
  repeat (constructor; [cbn; intuition discriminate |]). constructor.
Qed.

(** X1: the lookups by chain ID give the same answer whatever the order
    in which the map is enumerated, and the two listings are the same up
    to order. *)
Theorem chain_lookups_any_order (order : list (string * NetworkConfig)) (chainID : Z) :
  Permutation SupportedNetworks order ->
  find_chain order chainID = GetNetworkConfigByChainID chainID
  /\ find_name order chainID = GetNetworkNameByChainID chainID
  /\ existsb (fun '(_, config) => ChainID config =? chainID) order = IsChainSupported chainID
  /\ Permutation (GetSupportedChainIDs SupportedNetworks) (GetSupportedChainIDs order)
  /\ Permutation (GetSupportedNetworks SupportedNetworks) (GetSupportedNetworks order).
Proof.
  intros Hperm.
  assert (Hfind : find_chain order chainID = GetNetworkConfigByChainID chainID)
    by (apply find_chain_order; [apply SupportedNetworks_chains_NoDup | exact Hperm]).
  split; [exact Hfind |]. split; [| split; [| split]].
  - unfold GetNetworkNameByChainID. rewrite !find_name_find_chain, Hfind. reflexivity.
  - unfold IsChainSupported. rewrite !existsb_find_chain, Hfind. reflexivity.
  - apply Permutation_map, Hperm.
  - apply Permutation_map, Hperm.
Qed.

Lemma chain_lookups_any_order_witness :
  find_chain (rev SupportedNetworks) PolygonChainID = GetNetworkConfigByChainID PolygonChainID
  /\ find_name (rev SupportedNetworks) PolygonChainID = GetNetworkNameByChainID PolygonChainID.
Proof.
  destruct (chain_lookups_any_order (rev SupportedNetworks) PolygonChainID
              (Permutation_rev SupportedNetworks)) as (H1 & H2 & _).
  split; assumption.
Defined.

(** X2: the lookup by name and the lookup by chain ID are inverse to each
    other: a chain ID resolves to a configuration and a name exactly when
    the name resolves to that configuration and the configuration has the
    chain ID. *)
Theorem registry_lookups_agree (chainID : Z) (networkName : string)
    (config : NetworkConfig) :
  GetNetworkConfigByChainID chainID = (Some config, networkName, true)
  <-> GetNetworkConfig networkName = (Some config, true) /\ ChainID config = chainID.
Proof.
  unfold GetNetworkConfigByChainID, GetNetworkConfig.
  rewrite (find_chain_In SupportedNetworks SupportedNetworks_chains_NoDup).
  rewrite <- (lookup_name_In SupportedNetworks SupportedNetworks_names_NoDup).
  destruct (lookup_name SupportedNetworks networkName) as [c |].
  - split.
    + intros [H Hid]. inversion H. split; [reflexivity | exact Hid].
    + intros [H Hid]. inversion H. split; [reflexivity | exact Hid].
  - split; intros [H _]; discriminate.
Qed.

Lemma unsupported_lookup (chainID : Z) :
  IsChainSupported chainID = false ->
  GetNetworkConfigByChainID chainID = (None, "", false).
Proof.
  unfold IsChainSupported, GetNetworkConfigByChainID. rewrite existsb_find_chain.
  intros H. destruct (find_chain SupportedNetworks chainID) as [[cfg n] found] eqn:Hf.
  cbn [snd] in H. subst found.
  assert (Hn : find_chain SupportedNetworks chainID = (None, "", false)).
  { apply find_chain_absent. intros [n' cfg'] Hin Heq.
    unfold chain_of in Heq. cbn [snd] in Heq.
    rewrite <- Heq, (find_chain_present _ n' cfg' SupportedNetworks_chains_NoDup Hin) in Hf.
    discriminate. }
  rewrite Hn in Hf. symmetry. exact Hf.
Qed.

Lemma registered_decimals (chainID : Z) (cfg : NetworkConfig) (n : string) :
  GetNetworkConfigByChainID chainID = (Some cfg, n, true) ->
  TokenDecimals cfg = 0 \/ TokenDecimals cfg = 2.
Proof.
  intros H. apply find_chain_found in H as (c & Hc & Hin & _).
  inversion Hc; subst c. unfold SupportedNetworks in Hin.
  repeat (destruct Hin as [Hin | Hin];
          [inversion Hin; cbn [TokenDecimals]; auto |]).
  destruct Hin.
Qed.

(** X3: the four answers about a chain ID agree: it is supported exactly
    when it is listed, when its configuration is found and when its name
    is found, the name being the one the configuration is filed under; a
    chain that is not supported gets the nil configuration and the empty
    name. *)
Theorem chain_support_agrees (chainID : Z) :
  (IsChainSupported chainID = true <-> In chainID (GetSupportedChainIDs SupportedNetworks))
  /\ snd (GetNetworkConfigByChainID chainID) = IsChainSupported chainID
  /\ GetNetworkNameByChainID chainID
     = (snd (fst (GetNetworkConfigByChainID chainID)), IsChainSupported chainID)
  /\ (IsChainSupported chainID = false ->
      GetNetworkConfigByChainID chainID = (None, "", false)).
Proof.
  unfold IsChainSupported, GetNetworkConfigByChainID, GetNetworkNameByChainID.
  rewrite existsb_find_chain. split; [apply find_chain_supported |].
  split; [reflexivity |]. split; [apply find_name_find_chain |].
  intros H. apply unsupported_lookup. unfold IsChainSupported.
  rewrite existsb_find_chain. exact H.
Qed.

(** X4: the decimals of a chain are 0 or 2 for every chain ID; they are
    the decimals of its configuration when the chain is supported and 2
    when it is not. *)
Theorem GetDecimals_cases (chainID : Z) :
  (GetDecimals chainID = 0 \/ GetDecimals chainID = 2)
  /\ (IsChainSupported chainID = false -> GetDecimals chainID = 2)
  /\ (forall config networkName,
         GetNetworkConfigByChainID chainID = (Some config, networkName, true) ->
         GetDecimals chainID = TokenDecimals config).
Proof.
  assert (Hfound : forall config networkName,
             GetNetworkConfigByChainID chainID = (Some config, networkName, true) ->
             GetDecimals chainID = TokenDecimals config).
  { intros config n H. unfold GetDecimals. rewrite H. reflexivity. }
  assert (Hnot : IsChainSupported chainID = false -> GetDecimals chainID = 2).
  { intros H. unfold GetDecimals. rewrite (unsupported_lookup chainID H). reflexivity. }
  split; [| split; assumption].
  destruct (IsChainSupported chainID) eqn:Hs; [| right; apply Hnot; reflexivity].
  destruct (GetNetworkConfigByChainID chainID) as [[cfg n] found] eqn:Hf.
  assert (found = true) as ->.
  { pose proof (existsb_find_chain SupportedNetworks chainID) as He.
    fold (IsChainSupported chainID) in He. fold (GetNetworkConfigByChainID chainID) in He.
    rewrite Hf, Hs in He. cbn [snd] in He. symmetry. exact He. }
  destruct (find_chain_found _ _ _ _ Hf) as (c & -> & _ & _).
  rewrite (Hfound c n eq_refl). eapply registered_decimals. exact Hf.
Qed.

(** ** Token amounts, both ways *)

(** X5: for a precision of at most 16 digits, an amount with no more
    fractional digits than the precision converts to base units and back
    to an amount equal to it. *)
Theorem amount_roundtrip (x : Decimal) (d : Z) :
  0 <= d <= 16 ->
  - d <= exp x ->
  in_int32 (exp x) = true ->
  exists wei back,
    ToWei (mkTokenAmount x d) = Some wei
    /\ FromWei wei d = Some back
    /\ Decimals back = d
    /\ Equal (Amount back) x = true.
Proof.
  intros Hd Hx Hi. destruct (roundtrip_upto_16 x d Hd Hx Hi) as (wei & ta & Hw & Hf & He).
  exists wei, ta. repeat split; try assumption.
  rewrite FromWei_exact in Hf by assumption. inversion Hf. reflexivity.
Qed.

Lemma amount_roundtrip_witness :
  exists wei back,
    ToWei (mkTokenAmount (mkDecimal 100050 (-2)) 2) = Some wei
    /\ FromWei wei 2 = Some back
    /\ Decimals back = 2
    /\ Equal (Amount back) (mkDecimal 100050 (-2)) = true.
Proof. apply (amount_roundtrip (mkDecimal 100050 (-2)) 2); [lia | cbn; lia | reflexivity]. Defined.

(** X6: for a precision of at most 16 digits, a number of base units
    converts to an amount and back to the same number of base units. *)
Theorem base_units_roundtrip (wei d : Z) :
  0 <= d <= 16 ->
  exists ta, FromWei wei d = Some ta /\ ToWei ta = Some wei.
Proof.
  intros Hd. eexists. split; [apply FromWei_exact; exact Hd |].
  rewrite ToWei_trunc by (cbn [Decimals Amount exp]; first [lia | reflexivity]).
  cbn [Amount Decimals value exp]. f_equal. unfold trunc_scaled.
  destruct (Z.leb_spec 0 (-16 + d)) as [H | H].
  - assert (d = 16) as -> by lia. cbn. lia.
  - replace (- (-16 + d)) with (16 - d) by lia.
    apply Z.quot_mul. apply Z.pow_nonzero; lia.
Qed.

Lemma base_units_roundtrip_witness :
  exists ta, FromWei 100050 2 = Some ta /\ ToWei ta = Some 100050.
Proof. apply (base_units_roundtrip 100050 2). lia. Defined.

(** ** Printing an amount *)

Lemma append_nil_l (s : string) : ("" ++ s)%string = s.
Proof. reflexivity. Qed.

Lemma append_cons (c : ascii) (a s : string) :
  (String c a ++ s)%string = String c (a ++ s)%string.
Proof. reflexivity. Qed.

(** Unfold the appends in front of a string. *)
Ltac sapp := rewrite ?append_cons, ?append_nil_l.

Lemma length_append (a b : string) :
  String.length (a ++ b)%string = (String.length a + String.length b)%nat.
Proof. induction a as [| c a IH]; sapp; simpl; [reflexivity | f_equal; exact IH]. Qed.








(** The scenario of formatting: 100050 base units at two decimals, an
    amount with fewer digits than the precision, and one with more. *)
Example String_examples :
  (TokenAmount_String <$> FromWei 100050 2) = Some "1000.50"
  /\ TokenAmount_String (mkTokenAmount (mkDecimal 10005 (-1)) 2) = "1000.50"
  /\ TokenAmount_String (mkTokenAmount (mkDecimal 1005 (-3)) 2) = "1.01"
  /\ TokenAmount_String (mkTokenAmount (mkDecimal (-1005) (-3)) 2) = "-1.01"
  /\ TokenAmount_String (mkTokenAmount (mkDecimal 5 (-3)) 2) = "0.01"
  /\ TokenAmount_String (mkTokenAmount (mkDecimal 1234 (-2)) 0) = "12".
Proof. repeat split; vm_compute; reflexivity. Qed.

(** ** Parsing an amount *)

Lemma digit_is_plain (c : ascii) :
  is_digit c = true ->
  is_e c = false /\ is_dot c = false /\ c <> "+"%char /\ c <> "-"%char.
Proof.
  destruct c as [[] [] [] [] [] [] [] []]; cbn; intros H; try discriminate H;
    repeat split; discriminate.
Qed.

Lemma all_digits_app (a b : string) :
  all_digits (a ++ b)%string = all_digits a && all_digits b.
Proof.
  induction a as [| c a IH]; sapp; simpl; [reflexivity |].
  rewrite IH, andb_assoc. reflexivity.
Qed.

Lemma index_any_digits (p : ascii -> bool) (a s : string) :
  (forall c, is_digit c = true -> p c = false) ->
  all_digits a = true ->
  index_any (a ++ s)%string p = (fun i => (String.length a + i)%nat) <$> index_any s p.
Proof.
  intros Hp. induction a as [| c a IH]; sapp; simpl; intros Ha.
  - destruct (index_any s p); reflexivity.
  - apply andb_true_iff in Ha as [Hc Ha]. rewrite (Hp c Hc), (IH Ha).
    destruct (index_any s p); reflexivity.
Qed.

Lemma index_any_digits_none (p : ascii -> bool) (a : string) :
  (forall c, is_digit c = true -> p c = false) ->
  all_digits a = true ->
  index_any a p = None.
Proof.
  intros Hp. induction a as [| c a IH]; sapp; simpl; intros Ha; [reflexivity |].
  apply andb_true_iff in Ha as [Hc Ha]. rewrite (Hp c Hc), (IH Ha). reflexivity.
Qed.

Lemma count_char_app (a b : string) (c : ascii) :
  count_char (a ++ b)%string c = (count_char a c + count_char b c)%nat.
Proof. induction a as [| x a IH]; sapp; simpl; [reflexivity | rewrite IH; lia]. Qed.

Lemma count_dot_digits (a : string) : all_digits a = true -> count_char a "." = O.
Proof.
  induction a as [| c a IH]; cbn [count_char all_digits]; intros Ha; [reflexivity |].
  apply andb_true_iff in Ha as [Hc Ha]. rewrite (IH Ha).
  destruct (digit_is_plain c Hc) as (_ & Hdot & _). unfold is_dot in Hdot.
  rewrite Ascii.eqb_sym, Hdot. reflexivity.
Qed.

Lemma append_assoc_s (a b c : string) : ((a ++ b) ++ c)%string = (a ++ b ++ c)%string.
Proof. induction a as [| x a IH]; sapp; [reflexivity | rewrite IH; reflexivity]. Qed.

Lemma substring_prefix (a s : string) : substring 0 (String.length a) (a ++ s)%string = a.
Proof.
  induction a as [| c a IH]; sapp; simpl; [destruct s; reflexivity | rewrite IH; reflexivity].
Qed.

Lemma substring_whole (s : string) : substring 0 (String.length s) s = s.
Proof. induction s as [| c s IH]; simpl; [reflexivity | rewrite IH; reflexivity]. Qed.

Lemma substring_after (a s : string) (n : nat) :
  substring (String.length a) n (a ++ s)%string = substring 0 n s.
Proof. induction a as [| c a IH]; sapp; simpl; [reflexivity | exact IH]. Qed.

Lemma parse_digits_total (a : string) :
  all_digits a = true -> forall acc, exists v, parse_digits a acc = Some v.
Proof.
  induction a as [| c a IH]; sapp; simpl; intros Ha acc; [eauto |].
  apply andb_true_iff in Ha as [Hc Ha]. rewrite Hc. apply IH, Ha.
Qed.

Lemma parse_int_digits (a : string) :
  all_digits a = true -> a <> "" -> parse_int a = parse_digits a 0.
Proof.
  destruct a as [| c a]; [congruence |]. simpl. intros Ha _.
  apply andb_true_iff in Ha as [Hc _].
  destruct c as [[] [] [] [] [] [] [] []]; try discriminate Hc; reflexivity.
Qed.

(** A literal made of digits only is an integer. *)
Lemma NewFromString_integer (a : string) (v : Z) :
  all_digits a = true -> a <> "" -> parse_digits a 0 = Some v ->
  NewFromString a = (mkDecimal v 0, None).
Proof.
  intros Ha Hne Hv. unfold NewFromString.
  rewrite (index_any_digits_none is_e a) by (try assumption; intros c Hc; apply digit_is_plain, Hc).
  rewrite (count_dot_digits a Ha). cbn [Nat.ltb Nat.leb].
  rewrite (index_any_digits_none is_dot a) by (try assumption; intros c Hc; apply digit_is_plain, Hc).
  rewrite (parse_int_digits a Ha Hne), Hv. reflexivity.
Qed.

(** A literal with one point between digits. *)
Lemma NewFromString_point (a b : string) (v : Z) :
  all_digits a = true -> all_digits b = true -> (a ++ b)%string <> "" ->
  Z.of_nat (String.length b) <= 2 ^ 31 ->
  parse_digits (a ++ b) 0 = Some v ->
  NewFromString (a ++ "." ++ b) = (mkDecimal v (- Z.of_nat (String.length b)), None).
Proof.
  intros Ha Hb Hne Hlen Hv. unfold NewFromString.
  assert (He : index_any (a ++ "." ++ b)%string is_e = None).
  { rewrite (index_any_digits is_e a) by (try assumption; intros c Hc; apply digit_is_plain, Hc).
    sapp. simpl. rewrite (index_any_digits_none is_e b)
      by (try assumption; intros c Hc; apply digit_is_plain, Hc). reflexivity. }
  rewrite He.
  assert (Hcount : count_char (a ++ "." ++ b)%string "." = 1%nat).
  { rewrite count_char_app, (count_dot_digits a Ha). sapp. cbn [count_char].
    rewrite (count_dot_digits b Hb). reflexivity. }
  rewrite Hcount. cbn [Nat.ltb Nat.leb].
  assert (Hdot : index_any (a ++ "." ++ b)%string is_dot = Some (String.length a)).
  { rewrite (index_any_digits is_dot a)
      by (try assumption; intros c Hc; apply digit_is_plain, Hc).
    sapp. simpl. rewrite Nat.add_0_r. reflexivity. }
  rewrite Hdot.
  assert (Hfrac : substring (S (String.length a))
                    (String.length (a ++ "." ++ b)%string - S (String.length a))
                    (a ++ "." ++ b)%string = b).
  { rewrite length_append. sapp. simpl String.length.
    replace (String.length a + S (String.length b) - S (String.length a))%nat
      with (String.length b) by lia.
    replace (S (String.length a)) with (String.length (a ++ ".")%string)
      by (rewrite length_append; simpl; lia).
    change (String "." b) with ("." ++ b)%string. rewrite <- (append_assoc_s a "." b).
    rewrite substring_after. apply substring_whole. }
  rewrite Hfrac, substring_prefix.
  assert (Hint : parse_int (a ++ b) = Some v).
  { rewrite parse_int_digits; [exact Hv | | exact Hne].
    rewrite all_digits_app, Ha, Hb. reflexivity. }
  rewrite Hint.
  assert (Hexp : in_int32 (0 - Z.of_nat (String.length b)) = true).
  { unfold in_int32, MinInt32, MaxInt32. apply andb_true_iff. split; apply Z.leb_le; lia. }
  rewrite Hexp. reflexivity.
Qed.

(** X8: a literal of digits, or of digits around one point, parses to the
    number its digits spell, with as many fractional digits as follow the
    point; at a precision that has room for them it converts to base
    units with no digit lost. *)
Theorem ParseTokenAmount_literal (a b : string) (d : Z) :
  all_digits a = true ->
  a <> "" ->
  all_digits b = true ->
  Z.of_nat (String.length b) <= d <= 2 ^ 31 ->
  exists va vab,
    parse_digits a 0 = Some va
    /\ parse_digits (a ++ b) 0 = Some vab
    /\ ParseTokenAmount a d = (Some (mkTokenAmount (mkDecimal va 0) d), None)
    /\ ToWei (mkTokenAmount (mkDecimal va 0) d) = Some (va * 10 ^ d)
    /\ ParseTokenAmount (a ++ "." ++ b) d
       = (Some (mkTokenAmount (mkDecimal vab (- Z.of_nat (String.length b))) d), None)
    /\ ToWei (mkTokenAmount (mkDecimal vab (- Z.of_nat (String.length b))) d)
       = Some (vab * 10 ^ (d - Z.of_nat (String.length b))).
Proof.
  intros Ha Hne Hb Hd.
  destruct (parse_digits_total a Ha 0) as [va Hva].
  assert (Hab : all_digits (a ++ b) = true) by (rewrite all_digits_app, Ha, Hb; reflexivity).
  destruct (parse_digits_total (a ++ b) Hab 0) as [vab Hvab].
  assert (Hne' : (a ++ b)%string <> "") by (destruct a; [congruence | discriminate]).
  exists va, vab. split; [exact Hva |]. split; [exact Hvab |].
  split; [| split; [| split]].
  - unfold ParseTokenAmount. rewrite (NewFromString_integer a va Ha Hne Hva). reflexivity.
  - rewrite ToWei_trunc by (cbn [Amount Decimals exp]; first [lia | reflexivity]).
    cbn [Amount Decimals value exp]. unfold trunc_scaled.
    destruct (Z.leb_spec 0 (0 + d)); [| lia]. rewrite Z.add_0_l. reflexivity.
  - unfold ParseTokenAmount.
    rewrite (NewFromString_point a b vab Ha Hb Hne' ltac:(lia) Hvab). reflexivity.
  - rewrite ToWei_trunc.
    + cbn [Amount Decimals value exp]. unfold trunc_scaled.
      destruct (Z.leb_spec 0 (- Z.of_nat (String.length b) + d)); [| lia].
      replace (- Z.of_nat (String.length b) + d) with (d - Z.of_nat (String.length b)) by lia.
      reflexivity.
    + cbn [Decimals]. lia.
    + cbn [Amount exp]. unfold in_int32, MinInt32, MaxInt32.
      apply andb_true_iff. split; apply Z.leb_le; lia.
Qed.

Lemma ParseTokenAmount_literal_witness :
  exists va vab,
    parse_digits "1000" 0 = Some va
    /\ parse_digits "100050" 0 = Some vab
    /\ ParseTokenAmount "1000" 2 = (Some (mkTokenAmount (mkDecimal va 0) 2), None)
    /\ ToWei (mkTokenAmount (mkDecimal va 0) 2) = Some (va * 10 ^ 2)
    /\ ParseTokenAmount "1000.50" 2 = (Some (mkTokenAmount (mkDecimal vab (-2)) 2), None)
    /\ ToWei (mkTokenAmount (mkDecimal vab (-2)) 2) = Some (vab * 10 ^ (2 - 2)).
Proof.
  apply (ParseTokenAmount_literal "1000" "50" 2); [reflexivity | discriminate | reflexivity |].
  cbn. lia.
Defined.

Lemma index_any_split (p : ascii -> bool) (s : string) :
  forall i, index_any s p = Some i ->
    exists c, p c = true
      /\ s = (substring 0 i s
              ++ String c (substring (S i) (String.length s - S i) s))%string.
Proof.
  induction s as [| x s IH]; cbn [index_any]; intros i H; [discriminate |].
  destruct (p x) eqn:Hx.
  - inversion H; subst i. exists x. split; [exact Hx |].
    cbn [substring String.length]. sapp.
    replace (S (String.length s) - 1)%nat with (String.length s) by lia.
    rewrite substring_whole. reflexivity.
  - destruct (index_any s p) as [j |] eqn:Hj; [| discriminate].
    cbn in H. inversion H; subst i.
    destruct (IH j eq_refl) as (c & Hc & Hs). exists c. split; [exact Hc |].
    cbn [substring String.length]. sapp.
    replace (S (String.length s) - S (S j))%nat with (String.length s - S j)%nat by lia.
    rewrite <- Hs. reflexivity.
Qed.

Lemma parse_digits_only_digits (s : string) :
  forall acc v, parse_digits s acc = Some v -> all_digits s = true.
Proof.
  induction s as [| c s IH]; cbn [parse_digits all_digits]; intros acc v H; [reflexivity |].
  destruct (is_digit c); [| discriminate]. exact (IH _ _ H).
Qed.

Lemma all_digits_numeral (s : string) : all_digits s = true -> all_numeral s = true.
Proof.
  induction s as [| c s IH]; cbn [all_digits all_numeral]; intros H; [reflexivity |].
  apply andb_true_iff in H as [Hc Hs]. unfold is_numeral_char. rewrite Hc, (IH Hs). reflexivity.
Qed.

Lemma all_numeral_app (a b : string) :
  all_numeral (a ++ b)%string = all_numeral a && all_numeral b.
Proof.
  induction a as [| c a IH]; sapp; cbn [all_numeral]; [reflexivity |].
  rewrite IH, andb_assoc. reflexivity.
Qed.

Lemma parse_int_numeral (s : string) (v : Z) :
  parse_int s = Some v -> all_numeral s = true /\ s <> "".
Proof.
  destruct s as [| c s]; [discriminate |]. intros H. split; [| discriminate].
  assert (Hcases : (c = "+"%char \/ c = "-"%char) /\ (exists w acc, parse_digits s acc = Some w)
                   \/ exists w, parse_digits (String c s) 0 = Some w).
  { unfold parse_int in H.
    destruct c as [[] [] [] [] [] [] [] []];
      try (right; eexists; exact H);
      destruct s as [| c' s']; try discriminate H; left; (split; [auto |]).
    - eexists _, 0. exact H.
    - destruct (parse_digits (String c' s') 0) as [w |] eqn:Hw; [| discriminate H].
      eexists _, 0. exact Hw. }
  destruct Hcases as [[Hsign (w & acc & Hw)] | [w Hw]].
  - cbn [all_numeral]. rewrite (all_digits_numeral s (parse_digits_only_digits s acc w Hw)).
    unfold is_numeral_char. destruct Hsign as [-> | ->]; reflexivity.
  - apply all_digits_numeral. exact (parse_digits_only_digits _ _ _ Hw).
Qed.

(** The mantissa of a literal: what [NewFromString] does after the
    exponent is cut off. *)
Lemma mantissa_numeral (v : string) (intString : string) (exp1 exp0 : Z) (w : Z) :
  match index_any v is_dot with
  | None => (v, exp0)
  | Some pIndex =>
      ((substring 0 pIndex v
        ++ substring (S pIndex) (String.length v - S pIndex) v)%string,
       exp0 - Z.of_nat (String.length
                          (substring (S pIndex) (String.length v - S pIndex) v)))
  end = (intString, exp1) ->
  parse_int intString = Some w ->
  all_numeral v = true /\ v <> "".
Proof.
  intros Hm Hp. destruct (parse_int_numeral intString w Hp) as [Hnum Hne].
  destruct (index_any v is_dot) as [pIndex |] eqn:Hdot.
  - destruct (index_any_split is_dot v pIndex Hdot) as (c & Hc & Hv).
    inversion Hm; subst intString. rewrite all_numeral_app in Hnum.
    apply andb_true_iff in Hnum as [Hpre Hfrac]. split.
    + rewrite Hv, all_numeral_app. cbn [all_numeral]. rewrite Hpre, Hfrac.
      unfold is_numeral_char. rewrite Hc, !orb_true_r. reflexivity.
    + rewrite Hv. destruct (substring 0 pIndex v); discriminate.
  - inversion Hm; subst. split; assumption.
Qed.

(** X9: [ParseTokenAmount] gives an error wrapped as "invalid amount
    format" or an amount, never both and never neither; an amount it
    accepts has the decimals asked for and an exponent within [int32],
    and the text it was read from is not empty and holds only digits,
    signs, points and exponent marks. *)
Theorem ParseTokenAmount_result (amountStr : string) (decimals : Z) :
  (exists e,
      ParseTokenAmount amountStr decimals
      = (None, Some (Errorf "invalid amount format: %w" [OpErr e])))
  \/ (exists ta,
         ParseTokenAmount amountStr decimals = (Some ta, None)
         /\ Decimals ta = decimals
         /\ in_int32 (exp (Amount ta)) = true
         /\ all_numeral amountStr = true
         /\ amountStr <> "").
Proof.
  unfold ParseTokenAmount, NewFromString.
  assert (Hman : forall v exp0,
    (all_numeral v = true /\ v <> "" -> all_numeral amountStr = true /\ amountStr <> "") ->
    let r :=
      if (1 <? count_char v ".")%nat
      then (mkDecimal 0 0,
            Some (Errorf "can't convert %s to decimal: too many .s" [OpStr v]))
      else
        let '(intString, exp1) :=
          match index_any v is_dot with
          | None => (v, exp0)
          | Some pIndex =>
              let frac := substring (S pIndex) (String.length v - S pIndex) v in
              ((substring 0 pIndex v ++ frac)%string,
               exp0 - Z.of_nat (String.length frac))
          end in
        match parse_int intString with
        | None => (mkDecimal 0 0, Some (Errorf "can't convert %s to decimal" [OpStr v]))
        | Some dValue =>
            if in_int32 exp1 then (mkDecimal dValue exp1, None)
            else (mkDecimal 0 0,
                  Some (Errorf "can't convert %s to decimal: fractional part too long"
                          [OpStr amountStr]))
        end in
    (exists e, (let '(amount, err) := r in
                match err with
                | Some e => (None, Some (Errorf "invalid amount format: %w" [OpErr e]))
                | None => (Some (mkTokenAmount amount decimals), None)
                end) = (None, Some (Errorf "invalid amount format: %w" [OpErr e])))
    \/ (exists ta, (let '(amount, err) := r in
                    match err with
                    | Some e => (None, Some (Errorf "invalid amount format: %w" [OpErr e]))
                    | None => (Some (mkTokenAmount amount decimals), None)
                    end) = (Some ta, None)
                   /\ Decimals ta = decimals
                   /\ in_int32 (exp (Amount ta)) = true
                   /\ all_numeral amountStr = true
                   /\ amountStr <> "")).
  { intros v exp0 Hback. cbv zeta.
    destruct (1 <? count_char v ".")%nat; [left; eexists; reflexivity |].
    destruct (match index_any v is_dot with
              | None => (v, exp0)
              | Some pIndex => _
              end) as [intString exp1] eqn:Hm.
    destruct (parse_int intString) as [dValue |] eqn:Hp; [| left; eexists; reflexivity].
    destruct (in_int32 exp1) eqn:Hi; [| left; eexists; reflexivity].
    right. eexists. split; [reflexivity |]. split; [reflexivity |]. split; [exact Hi |].
    apply Hback. exact (mantissa_numeral v intString exp1 exp0 dValue Hm Hp). }
  destruct (index_any amountStr is_e) as [eIndex |] eqn:He.
  - destruct (parse_int (substring (S eIndex) (String.length amountStr - S eIndex) amountStr))
      as [expInt |] eqn:Hexp; [| left; eexists; reflexivity].
    destruct (in_int32 expInt); [| left; eexists; reflexivity].
    apply Hman. intros [Hv _].
    destruct (index_any_split is_e amountStr eIndex He) as (c & Hc & Hs).
    destruct (parse_int_numeral _ _ Hexp) as [Htail _]. split.
    + rewrite Hs, all_numeral_app. cbn [all_numeral]. rewrite Hv, Htail.
      unfold is_numeral_char. rewrite Hc, !orb_true_r. reflexivity.
    + rewrite Hs. destruct (substring 0 eIndex amountStr); discriminate.
  - apply Hman. tauto.
Qed.

(** What is refused: the empty text, a lone sign, two points, a letter, a
    separator of thousands. *)
Example ParseTokenAmount_refusals :
  forallb (fun s => match ParseTokenAmount s 2 with
                    | (None, Some _) => true
                    | _ => false
                    end)
          [""; "-"; "+"; "."; "1.2.3"; "12a"; "1,000"; "0x10"; "1e"; " 1"] = true.
Proof. vm_compute. reflexivity. Qed.

(** ** Construction, again *)

Section Pools.

Variable env : Env.

Lemma dial_endpoints_dialled (c : Client) (networkConfig : NetworkConfig)
    (endpoints : list string) :
  forall ethClients contractInstance w ethClients' contractInstance' w',
    dialled env networkConfig ethClients contractInstance ->
    dial_endpoints env c networkConfig endpoints ethClients contractInstance w
    = (Ret (ethClients', contractInstance', None), w') ->
    dialled env networkConfig ethClients' contractInstance'.
Proof.
  induction endpoints as [| ep rest IH];
    intros ethClients contractInstance w ethClients' contractInstance' w' Hd Hrun.
  - cbn in Hrun. inversion Hrun; subst. exact Hd.
  - cbn [dial_endpoints] in Hrun. revert Hrun. run.
    destruct (DialContext env (trace w) (mkContext (Some (now w + timeout c))) ep)
      as [ethClient | e]; [| apply IH; exact Hd].
    destruct Hd as [[-> ->] | (cl & tl & ci & -> & -> & Hci)].
    + destruct (NewIDRX env (ContractAddress networkConfig) ethClient) as [ci | e] eqn:Hci;
        [| intros H; inversion H].
      apply IH. right. exists ethClient, [], ci. repeat split. exact Hci.
    + apply IH. right. exists cl, (tl ++ [ethClient]), ci. repeat split. exact Hci.
Qed.

Lemma initializeNetworks_bound (all : list (string * NetworkConfig))
    (nets : list (string * NetworkConfig)) :
  incl nets all ->
  forall c w c' w',
    initializeNetworks env nets c w = (Ret (c', None), w') ->
    pool_bound env all c ->
    pool_bound env all c'
    /\ (forall chainID, is_Some (clients c !! chainID) -> is_Some (clients c' !! chainID))
    /\ (forall n cfg, In (n, cfg) nets -> ContractAddress cfg <> 0 ->
                      is_Some (clients c' !! ChainID cfg))
    /\ address c' = address c.
Proof.
  induction nets as [| [n networkConfig] rest IH]; intros Hincl c w c' w' Hrun Hb.
  - cbn in Hrun. inversion Hrun; subst. repeat split; try assumption; [auto |].
    intros n cfg [].
  - assert (Hrest : incl rest all) by (intros x Hx; apply Hincl; right; exact Hx).
    cbn [initializeNetworks] in Hrun.
    destruct (Z.eqb_spec (ContractAddress networkConfig) 0) as [Hz | Hnz].
    + destruct (IH Hrest c w c' w' Hrun Hb) as (Hb' & Hkeep & Hall & Haddr).
      repeat split; try assumption.
      intros n' cfg' [Heq | Hin] Hne; [inversion Heq; subst; contradiction |].
      apply (Hall n' cfg' Hin Hne).
    + destruct (dial_endpoints env c networkConfig (RPCEndpoints networkConfig) [] None w)
        as [[[[ethClients contractInstance] err] | msg |] w1] eqn:Hdial;
        [rewrite (bind_ret _ _ _ _ _ Hdial) in Hrun
        | rewrite (bind_panic _ _ _ _ _ Hdial) in Hrun; discriminate
        | rewrite (bind_out_of_fuel _ _ _ _ Hdial) in Hrun; discriminate].
      destruct err as [e |]; [inversion Hrun |].
      destruct (length ethClients =? 0)%nat eqn:Hlen; [inversion Hrun |].
      pose proof (dial_endpoints_dialled c networkConfig _ _ _ _ _ _ _
                    (or_introl (conj eq_refl eq_refl)) Hdial) as Hd.
      destruct Hd as [[-> _] | (cl & tl & ci & -> & -> & Hci)]; [discriminate Hlen |].
      match type of Hrun with initializeNetworks env rest ?c1 w1 = _ =>
        destruct (IH Hrest c1 w1 c' w' Hrun) as (Hb' & Hkeep & Hall & Haddr) end.
      { intros chainID. cbn [clients contracts].
        destruct (Z.eq_dec (ChainID networkConfig) chainID) as [<- | Hne].
        - rewrite !lookup_insert_eq. exists cl, tl, ci, n, networkConfig.
          repeat split; try assumption. apply Hincl. left. reflexivity.
        - rewrite !lookup_insert_ne by exact Hne. apply Hb. }
      cbn [clients address] in *. repeat split; try assumption.
      * intros chainID Hs. apply Hkeep.
        destruct (Z.eq_dec (ChainID networkConfig) chainID) as [<- | Hne].
        -- rewrite lookup_insert_eq. eauto.
        -- rewrite lookup_insert_ne by exact Hne. exact Hs.
      * intros n' cfg' [Heq | Hin] Hne'.
        -- inversion Heq; subst. apply Hkeep. rewrite lookup_insert_eq. eauto.
        -- apply (Hall n' cfg' Hin Hne').
Qed.

(** [NewClient] succeeds through a parsed key and a full pass of
    [initializeNetworks] from the fresh client. *)
Lemma NewClient_inv (nets : list (string * NetworkConfig)) (config : ClientConfig)
    (w w' : World) (c : Client) :
  NewClient env nets config w = (Ret (Some c, None), w') ->
  exists key,
    HexToECDSA env (PrivateKeyHex config) = Ok key
    /\ initializeNetworks env nets (fresh_client env key config) w = (Ret (c, None), w').
Proof.
  unfold NewClient. intros Hrun.
  destruct (HexToECDSA env (PrivateKeyHex config)) as [key | e] eqn:Hkey; [| inversion Hrun].
  exists key. split; [reflexivity |]. cbv zeta in Hrun. cbn [timeout] in Hrun.
  match type of Hrun with (initializeNetworks env nets ?x ≫= _) w = _ =>
    replace x with (fresh_client env key config) in Hrun
      by (unfold fresh_client; destruct (Timeout config =? 0); reflexivity) end.
  destruct (initializeNetworks_dials env nets (fresh_client env key config) w)
    as (c1 & err & evs & Hinit & _ & _).
  rewrite (bind_ret _ _ _ _ _ Hinit) in Hrun.
  destruct err as [e |]; inversion Hrun; subst. exact Hinit.
Qed.

Lemma fresh_client_bound (nets : list (string * NetworkConfig)) (key : PrivateKey)
    (config : ClientConfig) :
  pool_bound env nets (fresh_client env key config).
Proof.
  intros chainID. unfold fresh_client. cbn [clients contracts].
  rewrite !lookup_empty. exact I.
Qed.

Lemma NewClient_built (nets : list (string * NetworkConfig)) (config : ClientConfig)
    (w w' : World) (c : Client) :
  NewClient env nets config w = (Ret (Some c, None), w') ->
  pool_bound env nets c
  /\ (forall n cfg, In (n, cfg) nets -> ContractAddress cfg <> 0 ->
                    is_Some (clients c !! ChainID cfg)
                    /\ is_Some (contracts c !! ChainID cfg)).
Proof.
  intros Hrun. destruct (NewClient_inv nets config w w' c Hrun) as (key & _ & Hinit).
  destruct (initializeNetworks_bound nets nets (incl_refl nets) _ w c _ Hinit
              (fresh_client_bound nets key config)) as (Hb & _ & Hall & _).
  split; [exact Hb |].
  intros n cfg Hin Hne. pose proof (Hall n cfg Hin Hne) as Hs. split; [exact Hs |].
  specialize (Hb (ChainID cfg)). destruct Hs as [held Hheld]. rewrite Hheld in Hb.
  destruct (contracts c !! ChainID cfg); [eauto | destruct Hb].
Qed.

(** X10: the client [NewClient] returns has, for every chain, either no
    entry in both maps or a non-empty list of connections together with
    the contract bound over the first of them; every network of the
    enumeration that has a contract address has an entry; and the address
    is the one derived from the key. *)
Theorem NewClient_pool (nets : list (string * NetworkConfig)) (config : ClientConfig)
    (w w' : World) (c : Client) :
  NewClient env nets config w = (Ret (Some c, None), w') ->
  pool_bound env nets c
  /\ (forall n cfg, In (n, cfg) nets -> ContractAddress cfg <> 0 ->
                    is_Some (clients c !! ChainID cfg)
                    /\ is_Some (contracts c !! ChainID cfg))
  /\ exists key, HexToECDSA env (PrivateKeyHex config) = Ok key
                 /\ GetAddress c = PubkeyToAddress env key.
Proof.
  intros Hrun. destruct (NewClient_built nets config w w' c Hrun) as [Hb Hall].
  split; [exact Hb |]. split; [exact Hall |].
  destruct (NewClient_inv nets config w w' c Hrun) as (key & Hkey & Hinit).
  exists key. split; [exact Hkey |].
  destruct (initializeNetworks_bound nets nets (incl_refl nets) _ w c _ Hinit
              (fresh_client_bound nets key config)) as (_ & _ & _ & Haddr).
  unfold GetAddress. rewrite Haddr. reflexivity.
Qed.

Lemma SupportedNetworks_deployed (n : string) (cfg : NetworkConfig) :
  In (n, cfg) SupportedNetworks -> ContractAddress cfg <> 0.
Proof.
  intros Hin.
  assert (H : forallb (fun entry => negb (ContractAddress (snd entry) =? 0))
                SupportedNetworks = true) by (vm_compute; reflexivity).
  rewrite forallb_forall in H. specialize (H _ Hin). cbn [snd] in H.
  destruct (Z.eqb_spec (ContractAddress cfg) 0); [discriminate | assumption].
Qed.

(** A client built over the whole registry holds connections and a
    contract for every registered network. *)
Lemma built_registered (nets : list (string * NetworkConfig)) (config : ClientConfig)
    (w w' : World) (c : Client) (n : string) (cfg : NetworkConfig) :
  NewClient env nets config w = (Ret (Some c, None), w') ->
  Permutation SupportedNetworks nets ->
  In (n, cfg) SupportedNetworks ->
  exists cl rest ci,
    clients c !! ChainID cfg = Some (cl :: rest)
    /\ contracts c !! ChainID cfg = Some (Some ci).
Proof.
  intros Hrun Hperm Hin.
  destruct (NewClient_built nets config w w' c Hrun) as [Hb Hall].
  destruct (Hall n cfg (Permutation_in _ Hperm Hin) (SupportedNetworks_deployed n cfg Hin))
    as [[held Hheld] [contract Hcontract]].
  specialize (Hb (ChainID cfg)). rewrite Hheld, Hcontract in Hb.
  destruct Hb as (cl & rest & ci & _ & _ & -> & -> & _). eauto.
Qed.

(** A client built over the registry holds connections for registered
    chains only. *)
Lemma built_only_registered (nets : list (string * NetworkConfig)) (config : ClientConfig)
    (w w' : World) (c : Client) (chainID : Z) (held : list EthClient) :
  NewClient env nets config w = (Ret (Some c, None), w') ->
  Permutation SupportedNetworks nets ->
  clients c !! chainID = Some held ->
  exists cfg n, GetNetworkConfigByChainID chainID = (Some cfg, n, true).
Proof.
  intros Hrun Hperm Hheld.
  destruct (NewClient_built nets config w w' c Hrun) as [Hb _].
  specialize (Hb chainID). rewrite Hheld in Hb.
  destruct (contracts c !! chainID) as [contract |]; [| destruct Hb].
  destruct Hb as (_ & _ & _ & n & cfg & _ & _ & Hin & Hid & _).
  exists cfg, n. subst chainID. unfold GetNetworkConfigByChainID.
  apply find_chain_present; [apply SupportedNetworks_chains_NoDup |].
  apply (Permutation_in _ (Permutation_sym Hperm) Hin).
Qed.

(** X12: on a client built by [NewClient] over the registry, the lookup
    of a contract by network name returns a contract for every registered
    name, and for every other name the not-supported error; the lookup
    of a connection by name is, for a registered name, the lookup by its
    chain ID, which has connections to probe, and for every other name the
    same error, without a probe. *)
Theorem lookups_by_name (nets : list (string * NetworkConfig)) (config : ClientConfig)
    (w w' : World) (c : Client) (networkName : string) (w0 : World) :
  NewClient env nets config w = (Ret (Some c, None), w') ->
  Permutation SupportedNetworks nets ->
  match lookup_name SupportedNetworks networkName with
  | Some cfg =>
      (exists ci, GetContractByNetwork c networkName w0 = (Ret (Some ci, None), w0))
      /\ GetClientByNetwork env c networkName w0 = GetClient env c (ChainID cfg) w0
      /\ (exists cl rest, clients c !! ChainID cfg = Some (cl :: rest))
  | None =>
      GetContractByNetwork c networkName w0
      = (Ret (None, Some (Errorf "network %s not supported" [OpStr networkName])), w0)
      /\ GetClientByNetwork env c networkName w0
         = (Ret (None, Some (Errorf "network %s not supported" [OpStr networkName])), w0)
  end.
Proof.
  intros Hrun Hperm. unfold GetContractByNetwork, GetClientByNetwork, GetNetworkConfig.
  destruct (lookup_name SupportedNetworks networkName) as [cfg |] eqn:Hl;
    [| split; reflexivity].
  apply (lookup_name_In _ SupportedNetworks_names_NoDup) in Hl.
  destruct (built_registered nets config w w' c networkName cfg Hrun Hperm Hl)
    as (cl & rest & ci & Hheld & Hcontract).
  cbn [negb]. split; [| split; [reflexivity | eauto]].
  exists ci. run. unfold GetContract. rewrite Hcontract. reflexivity.
Qed.

End Pools.

Lemma NewClient_pool_witness :
  let s := Sim.bridging (Ok (mkReceipt 0 [])) (Ok (mkTransaction 78)) in
  pool_bound (Sim.sim s) SupportedNetworks (Sim.client s).
Proof.
  cbv zeta.
  set (s := Sim.bridging (Ok (mkReceipt 0 [])) (Ok (mkTransaction 78))).
  refine (proj1 (NewClient_pool (Sim.sim s) SupportedNetworks Sim.config0 Sim.world0
                   (snd (NewClient (Sim.sim s) SupportedNetworks Sim.config0 Sim.world0))
                   (Sim.client s) _)).
  vm_compute. reflexivity.
Defined.

Section FailFast.

Variable env : Env.
Hypothesis unreachable : forall h ctx ep, exists e, DialContext env h ctx ep = Err e.

Lemma dial_endpoints_unreachable (c : Client) (networkConfig : NetworkConfig)
    (endpoints : list string) :
  forall ethClients contractInstance w,
    dial_endpoints env c networkConfig endpoints ethClients contractInstance w
    = (Ret (ethClients, contractInstance, None),
       mkWorld (now w) (trace w ++ map (dial_event c w) endpoints)).
Proof.
  induction endpoints as [| ep rest IH]; intros ethClients contractInstance w.
  - cbn. rewrite app_nil_r, world_eta. reflexivity.
  - cbn [dial_endpoints]. run.
    destruct (unreachable (trace w) (mkContext (Some (now w + timeout c))) ep) as [e ->].
    rewrite IH. cbn [now trace map]. rewrite <- app_assoc. reflexivity.
Qed.

Lemma initializeNetworks_skips (skipped rest : list (string * NetworkConfig)) (c : Client)
    (w : World) :
  Forall (fun entry => ContractAddress (snd entry) = 0) skipped ->
  initializeNetworks env (skipped ++ rest) c w = initializeNetworks env rest c w.
Proof.
  induction 1 as [| [n cfg] tl Hz _ IH]; [reflexivity |].
  cbn [app initializeNetworks]. cbn [snd] in Hz. rewrite Hz. exact IH.
Qed.

(** X11: when no endpoint can be dialled, [NewClient] dials the endpoints
    of the first network of the enumeration that has a contract address,
    each once and in their order, and fails with the error that names that
    network; no later network is tried and no client is returned. *)
Theorem NewClient_fails_fast (skipped rest : list (string * NetworkConfig))
    (n : string) (networkConfig : NetworkConfig) (config : ClientConfig)
    (key : PrivateKey) (w : World) :
  HexToECDSA env (PrivateKeyHex config) = Ok key ->
  Forall (fun entry => ContractAddress (snd entry) = 0) skipped ->
  ContractAddress networkConfig <> 0 ->
  NewClient env (skipped ++ (n, networkConfig) :: rest) config w
  = (Ret (None,
          Some (Errorf "failed to initialize networks: %w"
                  [OpErr (Errorf "failed to connect to any RPC endpoint for %s"
                            [OpStr (Name networkConfig)])])),
     mkWorld (now w)
       (trace w ++ map (dial_event (fresh_client env key config) w)
                       (RPCEndpoints networkConfig))).
Proof.
  intros Hkey Hskip Hnz. unfold NewClient. rewrite Hkey. cbv zeta. cbn [timeout].
  match goal with |- (initializeNetworks env _ ?x ≫= _) w = _ =>
    replace x with (fresh_client env key config)
      by (unfold fresh_client; destruct (Timeout config =? 0); reflexivity) end.
  assert (Hinit : initializeNetworks env (skipped ++ (n, networkConfig) :: rest)
                    (fresh_client env key config) w
                  = (Ret (fresh_client env key config,
                          Some (Errorf "failed to connect to any RPC endpoint for %s"
                                  [OpStr (Name networkConfig)])),
                     mkWorld (now w)
                       (trace w ++ map (dial_event (fresh_client env key config) w)
                                       (RPCEndpoints networkConfig)))).
  { rewrite (initializeNetworks_skips _ _ _ _ Hskip). cbn [initializeNetworks].
    destruct (Z.eqb_spec (ContractAddress networkConfig) 0); [contradiction |].
    rewrite (bind_ret _ _ _ _ _ (dial_endpoints_unreachable _ _ _ [] None w)).
    reflexivity. }
  rewrite (bind_ret _ _ _ _ _ Hinit). reflexivity.
Qed.

End FailFast.

Lemma NewClient_fails_fast_witness :
  let s := Sim.mkScenario (fun _ => false) Sim.honest
             (Err (Errorf "not found" [])) (Err (Errorf "unused" []))
             (Err (Errorf "unused" [])) in
  exists w',
    NewClient (Sim.sim s) SupportedNetworks Sim.config0 Sim.world0
    = (Ret (None,
            Some (Errorf "failed to initialize networks: %w"
                    [OpErr (Errorf "failed to connect to any RPC endpoint for %s"
                              [OpStr "Base"])])), w')
    /\ map snd (trace w')
       = [EvDial "https://mainnet.base.org" (mkContext (Some (30 * Second)));
          EvDial "https://base.llamarpc.com" (mkContext (Some (30 * Second)))].
Proof.
  cbv zeta.
  set (s := Sim.mkScenario (fun _ => false) Sim.honest
              (Err (Errorf "not found" [])) (Err (Errorf "unused" []))
              (Err (Errorf "unused" []))).
  eexists. split.
  - apply (NewClient_fails_fast (Sim.sim s)
             (fun _ _ _ => ex_intro _ (Errorf "dial failed" []) eq_refl)
             [] (tl SupportedNetworks) BaseMainnet
             (mkNetworkConfig BaseChainID "Base"
                ["https://mainnet.base.org"; "https://base.llamarpc.com"]
                (common.HexToAddress "0x18Bc5bcC660cf2B9cE3cd51a404aFe1a0cBD3C22")
                (2 * Second) 3000000 10000000000 false 2)
             Sim.config0 (mkPrivateKey 1) Sim.world0).
    + reflexivity.
    + constructor.
    + vm_compute. discriminate.
  - reflexivity.
Defined.

Lemma lookups_by_name_witness :
  let s := Sim.bridging (Ok (mkReceipt 0 [])) (Ok (mkTransaction 78)) in
  (exists ci, GetContractByNetwork (Sim.client s) BaseMainnet Sim.world0
              = (Ret (Some ci, None), Sim.world0))
  /\ GetContractByNetwork (Sim.client s) "Base" Sim.world0
     = (Ret (None, Some (Errorf "network %s not supported" [OpStr "Base"])), Sim.world0).
Proof.
  cbv zeta.
  set (s := Sim.bridging (Ok (mkReceipt 0 [])) (Ok (mkTransaction 78))).
  assert (Hrun : NewClient (Sim.sim s) SupportedNetworks Sim.config0 Sim.world0
                 = (Ret (Some (Sim.client s), None),
                    snd (NewClient (Sim.sim s) SupportedNetworks Sim.config0 Sim.world0)))
    by (vm_compute; reflexivity).
  split.
  - exact (proj1 (lookups_by_name (Sim.sim s) SupportedNetworks Sim.config0 Sim.world0 _
                    (Sim.client s) BaseMainnet Sim.world0 Hrun (Permutation_refl _))).
  - exact (proj1 (lookups_by_name (Sim.sim s) SupportedNetworks Sim.config0 Sim.world0 _
                    (Sim.client s) "Base" Sim.world0 Hrun (Permutation_refl _))).
Defined.

(** ** Signers, again *)

Lemma registered_gas_price (chainID : Z) (cfg : NetworkConfig) (n : string) :
  GetNetworkConfigByChainID chainID = (Some cfg, n, true) ->
  0 < MaxGasPrice cfg.
Proof.
  intros H. apply find_chain_found in H as (c & Hc & Hin & _). inversion Hc; subst c.
  assert (Hall : forallb (fun entry => 0 <? MaxGasPrice (snd entry)) SupportedNetworks = true)
    by (vm_compute; reflexivity).
  rewrite forallb_forall in Hall. specialize (Hall _ Hin). cbn [snd] in Hall.
  apply Z.ltb_lt. exact Hall.
Qed.

Section SignerSettings.

Variable env : Env.

(** The signer [CreateTransactor] returns, field by field. *)
Lemma CreateTransactor_opts (c : Client) (ctx : Context) (chainID : Z) (w w' : World)
    (opts : TransactOpts) :
  CreateTransactor env c ctx chainID w = (Ret (Some opts, None), w') ->
  exists reported,
    Uint64 reported = chainID
    /\ opts = match GetNetworkConfigByChainID chainID with
              | (Some cfg, _, true) =>
                  mkTransactOpts (address c) reported (GasLimit cfg)
                    (if 0 <? MaxGasPrice cfg then Some (MaxGasPrice cfg) else None)
              | _ => mkTransactOpts (address c) reported 0 None
              end.
Proof.
  destruct (GetClient_result env c chainID w) as (r & w1 & Hr & _ & Hcase).
  unfold CreateTransactor. rewrite (bind_ret _ _ _ _ _ Hr).
  destruct Hcase as [[cl ->] | [e ->]]; [| intros H; inversion H].
  cbv zeta. run.
  destruct (rpcChainID env (trace w1) cl ctx) as [reported | e]; [| intros H; inversion H].
  destruct (Z.eqb_spec (Uint64 reported) chainID) as [Heq | Hne]; cbn [negb];
    [| intros H; inversion H].
  destruct (GetNetworkConfigByChainID chainID) as [[cfg n] found] eqn:Hcfg.
  destruct found.
  - apply find_chain_found in Hcfg as (cf & -> & _ & _).
    intros Hres. inversion Hres. exists reported. split; [exact Heq | reflexivity].
  - apply find_chain_not_found in Hcfg as ->.
    intros Hres. inversion Hres. exists reported. split; [exact Heq | reflexivity].
Qed.

(** X13: the signer [CreateTransactor] returns signs from the client's
    address, for a chain ID whose low 64 bits are the requested chain;
    for a registered chain its gas limit is the registered one and its gas
    price is set, to the registered maximum; for any other chain both are
    left as the library gives them, zero and nil. *)
Theorem CreateTransactor_gas_settings (c : Client) (ctx : Context) (chainID : Z)
    (w w' : World) (opts : TransactOpts) :
  CreateTransactor env c ctx chainID w = (Ret (Some opts, None), w') ->
  From opts = GetAddress c
  /\ Uint64 (SignerChainID opts) = chainID
  /\ match GetNetworkConfigByChainID chainID with
     | (Some cfg, _, true) =>
         OptsGasLimit opts = GasLimit cfg /\ OptsGasPrice opts = Some (MaxGasPrice cfg)
     | _ => OptsGasLimit opts = 0 /\ OptsGasPrice opts = None
     end.
Proof.
  intros H. destruct (CreateTransactor_opts c ctx chainID w w' opts H) as (reported & Hu & ->).
  destruct (GetNetworkConfigByChainID chainID) as [[[cfg |] n] [|]] eqn:Hcfg;
    cbn [From SignerChainID OptsGasLimit OptsGasPrice];
    repeat split; try assumption.
  apply registered_gas_price in Hcfg. apply Z.ltb_lt in Hcfg. rewrite Hcfg. reflexivity.
Qed.

(** [CreateTransactor] always returns, a signer or an error. *)
Lemma CreateTransactor_returns (c : Client) (ctx : Context) (chainID : Z) (w : World) :
  exists r w',
    CreateTransactor env c ctx chainID w = (Ret r, w') /\ one_of r.
Proof.
  destruct (CreateTransactor_cases env c ctx chainID w) as (r & w1 & Hr & Hnow & Hc).
  destruct r as [[cl |] [e |]]; [| | | destruct Hc].
  - eexists _, _. split; [exact Hc | right; eauto].
  - cbv zeta in Hc. destruct (rpcChainID env (trace w1) cl ctx) as [reported | e].
    + destruct (Uint64 reported =? chainID).
      * destruct Hc as (opts & Ho & _). eexists _, _. split; [exact Ho | left; eauto].
      * eexists _, _. split; [exact Hc | right; eauto].
    + eexists _, _. split; [exact Hc | right; eauto].
  - eexists _, _. split; [exact Hc | right; eauto].
Qed.

(** X14: [CreateTransactor] always returns, a signer or an error and
    never both or neither, and no time passes; it returns a signer
    exactly when [GetClient] finds a connection and that connection
    reports a chain ID whose low 64 bits are the requested chain. *)
Theorem CreateTransactor_outcome (c : Client) (ctx : Context) (chainID : Z) (w : World) :
  exists r w',
    CreateTransactor env c ctx chainID w = (Ret r, w')
    /\ one_of r
    /\ now w' = now w
    /\ ((exists opts, r = (Some opts, None))
        <-> exists cl w1 reported,
              GetClient env c chainID w = (Ret (Some cl, None), w1)
              /\ rpcChainID env (trace w1) cl ctx = Ok reported
              /\ Uint64 reported = chainID).
Proof.
  destruct (CreateTransactor_cases env c ctx chainID w) as (r & w1 & Hr & Hnow & Hc).
  destruct r as [[cl |] [e |]]; [| | | destruct Hc].
  - exists (None, Some e), w1. split; [exact Hc |]. split; [right; eauto |].
    split; [exact Hnow |]. split.
    + intros [opts H]. discriminate.
    + intros (cl' & w1' & reported & Hg & _). rewrite Hr in Hg. discriminate.
  - cbv zeta in Hc.
    destruct (rpcChainID env (trace w1) cl ctx) as [reported | e] eqn:Hrep.
    + destruct (Z.eqb_spec (Uint64 reported) chainID) as [Heq | Hne].
      * destruct Hc as (opts & Ho & _). eexists _, _. split; [exact Ho |].
        split; [left; eauto |]. split; [exact Hnow |]. split; [| eauto].
        intros _. exists cl, w1, reported. repeat split; assumption.
      * eexists _, _. split; [exact Hc |]. split; [right; eauto |].
        split; [exact Hnow |]. split; [intros [opts H]; discriminate |].
        intros (cl' & w1' & reported' & Hg & Hrep' & Hu).
        rewrite Hr in Hg. inversion Hg; subst. rewrite Hrep in Hrep'.
        inversion Hrep'; subst. contradiction.
    + eexists _, _. split; [exact Hc |]. split; [right; eauto |].
      split; [exact Hnow |]. split; [intros [opts H]; discriminate |].
      intros (cl' & w1' & reported' & Hg & Hrep' & _).
      rewrite Hr in Hg. inversion Hg; subst. rewrite Hrep in Hrep'. discriminate.
  - exists (None, Some e), w1. split; [exact Hc |]. split; [right; eauto |].
    split; [exact Hnow |]. split.
    + intros [opts H]. discriminate.
    + intros (cl' & w1' & reported & Hg & _). rewrite Hr in Hg. discriminate.
Qed.

End SignerSettings.

Lemma CreateTransactor_gas_settings_witness :
  let s := Sim.bridging (Ok (mkReceipt 0 [])) (Ok (mkTransaction 78)) in
  let opts := mkTransactOpts (address (Sim.client s)) BaseChainID 3000000
                             (Some 10000000000) in
  From opts = GetAddress (Sim.client s)
  /\ Uint64 (SignerChainID opts) = BaseChainID
  /\ OptsGasLimit opts = 3000000 /\ OptsGasPrice opts = Some 10000000000.
Proof.
  cbv zeta.
  set (s := Sim.bridging (Ok (mkReceipt 0 [])) (Ok (mkTransaction 78))).
  refine (CreateTransactor_gas_settings (Sim.sim s) (Sim.client s) Background
            BaseChainID Sim.world0
            (snd (CreateTransactor (Sim.sim s) (Sim.client s) Background BaseChainID
                    Sim.world0)) _ _).
  vm_compute. reflexivity.
Defined.

(** ** The waiter, again *)

Section WaiterResults.

Variable env : Env.

(** One round of the loop, whatever the lookup answers. *)
Lemma wait_loop_round (fuel : nat) (cl : EthClient) (timeoutCtx : Context)
    (period next : Z) (txHash : common.Hash) (w : World) (D : Z) :
  done_at timeoutCtx = Some D ->
  now w <= next ->
  wait_loop env (S fuel) (Some cl) timeoutCtx period next txHash w
  = if (next <? D) || ((next =? D) && select_tick env (trace w))
    then
      let w1 := mkWorld next
                  (trace w ++ [(next, EvTransactionReceipt cl timeoutCtx txHash)]) in
      match rpcTransactionReceipt env (trace w) cl timeoutCtx txHash with
      | Ok receipt => (Ret (Some receipt, None), w1)
      | Err _ => wait_loop env fuel (Some cl) timeoutCtx period (next + period) txHash w1
      end
    else (Ret (None, Some (timeout_error txHash)), mkWorld (Z.max (now w) D) (trace w)).
Proof.
  intros HD Hnow. cbn [wait_loop]. unfold select_tick_or_done, choose_ready.
  rewrite HD. run.
  destruct (Z.ltb_spec next D) as [Hlt | Hge]; cbn [orb now trace].
  - rewrite Z.max_r by lia.
    destruct (rpcTransactionReceipt env (trace w) cl timeoutCtx txHash); reflexivity.
  - destruct (Z.ltb_spec D next) as [Hlt | Hle]; cbn [now trace].
    + destruct (Z.eqb_spec next D); [lia |]. reflexivity.
    + assert (next = D) as -> by lia. rewrite Z.eqb_refl. cbn [andb].
      destruct (select_tick env (trace w)); cbn [now trace]; [| reflexivity].
      rewrite Z.max_r by lia.
      destruct (rpcTransactionReceipt env (trace w) cl timeoutCtx txHash); reflexivity.
Qed.

(** A receipt that comes out of the loop is the answer to the first poll
    that succeeds, made at a tick that is not after the deadline. *)
Lemma wait_loop_receipt (cl : EthClient) (timeoutCtx : Context) (D period : Z)
    (txHash : common.Hash) (rc : Receipt) (w' : World) :
  done_at timeoutCtx = Some D ->
  0 < period ->
  forall (fuel : nat) (next : Z) (w : World),
    now w <= next ->
    wait_loop env fuel (Some cl) timeoutCtx period next txHash w
    = (Ret (Some rc, None), w') ->
    exists k,
      trace w' = trace w ++ polls cl timeoutCtx txHash next period (S k)
      /\ now w' = next + Z.of_nat k * period
      /\ now w' <= D
      /\ rpcTransactionReceipt env (trace w ++ polls cl timeoutCtx txHash next period k)
           cl timeoutCtx txHash = Ok rc
      /\ forall j, (j < k)%nat ->
           exists e, rpcTransactionReceipt env
                       (trace w ++ polls cl timeoutCtx txHash next period j)
                       cl timeoutCtx txHash = Err e.
Proof.
  intros HD Hper. induction fuel as [| fuel IH]; intros next w Hnow; [discriminate |].
  rewrite (wait_loop_round fuel cl timeoutCtx period next txHash w D HD Hnow).
  destruct ((next <? D) || ((next =? D) && select_tick env (trace w))) eqn:Htick;
    [| discriminate].
  assert (Hle : next <= D).
  { apply orb_true_iff in Htick as [H | H]; [apply Z.ltb_lt in H; lia |].
    apply andb_true_iff in H as [H _]. apply Z.eqb_eq in H. lia. }
  cbv zeta.
  destruct (rpcTransactionReceipt env (trace w) cl timeoutCtx txHash) as [receipt | e]
    eqn:Hrpc; intros Hrun.
  - inversion Hrun; subst. exists O. rewrite polls_S. cbn [trace now].
    unfold polls at 1 2. cbn [seq map]. rewrite app_nil_r.
    split; [reflexivity |]. split; [lia |]. split; [lia |].
    split; [exact Hrpc |]. intros j Hj. lia.
  - apply IH in Hrun; [| cbn [now]; lia].
    destruct Hrun as (k & Htr & Hnw & Hd & Hok & Hfail).
    cbn [trace] in Htr, Hok, Hfail.
    exists (S k). split; [| split; [| split; [| split]]].
    + rewrite Htr, (polls_S cl timeoutCtx txHash next period (S k)), <- app_assoc.
      reflexivity.
    + rewrite Hnw. lia.
    + exact Hd.
    + rewrite polls_S. rewrite <- app_assoc in Hok. exact Hok.
    + intros j Hj. destruct j as [| j].
      * exists e. unfold polls. cbn [seq map]. rewrite app_nil_r. exact Hrpc.
      * destruct (Hfail j ltac:(lia)) as [e' He']. exists e'.
        rewrite polls_S. rewrite <- app_assoc in He'. exact He'.
Qed.

(** With fuel enough for the ticks up to the deadline the loop returns,
    a receipt or an error. *)
Lemma wait_loop_returns (cl : EthClient) (timeoutCtx : Context) (D period : Z)
    (txHash : common.Hash) :
  done_at timeoutCtx = Some D ->
  0 < period ->
  forall (fuel : nat) (next : Z) (w : World),
    now w <= next ->
    D < next + (Z.of_nat fuel - 1) * period ->
    (0 < fuel)%nat ->
    exists r w',
      wait_loop env fuel (Some cl) timeoutCtx period next txHash w = (Ret r, w')
      /\ one_of r.
Proof.
  intros HD Hper. induction fuel as [| fuel IH]; intros next w Hnow Hfuel Hpos; [lia |].
  rewrite (wait_loop_round fuel cl timeoutCtx period next txHash w D HD Hnow).
  destruct ((next <? D) || ((next =? D) && select_tick env (trace w))) eqn:Htick.
  - assert (Hle : next <= D).
    { apply orb_true_iff in Htick as [H | H]; [apply Z.ltb_lt in H; lia |].
      apply andb_true_iff in H as [H _]. apply Z.eqb_eq in H. lia. }
    cbv zeta.
    destruct (rpcTransactionReceipt env (trace w) cl timeoutCtx txHash) as [receipt | e].
    + eexists _, _. split; [reflexivity |]. left. eauto.
    + apply IH; cbn [now]; [lia | lia |]. destruct fuel; [cbn in Hfuel; lia | lia].
  - eexists _, _. split; [reflexivity |]. right. eauto.
Qed.

(** The steps of [WaitForTransaction] before its loop, for a registered
    chain with a live connection. *)
Lemma WaitForTransaction_registered (c : Client) (ctx : Context) (chainID : Z)
    (txHash : common.Hash) (w w1 : World) (cfg : NetworkConfig) (name : string)
    (cl : EthClient) :
  GetNetworkConfigByChainID chainID = (Some cfg, name, true) ->
  GetClient env c chainID w = (Ret (Some cl, None), w1) ->
  let D := wait_deadline ctx (now w1) (BlockTime cfg) in
  let timeoutCtx := mkContext (Some D) in
  let period := BlockTime cfg / 2 in
  0 < period
  /\ WaitForTransaction env c ctx chainID txHash w
     = wait_loop env (wait_fuel timeoutCtx (now w1) period) (Some cl) timeoutCtx
         period (now w1 + period) txHash w1.
Proof.
  intros Hcfg Hcl D timeoutCtx period.
  assert (Hbt : BlockTime cfg = 2 * Second \/ BlockTime cfg = 3 * Second
                \/ BlockTime cfg = 5 * Second)
    by (eapply registered_block_time; exact Hcfg).
  assert (Hwrap : wrap64 (BlockTime cfg * 10) = BlockTime cfg * 10)
    by (destruct Hbt as [-> | [-> | ->]]; reflexivity).
  assert (Hquot : Z.quot (BlockTime cfg) 2 = period)
    by (destruct Hbt as [H | [H | H]]; unfold period; rewrite H; reflexivity).
  assert (Hper : 0 < period)
    by (destruct Hbt as [H | [H | H]]; unfold period; rewrite H; reflexivity).
  split; [exact Hper |].
  assert (Hctx : WithTimeout ctx (Z.max (BlockTime cfg * 10) Minute) w1
                 = (Ret timeoutCtx, w1)).
  { unfold timeoutCtx, D, wait_deadline. run. destruct (done_at ctx); reflexivity. }
  unfold WaitForTransaction. rewrite (bind_ret _ _ _ _ _ Hcl). cbv beta iota zeta.
  rewrite Hcfg. cbv beta iota zeta.
  assert (H1 : (deref (Some cfg)
                 ≫= fun cfg0 : NetworkConfig =>
                      mret (M := M)
                        (if wrap64 (BlockTime cfg0 * 10) <? Minute then Minute
                         else wrap64 (BlockTime cfg0 * 10))) w1
               = (Ret (Z.max (BlockTime cfg * 10) Minute), w1)).
  { run. rewrite Hwrap. do 2 f_equal.
    destruct (Z.ltb_spec (BlockTime cfg * 10) Minute); lia. }
  rewrite (bind_ret _ _ _ _ _ H1), (bind_ret _ _ _ _ _ Hctx).
  assert (H3 : deref (Some cfg) w1 = (Ret cfg, w1)) by reflexivity.
  rewrite (bind_ret _ _ _ _ _ H3), Hquot.
  destruct (Z.leb_spec period 0); [lia |].
  assert (H4 : get_now w1 = (Ret (now w1), w1)) by reflexivity.
  rewrite (bind_ret _ _ _ _ _ H4). reflexivity.
Qed.

(** With a live connection to a chain that is not registered, the wait
    dereferences the nil configuration. *)
Lemma WaitForTransaction_unregistered (c : Client) (ctx : Context) (chainID : Z)
    (txHash : common.Hash) (w w1 : World) (cl : EthClient) :
  IsChainSupported chainID = false ->
  GetClient env c chainID w = (Ret (Some cl, None), w1) ->
  WaitForTransaction env c ctx chainID txHash w = (Panic nil_dereference, w1).
Proof.
  intros Hno Hcl. unfold WaitForTransaction. rewrite (bind_ret _ _ _ _ _ Hcl).
  cbv beta iota zeta. rewrite (unsupported_lookup chainID Hno). run.
  destruct (done_at ctx); reflexivity.
Qed.

(** X15: a receipt [WaitForTransaction] returns is the answer of the
    first receipt lookup that succeeds: the chain is registered, the
    lookups are made on the connection [GetClient] found, one at every
    half block time from the start, each under the context of the wait,
    every lookup before the last failed, and the last was made no later
    than the deadline.  The receipt's status plays no part. *)
Theorem WaitForTransaction_receipt (c : Client) (ctx : Context) (chainID : Z)
    (txHash : common.Hash) (w w' : World) (rc : Receipt) :
  WaitForTransaction env c ctx chainID txHash w = (Ret (Some rc, None), w') ->
  exists cl w1 cfg name k,
    GetClient env c chainID w = (Ret (Some cl, None), w1)
    /\ GetNetworkConfigByChainID chainID = (Some cfg, name, true)
    /\ let D := wait_deadline ctx (now w1) (BlockTime cfg) in
       let timeoutCtx := mkContext (Some D) in
       let period := BlockTime cfg / 2 in
       let first := now w1 + period in
       trace w' = trace w1 ++ polls cl timeoutCtx txHash first period (S k)
       /\ now w' = first + Z.of_nat k * period
       /\ now w' <= D
       /\ rpcTransactionReceipt env (trace w1 ++ polls cl timeoutCtx txHash first period k)
            cl timeoutCtx txHash = Ok rc
       /\ forall j, (j < k)%nat ->
            exists e, rpcTransactionReceipt env
                        (trace w1 ++ polls cl timeoutCtx txHash first period j)
                        cl timeoutCtx txHash = Err e.
Proof.
  intros Hrun.
  destruct (GetClient_result env c chainID w) as (r & w1 & Hr & _ & Hcase).
  destruct Hcase as [[cl ->] | [e ->]];
    [| unfold WaitForTransaction in Hrun; rewrite (bind_ret _ _ _ _ _ Hr) in Hrun;
       discriminate].
  destruct (IsChainSupported chainID) eqn:Hsup;
    [| rewrite (WaitForTransaction_unregistered c ctx chainID txHash w w1 cl Hsup Hr) in Hrun;
       discriminate].
  destruct (GetNetworkConfigByChainID chainID) as [[cfg name] found] eqn:Hcfg.
  assert (found = true) as ->.
  { unfold IsChainSupported in Hsup. rewrite existsb_find_chain in Hsup.
    unfold GetNetworkConfigByChainID in Hcfg. rewrite Hcfg in Hsup. exact Hsup. }
  pose proof Hcfg as Hcfg'. apply find_chain_found in Hcfg' as (cf & -> & _ & _).
  destruct (WaitForTransaction_registered c ctx chainID txHash w w1 cf name cl Hcfg Hr)
    as [Hper Heq].
  rewrite Heq in Hrun.
  exists cl, w1, cf, name.
  apply (wait_loop_receipt cl (mkContext (Some (wait_deadline ctx (now w1) (BlockTime cf))))
           (wait_deadline ctx (now w1) (BlockTime cf)) _ txHash rc w' eq_refl Hper) in Hrun;
    [| lia].
  destruct Hrun as (k & Hk).
  exists k. split; [exact Hr |]. split; [reflexivity |]. exact Hk.
Qed.

(** X16: on a client built by [NewClient] over the registry,
    [WaitForTransaction] always returns, a receipt or an error and never
    both or neither: the nil configuration of an unregistered chain is
    never dereferenced, because the client holds connections for
    registered chains only. *)
Theorem WaitForTransaction_returns (nets : list (string * NetworkConfig))
    (config : ClientConfig) (w0 w0' : World) (c : Client) (ctx : Context) (chainID : Z)
    (txHash : common.Hash) (w : World) :
  NewClient env nets config w0 = (Ret (Some c, None), w0') ->
  Permutation SupportedNetworks nets ->
  exists r w',
    WaitForTransaction env c ctx chainID txHash w = (Ret r, w') /\ one_of r.
Proof.
  intros Hbuilt Hperm.
  destruct (GetClient_result env c chainID w) as (r & w1 & Hr & _ & Hcase).
  destruct Hcase as [[cl ->] | [e ->]].
  - assert (Hheld : exists held, clients c !! chainID = Some held).
    { unfold GetClient in Hr. destruct (clients c !! chainID) as [held |]; [eauto |].
      discriminate. }
    destruct Hheld as [held Hheld].
    destruct (built_only_registered env nets config w0 w0' c chainID held Hbuilt Hperm Hheld)
      as (cfg & name & Hcfg).
    destruct (WaitForTransaction_registered c ctx chainID txHash w w1 cfg name cl Hcfg Hr)
      as [Hper ->].
    eapply wait_loop_returns; [reflexivity | exact Hper | lia | | ].
    + apply wait_fuel_enough. exact Hper.
    + unfold wait_fuel. cbn [done_at]. lia.
  - exists (None, Some e), w1. split; [| right; eauto].
    unfold WaitForTransaction. rewrite (bind_ret _ _ _ _ _ Hr). reflexivity.
Qed.

(** X17: with a live connection to a chain that the registry does not
    know, [WaitForTransaction] panics on the nil network configuration
    right after [GetClient] has found the connection, before any receipt
    lookup. *)
Theorem WaitForTransaction_nil_config (c : Client) (ctx : Context) (chainID : Z)
    (txHash : common.Hash) (w w1 : World) (cl : EthClient) :
  IsChainSupported chainID = false ->
  GetClient env c chainID w = (Ret (Some cl, None), w1) ->
  WaitForTransaction env c ctx chainID txHash w = (Panic nil_dereference, w1).
Proof.
  intros Hno Hcl. unfold WaitForTransaction. rewrite (bind_ret _ _ _ _ _ Hcl).
  cbv beta iota zeta. rewrite (unsupported_lookup chainID Hno). run.
  destruct (done_at ctx); reflexivity.
Qed.

End WaiterResults.

Lemma WaitForTransaction_receipt_witness :
  let s := Sim.bridging (Ok (mkReceipt 0 [])) (Ok (mkTransaction 78)) in
  let w' := snd (WaitForTransaction (Sim.sim s) (Sim.client s) Background BaseChainID 77
                   Sim.world0) in
  exists cl w1 k,
    GetClient (Sim.sim s) (Sim.client s) BaseChainID Sim.world0 = (Ret (Some cl, None), w1)
    /\ now w' = now w1 + Second + Z.of_nat k * Second.
Proof.
  cbv zeta.
  set (s := Sim.bridging (Ok (mkReceipt 0 [])) (Ok (mkTransaction 78))).
  destruct (WaitForTransaction_receipt (Sim.sim s) (Sim.client s) Background BaseChainID 77
              Sim.world0
              (snd (WaitForTransaction (Sim.sim s) (Sim.client s) Background BaseChainID 77
                      Sim.world0))
              (mkReceipt 0 []))
    as (cl & w1 & cfg & name & k & Hcl & Hcfg & _ & Hnow & _).
  - vm_compute. reflexivity.
  - exists cl, w1, k. split; [exact Hcl |].
    inversion Hcfg; subst cfg. exact Hnow.
Defined.

Lemma WaitForTransaction_returns_witness :
  let s := Sim.bridging (Err (Errorf "not found" [])) (Ok (mkTransaction 78)) in
  exists r w',
    WaitForTransaction (Sim.sim s) (Sim.client s) Background GnosisChainID 77 Sim.world0
    = (Ret r, w')
    /\ one_of r.
Proof.
  cbv zeta.
  set (s := Sim.bridging (Err (Errorf "not found" [])) (Ok (mkTransaction 78))).
  apply (WaitForTransaction_returns (Sim.sim s) SupportedNetworks Sim.config0 Sim.world0
           (snd (NewClient (Sim.sim s) SupportedNetworks Sim.config0 Sim.world0))
           (Sim.client s) Background GnosisChainID 77 Sim.world0).
  - vm_compute. reflexivity.
  - apply Permutation_refl.
Defined.

Lemma WaitForTransaction_nil_config_witness :
  let s := Sim.mkScenario (fun _ => true) (fun _ => Ok 1)
             (Ok (mkReceipt 1 [])) (Ok (mkTransaction 77)) (Ok (mkTransaction 78)) in
  let cl := mkEthClient "http://localhost:8545" in
  let c := mkClient {[ 1 := [cl] ]} ∅ (mkPrivateKey 1) 0xabc (30 * Second) in
  WaitForTransaction (Sim.sim s) c Background 1 77 Sim.world0
  = (Panic nil_dereference,
     mkWorld 0 [(0, EvChainID cl (mkContext (Some (5 * Second))))]).
Proof.
  cbv zeta.
  apply WaitForTransaction_nil_config with (cl := mkEthClient "http://localhost:8545").
  - vm_compute. reflexivity.
  - vm_compute. reflexivity.
Defined.

(** ** The bridge, again *)

Lemma burnBridgeTopic_zero : burnBridgeTopic = 0.
Proof. vm_compute. reflexivity. Qed.

Lemma extract_from_logs_found (logs : list Log) :
  extract_from_logs logs = (Some 0, None) <-> Exists zero_topic logs.
Proof.
  unfold zero_topic, first_topic.
  induction logs as [| log rest IH]; cbn [extract_from_logs].
  - split; [discriminate | intros H; inversion H].
  - destruct (Topics log) as [| topic0 topics] eqn:Ht.
    + rewrite IH. split; [intros H; right; exact H |].
      intros H. inversion H as [? ? Hz | ? ? Hr]; subst; [| exact Hr].
      rewrite Ht in Hz. discriminate.
    + rewrite burnBridgeTopic_zero. destruct (Z.eqb_spec topic0 0) as [-> | Hne].
      * split; [| reflexivity]. intros _. left. rewrite Ht. reflexivity.
      * rewrite IH. split; [intros H; right; exact H |].
        intros H. inversion H as [? ? Hz | ? ? Hr]; subst; [| exact Hr].
        rewrite Ht in Hz. inversion Hz. contradiction.
Qed.

Lemma extract_from_logs_not_found (logs : list Log) :
  extract_from_logs logs = (None, Some nonce_not_found)
  <-> Forall (fun log => ~ zero_topic log) logs.
Proof.
  rewrite Forall_Exists_neg, <- extract_from_logs_found. unfold nonce_not_found.
  destruct (extract_from_logs_cases logs) as [H | H]; rewrite H.
  - split; [discriminate | intros Hn; exfalso; apply Hn; reflexivity].
  - split; [intros _; discriminate | reflexivity].
Qed.

(** X18: the extraction answers 0 exactly when some log of the receipt
    has the zero hash as its first topic, and otherwise the not-found
    error; the answer does not depend on the data of the logs, on the
    topics after the first, or on the status of the receipt. *)
Theorem extraction_by_first_topic (receipt : Receipt) :
  (extractBridgeNonceFromReceipt receipt = (Some 0, None)
   <-> Exists zero_topic (Logs receipt))
  /\ (extractBridgeNonceFromReceipt receipt = (None, Some nonce_not_found)
      <-> Forall (fun log => ~ zero_topic log) (Logs receipt))
  /\ (forall other : Receipt,
        map first_topic (Logs other) = map first_topic (Logs receipt) ->
        extractBridgeNonceFromReceipt other = extractBridgeNonceFromReceipt receipt).
Proof.
  unfold extractBridgeNonceFromReceipt.
  split; [apply extract_from_logs_found |]. split; [apply extract_from_logs_not_found |].
  intros other. generalize (Logs other) as logs'. generalize (Logs receipt) as logs.
  induction logs as [| log rest IH]; intros [| log' rest'] Hmap; try discriminate;
    [reflexivity |].
  cbn [map] in Hmap. inversion Hmap as [[Hfirst Hrest]].
  cbn [extract_from_logs]. unfold first_topic in Hfirst.
  destruct (Topics log') as [| t' ts']; destruct (Topics log) as [| t ts];
    try discriminate; [apply IH; exact Hrest |].
  inversion Hfirst; subst. destruct (t =? burnBridgeTopic); [reflexivity |].
  apply IH. exact Hrest.
Qed.

Section BridgeOutcomes.

Variable env : Env.

(** A burn that was sent went through every step of [BurnBridge]. *)
Lemma BurnBridge_sent (c : Client) (ctx : Context) (request : BridgeRequest)
    (w w' : World) (tx : option Transaction) :
  BurnBridge env c ctx request w = (Ret (tx, None), w') ->
  exists ci opts ta wei w1 sent,
    contracts c !! FromChainID request = Some (Some ci)
    /\ CreateTransactor env c ctx (FromChainID request) w = (Ret (Some opts, None), w1)
    /\ RequestAmount request = Some ta
    /\ ToWei ta = Some wei
    /\ txBurnBridge env (trace w1) ci opts wei (ToChainID request) = Ok sent
    /\ tx = Some sent
    /\ w' = mkWorld (now w1)
              (trace w1 ++ [(now w1, EvBurnBridge ci opts wei (ToChainID request))]).
Proof.
  unfold BurnBridge. intros Hrun.
  destruct (contracts c !! FromChainID request) as [contract |] eqn:Hc;
    [rewrite (bind_ret _ _ _ _ _ (GetContract_found c _ _ w Hc)) in Hrun
    | rewrite (bind_ret _ _ _ _ _ (GetContract_missing c _ w Hc)) in Hrun; discriminate].
  cbv beta iota in Hrun.
  destruct (CreateTransactor_returns env c ctx (FromChainID request) w)
    as (r & w1 & Ht & Hone).
  rewrite (bind_ret _ _ _ _ _ Ht) in Hrun.
  destruct Hone as [[opts ->] | [e ->]]; [| discriminate].
  cbv beta iota in Hrun. revert Hrun.
  destruct (RequestAmount request) as [ta |]; [| discriminate]. run.
  destruct (ToWei ta) as [wei |] eqn:Hw; [| discriminate].
  destruct contract as [ci |]; [| discriminate]. cbn [now trace].
  destruct (txBurnBridge env (trace w1) ci opts wei (ToChainID request)) as [sent | e]
    eqn:Hsent; [| discriminate].
  intros Hrun. inversion Hrun; subst.
  exists ci, opts, ta, wei, w1, sent. repeat split; try assumption; reflexivity.
Qed.


(** The burn call of a burn that was sent, and of the wait that follows. *)
Lemma burn_then_wait_calls (c : Client) (ctx : Context) (request : BridgeRequest)
    (w w1 w2 : World) (tx : Transaction)
    (r : outcome (option Receipt * option error)) :
  BurnBridge env c ctx request w = (Ret (Some tx, None), w1) ->
  WaitForTransaction env c ctx (FromChainID request) (Hash tx) w1 = (r, w2) ->
  exists ci opts ta wei,
    contracts c !! FromChainID request = Some (Some ci)
    /\ RequestAmount request = Some ta
    /\ ToWei ta = Some wei
    /\ burn_calls (trace w2)
       = burn_calls (trace w) ++ [EvBurnBridge ci opts wei (ToChainID request)]
    /\ mint_calls (trace w2) = mint_calls (trace w).
Proof.
  intros Hb Hw.
  pose proof (mint_calls_quiet _ _ _ _ (BurnBridge_no_mint env c ctx request) Hb) as Hm1.
  pose proof (mint_calls_quiet _ _ _ _
                (WaitForTransaction_quiet env is_mint is_mint_probe is_mint_receipt
                   c ctx (FromChainID request) (Hash tx)) Hw) as Hm2.
  pose proof (burn_calls_quiet _ _ _ _
                (WaitForTransaction_quiet env is_burn is_burn_probe is_burn_receipt
                   c ctx (FromChainID request) (Hash tx)) Hw) as Hb2.
  destruct (BurnBridge_sent c ctx request w w1 (Some tx) Hb)
    as (ci & opts & ta & wei & w0 & sent & Hc & Ht & Ha & Hwei & _ & _ & ->).
  pose proof (burn_calls_quiet _ _ _ _
                (CreateTransactor_quiet env is_burn is_burn_probe c ctx
                   (FromChainID request)) Ht) as Hb0.
  exists ci, opts, ta, wei. repeat split; try assumption.
  - rewrite Hb2. cbn [trace]. rewrite burn_calls_snoc, Hb0. reflexivity.
  - rewrite Hm2, Hm1. reflexivity.
Qed.

(** X19: when the burn was sent and confirmed with the successful status
    but no log of the receipt has the zero hash as its first topic, the
    bridge operation ends with the extraction error: the burn call has
    been made and no mint call is. *)
Theorem CompleteBridge_stops_at_extraction (c : Client) (ctx : Context)
    (request : BridgeRequest) (w w1 w2 : World) (tx : Transaction) (rc : Receipt) :
  BurnBridge env c ctx request w = (Ret (Some tx, None), w1) ->
  WaitForTransaction env c ctx (FromChainID request) (Hash tx) w1
  = (Ret (Some rc, None), w2) ->
  Status rc = ReceiptStatusSuccessful ->
  Forall (fun log => ~ zero_topic log) (Logs rc) ->
  CompleteBridge env c ctx request w
  = (Ret (Some (Errorf "failed to extract bridge nonce: %w" [OpErr nonce_not_found])), w2)
  /\ mint_calls (trace w2) = mint_calls (trace w)
  /\ exists ci opts wei,
      burn_calls (trace w2)
      = burn_calls (trace w) ++ [EvBurnBridge ci opts wei (ToChainID request)].
Proof.
  intros Hb Hw Hs Hlogs.
  destruct (burn_then_wait_calls c ctx request w w1 w2 tx _ Hb Hw)
    as (ci & opts & ta & wei & _ & _ & _ & Hburn & Hmint).
  split; [| split; [exact Hmint | eauto]].
  rewrite (CompleteBridge_after_wait env c ctx request w w1 w2 tx (Some rc) None Hb Hw).
  rewrite Hs, Z.eqb_refl. cbn [negb].
  apply extract_from_logs_not_found in Hlogs.
  unfold extractBridgeNonceFromReceipt. rewrite Hlogs. reflexivity.
Qed.


End BridgeOutcomes.

Lemma CompleteBridge_stops_at_extraction_witness :
  let rc := mkReceipt ReceiptStatusSuccessful [mkLog [0xddf252ad; 0xabc] [50000]] in
  let s := Sim.bridging (Ok rc) (Ok (mkTransaction 78)) in
  exists w2,
    CompleteBridge (Sim.sim s) (Sim.client s) Background Sim.request_500 Sim.world0
    = (Ret (Some (Errorf "failed to extract bridge nonce: %w" [OpErr nonce_not_found])), w2)
    /\ mint_calls (trace w2) = mint_calls (trace Sim.world0).
Proof.
  cbv zeta.
  set (rc := mkReceipt ReceiptStatusSuccessful [mkLog [0xddf252ad; 0xabc] [50000]]).
  set (s := Sim.bridging (Ok rc) (Ok (mkTransaction 78))).
  set (w1 := snd (BurnBridge (Sim.sim s) (Sim.client s) Background Sim.request_500
                    Sim.world0)).
  set (w2 := snd (WaitForTransaction (Sim.sim s) (Sim.client s) Background BaseChainID 77 w1)).
  exists w2.
  destruct (CompleteBridge_stops_at_extraction (Sim.sim s) (Sim.client s) Background
              Sim.request_500 Sim.world0 w1 w2 (mkTransaction 77) rc)
    as (Hrun & Hmint & _).
  - vm_compute. reflexivity.
  - vm_compute. reflexivity.
  - reflexivity.
  - repeat constructor. unfold zero_topic. cbn. discriminate.
  - split; [exact Hrun | exact Hmint].
Defined.


(** ** The service: [InitiateBridge] *)

Lemma ParseTokenAmount_one_of (amountStr : string) (decimals : Z) :
  one_of (ParseTokenAmount amountStr decimals).
Proof.
  unfold ParseTokenAmount. destruct (NewFromString amountStr) as [amount [e |]];
    [right | left]; eauto.
Qed.

Section Service.

Variable env : Env.

(** What [InitiateBridge] refuses, and that it does so before any call. *)
Lemma InitiateBridge_refuses (bs : idrx.BlockchainService) (ctx : Context)
    (request : idrx.BridgeTransactionRequest) (w : World) :
  (IsChainSupported (idrx.FromChainID request) = false ->
   idrx.InitiateBridge env bs ctx request w
   = (Ret (None, Some (Errorf "source chain %d not supported"
                         [OpInt (idrx.FromChainID request)])), w))
  /\ (IsChainSupported (idrx.FromChainID request) = true ->
      IsChainSupported (idrx.ToChainID request) = false ->
      idrx.InitiateBridge env bs ctx request w
      = (Ret (None, Some (Errorf "destination chain %d not supported"
                            [OpInt (idrx.ToChainID request)])), w))
  /\ (forall e,
        IsChainSupported (idrx.FromChainID request) = true ->
        IsChainSupported (idrx.ToChainID request) = true ->
        ParseTokenAmount (idrx.Amount request) 18 = (None, Some e) ->
        idrx.InitiateBridge env bs ctx request w
        = (Ret (None, Some (Errorf "invalid amount: %w" [OpErr e])), w)).
Proof.
  unfold idrx.InitiateBridge.
  split; [intros ->; reflexivity |].
  split; [intros -> ->; reflexivity |].
  intros e -> -> ->. reflexivity.
Qed.

(** [InitiateBridge] once its three checks have passed: the burn of the
    request it builds. *)
Lemma InitiateBridge_passes (bs : idrx.BlockchainService) (c : Client) (ctx : Context)
    (request : idrx.BridgeTransactionRequest) (ta : TokenAmount) (w : World) :
  idrx.client bs = Some c ->
  IsChainSupported (idrx.FromChainID request) = true ->
  IsChainSupported (idrx.ToChainID request) = true ->
  ParseTokenAmount (idrx.Amount request) 18 = (Some ta, None) ->
  snd (idrx.InitiateBridge env bs ctx request w)
  = snd (BurnBridge env c ctx
           (mkBridgeRequest (Some ta) (idrx.ToChainID request)
              (common.HexToAddress (idrx.ToAddress request))
              (idrx.FromChainID request)) w).
Proof.
  intros Hbs Hfrom Hto Hparse. unfold idrx.InitiateBridge.
  rewrite Hfrom, Hto, Hparse, Hbs. cbn [negb]. run.
  destruct (BurnBridge env c ctx _ w) as [[[tx [e |]] | msg |] w1]; cbn [snd];
    try reflexivity.
  destruct tx; reflexivity.
Qed.

(** The burn does not read the destination address of its request. *)
Lemma BurnBridge_ignores_address (c : Client) (ctx : Context) (amount : option TokenAmount)
    (toChainID fromChainID : Z) (to to' : common.Address) :
  BurnBridge env c ctx (mkBridgeRequest amount toChainID to fromChainID)
  = BurnBridge env c ctx (mkBridgeRequest amount toChainID to' fromChainID).
Proof. reflexivity. Qed.

(** X22: the destination address of a bridge request never reaches the
    chain: with any other address text [InitiateBridge] makes the same
    calls and ends the same way, the result differing only in the
    address it repeats. *)
Theorem InitiateBridge_ignores_address (bs : idrx.BlockchainService) (ctx : Context)
    (request : idrx.BridgeTransactionRequest) (toAddress : string) (w : World) :
  let request' :=
    idrx.mkBridgeTransactionRequest (idrx.FromChainID request) (idrx.ToChainID request)
      toAddress (idrx.Amount request) in
  let r := idrx.InitiateBridge env bs ctx request w in
  let r' := idrx.InitiateBridge env bs ctx request' w in
  snd r' = snd r
  /\ match fst r, fst r' with
     | Ret (Some res, None), Ret (Some res', None) =>
         res' = idrx.mkBridgeResult (idrx.ResultTxHash res) (idrx.ResultFromChainID res)
                  (idrx.ResultToChainID res) toAddress (idrx.ResultAmount res)
                  (idrx.ResultStatus res)
         /\ idrx.ResultToAddress res = idrx.ToAddress request
     | Ret (Some _, None), _ | _, Ret (Some _, None) => False
     | o, o' => o' = o
     end.
Proof.
  cbv zeta. unfold idrx.InitiateBridge.
  cbn [idrx.FromChainID idrx.ToChainID idrx.ToAddress idrx.Amount].
  destruct (IsChainSupported (idrx.FromChainID request)); cbn [negb];
    [| split; reflexivity].
  destruct (IsChainSupported (idrx.ToChainID request)); cbn [negb];
    [| split; reflexivity].
  destruct (ParseTokenAmount (idrx.Amount request) 18) as [tokenAmount [e |]];
    [split; reflexivity |].
  destruct (idrx.client bs) as [c |]; [| split; reflexivity]. run.
  rewrite (BurnBridge_ignores_address c ctx tokenAmount (idrx.ToChainID request)
             (idrx.FromChainID request) (common.HexToAddress toAddress)
             (common.HexToAddress (idrx.ToAddress request))).
  destruct (BurnBridge env c ctx _ w) as [[[tx [e |]] | msg |] w1];
    cbn [fst snd]; try (split; reflexivity).
  destruct tx as [t |]; cbn [fst snd]; split; try reflexivity.
  split; reflexivity.
Qed.

End Service.

(** ** The checks before the burn *)

Section BridgeChecks.

Variable env : Env.

(** A client built over the registry has a contract entry for registered
    chains only. *)
Lemma built_unregistered_unbound (nets : list (string * NetworkConfig))
    (config : ClientConfig) (w0 w0' : World) (c : Client) (chainID : Z) :
  NewClient env nets config w0 = (Ret (Some c, None), w0') ->
  Permutation SupportedNetworks nets ->
  IsChainSupported chainID = false ->
  contracts c !! chainID = None.
Proof.
  intros Hbuilt Hperm Hno.
  destruct (NewClient_built env nets config w0 w0' c Hbuilt) as [Hpool _].
  specialize (Hpool chainID).
  destruct (contracts c !! chainID) as [contract |]; [| reflexivity].
  destruct (clients c !! chainID) as [held |] eqn:Hheld; [| destruct Hpool].
  destruct (built_only_registered env nets config w0 w0' c chainID held Hbuilt Hperm Hheld)
    as (cfg & n & Hcfg).
  rewrite (unsupported_lookup chainID Hno) in Hcfg. discriminate.
Qed.

(** C4 (amended): before the burn is issued, [InitiateBridge] validates
    its request: a request whose source chain is not registered, whose
    destination chain is not registered, or whose amount does not parse
    as a decimal number is refused, each with its own error and with no
    call made.  [BurnBridge], which issues the burn for [InitiateBridge]
    and for [CompleteBridge], sends it only if the source chain has a
    bound contract (on a client built by [NewClient] over the registry an
    unregistered chain has none) and [CreateTransactor] returns a signer
    for the source chain; otherwise the request is rejected and no burn
    call is made.  A request that passes these checks, and whose amount
    [ToWei] converts to base units, has its burn sent with that number of
    base units. *)
Theorem bridge_request_checks (c : Client) (ctx : Context) :
  (forall bs request w,
      let r := idrx.InitiateBridge env bs ctx request w in
      (IsChainSupported (idrx.FromChainID request) = false ->
       r = (Ret (None, Some (Errorf "source chain %d not supported"
                               [OpInt (idrx.FromChainID request)])), w))
      /\ (IsChainSupported (idrx.FromChainID request) = true ->
          IsChainSupported (idrx.ToChainID request) = false ->
          r = (Ret (None, Some (Errorf "destination chain %d not supported"
                                  [OpInt (idrx.ToChainID request)])), w))
      /\ (forall e,
            IsChainSupported (idrx.FromChainID request) = true ->
            IsChainSupported (idrx.ToChainID request) = true ->
            ParseTokenAmount (idrx.Amount request) 18 = (None, Some e) ->
            r = (Ret (None, Some (Errorf "invalid amount: %w" [OpErr e])), w)))
  /\ (forall request w,
         (contracts c !! FromChainID request = None ->
          BurnBridge env c ctx request w
          = (Ret (None, Some (Errorf "IDRX contract not available for chain ID %d"
                                [OpInt (FromChainID request)])), w)
          /\ CompleteBridge env c ctx request w
             = (Ret (Some (Errorf "failed to burn on source chain: %w"
                             [OpErr (Errorf "IDRX contract not available for chain ID %d"
                                       [OpInt (FromChainID request)])])), w))
         /\ (forall contract e w1,
                contracts c !! FromChainID request = Some contract ->
                CreateTransactor env c ctx (FromChainID request) w
                = (Ret (None, Some e), w1) ->
                BurnBridge env c ctx request w = (Ret (None, Some e), w1)
                /\ CompleteBridge env c ctx request w
                   = (Ret (Some (Errorf "failed to burn on source chain: %w" [OpErr e])),
                      w1)
                /\ burn_calls (trace w1) = burn_calls (trace w)))
  /\ (forall nets config w0 w0' chainID,
         NewClient env nets config w0 = (Ret (Some c, None), w0') ->
         Permutation SupportedNetworks nets ->
         IsChainSupported chainID = false ->
         contracts c !! chainID = None)
  /\ (forall bs request w ta wei ci opts w1,
         idrx.client bs = Some c ->
         IsChainSupported (idrx.FromChainID request) = true ->
         IsChainSupported (idrx.ToChainID request) = true ->
         ParseTokenAmount (idrx.Amount request) 18 = (Some ta, None) ->
         ToWei ta = Some wei ->
         contracts c !! idrx.FromChainID request = Some (Some ci) ->
         CreateTransactor env c ctx (idrx.FromChainID request) w
         = (Ret (Some opts, None), w1) ->
         burn_calls (trace (snd (idrx.InitiateBridge env bs ctx request w)))
         = burn_calls (trace w) ++ [EvBurnBridge ci opts wei (idrx.ToChainID request)]).
Proof.
  split; [| split; [| split]].
  - intros bs request w. cbv zeta. apply InitiateBridge_refuses.
  - intros request w.
    destruct (BurnBridge_rejects env c ctx request w) as [Hnone Hsigner]. split.
    + intros Hc. split; [exact (Hnone Hc) |].
      unfold CompleteBridge. rewrite (bind_ret _ _ _ _ _ (Hnone Hc)). reflexivity.
    + intros contract e w1 Hc Ht. destruct (Hsigner contract e w1 Hc Ht) as [Hb Hq].
      split; [exact Hb |]. split; [| exact Hq].
      unfold CompleteBridge. rewrite (bind_ret _ _ _ _ _ Hb). reflexivity.
  - intros nets config w0 w0' chainID. apply built_unregistered_unbound.
  - intros bs request w ta wei ci opts w1 Hbs Hfrom Hto Hparse Hwei Hci Ht.
    pose proof (burn_calls_quiet _ _ _ _
                  (CreateTransactor_quiet env is_burn is_burn_probe c ctx
                     (idrx.FromChainID request)) Ht) as Hq.
    rewrite (InitiateBridge_passes env bs c ctx request ta w Hbs Hfrom Hto Hparse).
    rewrite (BurnBridge_sends env c ctx
               (mkBridgeRequest (Some ta) (idrx.ToChainID request)
                  (common.HexToAddress (idrx.ToAddress request))
                  (idrx.FromChainID request))
               w w1 ci opts ta wei Hci Ht eq_refl Hwei).
    cbn [snd trace ToChainID]. rewrite burn_calls_snoc, Hq. reflexivity.
Qed.

End BridgeChecks.

Lemma bridge_request_checks_witness :
  let s := Sim.bridging (Ok (mkReceipt 0 [])) (Ok (mkTransaction 78)) in
  let bs := idrx.NewBlockchainService (Some (Sim.client s)) in
  idrx.InitiateBridge (Sim.sim s) bs Background
    (idrx.mkBridgeTransactionRequest BaseChainID 999999 "0xbeef" "500") Sim.world0
  = (Ret (None, Some (Errorf "destination chain %d not supported" [OpInt 999999])),
     Sim.world0)
  /\ CompleteBridge (Sim.sim s) (Sim.client s) Background
       (mkBridgeRequest (Some (mkTokenAmount (mkDecimal 500 0) 2)) PolygonChainID 0xbeef
          999999)
       Sim.world0
     = (Ret (Some (Errorf "failed to burn on source chain: %w"
                     [OpErr (Errorf "IDRX contract not available for chain ID %d"
                               [OpInt 999999])])), Sim.world0)
  /\ exists ci opts,
      burn_calls (trace (snd (idrx.InitiateBridge (Sim.sim s) bs Background
                                (idrx.mkBridgeTransactionRequest BaseChainID PolygonChainID
                                   "0xbeef" "500") Sim.world0)))
      = burn_calls (trace Sim.world0)
          ++ [EvBurnBridge ci opts 500000000000000000000 PolygonChainID].
Proof.
  cbv zeta.
  set (s := Sim.bridging (Ok (mkReceipt 0 [])) (Ok (mkTransaction 78))).
  destruct (bridge_request_checks (Sim.sim s) (Sim.client s) Background)
    as (Hrefuse & Hsource & Hbuilt & Hpass).
  split; [| split].
  - apply (Hrefuse (idrx.NewBlockchainService (Some (Sim.client s)))
             (idrx.mkBridgeTransactionRequest BaseChainID 999999 "0xbeef" "500")
             Sim.world0); reflexivity.
  - apply (Hsource (mkBridgeRequest (Some (mkTokenAmount (mkDecimal 500 0) 2))
                      PolygonChainID 0xbeef 999999) Sim.world0).
    apply (Hbuilt SupportedNetworks Sim.config0 Sim.world0
             (snd (NewClient (Sim.sim s) SupportedNetworks Sim.config0 Sim.world0)) 999999).
    + vm_compute. reflexivity.
    + apply Permutation_refl.
    + reflexivity.
  - eexists _, _.
    apply (Hpass (idrx.NewBlockchainService (Some (Sim.client s)))
             (idrx.mkBridgeTransactionRequest BaseChainID PolygonChainID "0xbeef" "500")
             Sim.world0 (mkTokenAmount (mkDecimal 500 0) 18) 500000000000000000000
             _ _ (snd (CreateTransactor (Sim.sim s) (Sim.client s) Background BaseChainID
                         Sim.world0))).
    + reflexivity.
    + reflexivity.
    + reflexivity.
    + vm_compute. reflexivity.
    + vm_compute. reflexivity.
    + vm_compute. reflexivity.
    + vm_compute. reflexivity.
Defined.

(** C4 (as stated) fails: requests with the same chain as source and
    destination and an amount of zero have their burn sent, by
    [CompleteBridge] and by [InitiateBridge]; and so has a request whose
    amount has a third fractional digit, on a source chain with two
    decimals. *)
Lemma invalid_request_is_burned :
  let s := Sim.bridging (Ok (mkReceipt 0 [])) (Ok (mkTransaction 78)) in
  let bs := idrx.NewBlockchainService (Some (Sim.client s)) in
  let request := mkBridgeRequest (Some (mkTokenAmount (mkDecimal 0 0) 2)) BaseChainID
                   0xbeef BaseChainID in
  let fractional :=
    mkBridgeRequest (Some (mkTokenAmount (mkDecimal 1 (-3)) 18)) PolygonChainID 0xbeef
      BaseChainID in
  spec_valid_request request = false
  /\ spec_valid_request fractional = false
  /\ exists ci opts,
      burn_calls (trace (snd (CompleteBridge (Sim.sim s) (Sim.client s) Background request
                                Sim.world0)))
      = [EvBurnBridge ci opts 0 BaseChainID]
      /\ burn_calls (trace (snd (idrx.InitiateBridge (Sim.sim s) bs Background
                                   (idrx.mkBridgeTransactionRequest BaseChainID BaseChainID
                                      "0xbeef" "0") Sim.world0)))
         = [EvBurnBridge ci opts 0 BaseChainID]
      /\ burn_calls (trace (snd (idrx.InitiateBridge (Sim.sim s) bs Background
                                   (idrx.mkBridgeTransactionRequest BaseChainID
                                      PolygonChainID "0xbeef" "0.001") Sim.world0)))
         = [EvBurnBridge ci opts 1000000000000000 PolygonChainID].
Proof.
  cbv zeta. split; [vm_compute; reflexivity |]. split; [vm_compute; reflexivity |].
  eexists _, _. split; [vm_compute; reflexivity |].
  split; vm_compute; reflexivity.
Qed.

Lemma append_nil_r (s : string) : (s ++ "")%string = s.
Proof. induction s as [| c s IH]; sapp; [reflexivity |]. rewrite IH. reflexivity. Qed.

Section ServiceAmounts.

Variable env : Env.

(** X23: [InitiateBridge] converts the amount at 18 decimals, whatever the
    decimals registered for the source chain: for a request that passes
    its checks, with an amount written as digits [a], a point and at most
    18 digits [b] (or as the digits [a] alone), and a source chain with a
    bound contract and a signer, the burn call carries the number that
    the digits of [a] and [b] spell, times 10 to the power 18 less the
    number of digits of [b]. *)
Theorem InitiateBridge_base_units (bs : idrx.BlockchainService) (c : Client)
    (ctx : Context) (request : idrx.BridgeTransactionRequest) (a b : string) (v : Z)
    (ci : IDRX) (opts : TransactOpts) (w w1 : World) :
  idrx.client bs = Some c ->
  IsChainSupported (idrx.FromChainID request) = true ->
  IsChainSupported (idrx.ToChainID request) = true ->
  idrx.Amount request = (a ++ "." ++ b)%string \/ (idrx.Amount request = a /\ b = "") ->
  all_digits a = true ->
  a <> "" ->
  all_digits b = true ->
  (String.length b <= 18)%nat ->
  parse_digits (a ++ b) 0 = Some v ->
  contracts c !! idrx.FromChainID request = Some (Some ci) ->
  CreateTransactor env c ctx (idrx.FromChainID request) w = (Ret (Some opts, None), w1) ->
  burn_calls (trace (snd (idrx.InitiateBridge env bs ctx request w)))
  = burn_calls (trace w)
      ++ [EvBurnBridge ci opts (v * 10 ^ (18 - Z.of_nat (String.length b)))
            (idrx.ToChainID request)].
Proof.
  intros Hbs Hfrom Hto Hamount Ha Hne Hb Hlen Hv Hci Ht.
  assert (Hne' : (a ++ b)%string <> "") by (destruct a; [congruence | discriminate]).
  assert (Hparse : ParseTokenAmount (idrx.Amount request) 18
                   = (Some (mkTokenAmount (mkDecimal v (- Z.of_nat (String.length b))) 18),
                      None)).
  { unfold ParseTokenAmount. destruct Hamount as [-> | [-> ->]].
    - rewrite (NewFromString_point a b v Ha Hb Hne' ltac:(lia) Hv). reflexivity.
    - rewrite append_nil_r in Hv.
      rewrite (NewFromString_integer a v Ha Hne Hv). reflexivity. }
  assert (Hwei : ToWei (mkTokenAmount (mkDecimal v (- Z.of_nat (String.length b))) 18)
                 = Some (v * 10 ^ (18 - Z.of_nat (String.length b)))).
  { rewrite ToWei_trunc.
    - cbn [Amount Decimals value exp]. unfold trunc_scaled.
      destruct (Z.leb_spec 0 (- Z.of_nat (String.length b) + 18)); [| lia].
      replace (- Z.of_nat (String.length b) + 18) with (18 - Z.of_nat (String.length b))
        by lia.
      reflexivity.
    - cbn [Decimals]. lia.
    - cbn [Amount exp]. unfold in_int32, MinInt32, MaxInt32.
      apply andb_true_iff. split; apply Z.leb_le; lia. }
  pose proof (burn_calls_quiet _ _ _ _
                (CreateTransactor_quiet env is_burn is_burn_probe c ctx
                   (idrx.FromChainID request)) Ht) as Hq.
  unfold idrx.InitiateBridge. rewrite Hfrom, Hto, Hparse, Hbs. cbn [negb]. run.
  rewrite (BurnBridge_sends env c ctx
             (mkBridgeRequest
                (Some (mkTokenAmount (mkDecimal v (- Z.of_nat (String.length b))) 18))
                (idrx.ToChainID request) (common.HexToAddress (idrx.ToAddress request))
                (idrx.FromChainID request))
             w w1 ci opts _ _ Hci Ht eq_refl Hwei).
  cbn [ToChainID].
  destruct (txBurnBridge env (trace w1) ci opts _ (idrx.ToChainID request));
    cbn [snd trace]; rewrite burn_calls_snoc, Hq; reflexivity.
Qed.

End ServiceAmounts.

Lemma InitiateBridge_base_units_witness :
  let s := Sim.bridging (Ok (mkReceipt 0 [])) (Ok (mkTransaction 78)) in
  let bs := idrx.NewBlockchainService (Some (Sim.client s)) in
  let request := idrx.mkBridgeTransactionRequest BaseChainID PolygonChainID "0xbeef"
                   "500.25" in
  exists ci opts,
    burn_calls (trace (snd (idrx.InitiateBridge (Sim.sim s) bs Background request
                              Sim.world0)))
    = burn_calls (trace Sim.world0)
        ++ [EvBurnBridge ci opts 500250000000000000000 PolygonChainID].
Proof.
  cbv zeta.
  set (s := Sim.bridging (Ok (mkReceipt 0 [])) (Ok (mkTransaction 78))).
  eexists _, _.
  refine (InitiateBridge_base_units (Sim.sim s)
            (idrx.NewBlockchainService (Some (Sim.client s))) (Sim.client s) Background
            (idrx.mkBridgeTransactionRequest BaseChainID PolygonChainID "0xbeef" "500.25")
            "500" "25" 50025 _ _ Sim.world0
            (snd (CreateTransactor (Sim.sim s) (Sim.client s) Background BaseChainID
                    Sim.world0))
            eq_refl eq_refl eq_refl (or_introl eq_refl) eq_refl _ eq_refl _ eq_refl _ _).
  - discriminate.
  - cbn. lia.
  - vm_compute. reflexivity.
  - vm_compute. reflexivity.
Defined.

(** ** The facade: [WithBlockchain] *)

Lemma trim_0x_prefixed (k : string) :
  k <> "" -> idrx.trim_0x ("0x" ++ k) = k.
Proof.
  intros Hne. unfold idrx.trim_0x. sapp.
  destruct k as [| c k]; [congruence |].
  cbn [String.length Nat.ltb Nat.leb substring String.eqb Ascii.eqb Byte.eqb andb].
  change (String.eqb (substring 0 2 (String "0" (String "x" (String c k)))) "0x") with true.
  cbn [andb Nat.sub substring]. f_equal. apply substring_whole.
Qed.

Lemma trim_0x_hex (k : string) : all_hex k = true -> idrx.trim_0x k = k.
Proof.
  intros Hk. unfold idrx.trim_0x.
  destruct k as [| a [| b k]]; try reflexivity.
  cbn [all_hex] in Hk. apply andb_true_iff in Hk as [_ Hk].
  apply andb_true_iff in Hk as [Hb _].
  destruct (String.eqb_spec (substring 0 2 (String a (String b k))) "0x") as [Heq | _];
    [| rewrite andb_false_r; reflexivity].
  cbn in Heq. inversion Heq; subst. discriminate Hb.
Qed.

Section Facade.

Variable env : Env.
Variable nets : list (string * NetworkConfig).


(** X24: a key of hexadecimal digits is treated by [WithBlockchain] the
    same with and without a leading "0x": the same key text reaches the
    parser, and the option does the same. *)
Theorem WithBlockchain_prefix (k : string) (c : idrx.Client) (w : World) :
  k <> "" ->
  all_hex k = true ->
  idrx.WithBlockchain env nets ("0x" ++ k) c w = idrx.WithBlockchain env nets k c w.
Proof.
  intros Hne Hk. unfold idrx.WithBlockchain.
  rewrite (trim_0x_prefixed k Hne), (trim_0x_hex k Hk). reflexivity.
Qed.




End Facade.

Lemma WithBlockchain_prefix_witness :
  let s := Sim.bridging (Ok (mkReceipt 0 [])) (Ok (mkTransaction 78)) in
  let c := idrx.mkClient "https://idrx.co" (Some (idrx.mkHTTPClient (30 * Second))) None in
  idrx.WithBlockchain (Sim.sim s) SupportedNetworks "0x01" c Sim.world0
  = idrx.WithBlockchain (Sim.sim s) SupportedNetworks "01" c Sim.world0.
Proof.
  cbv zeta.
  apply (WithBlockchain_prefix (Sim.sim (Sim.bridging (Ok (mkReceipt 0 []))
                                           (Ok (mkTransaction 78))))
           SupportedNetworks "01").
  - discriminate.
  - reflexivity.
Defined.


(** ** Failover and the contract *)

Section FirstConnection.

Variable env : Env.

(** X27: failover does not reach the contract calls: on a client built by
    [NewClient], a burn that is sent goes to the contract bound, at
    construction, over the first connection of the source chain's pool,
    whichever connection of the pool answered the probe and the chain-ID
    check. *)
Theorem burn_through_first_connection (nets : list (string * NetworkConfig))
    (config : ClientConfig) (w0 w0' : World) (c : Client) (ctx : Context)
    (request : BridgeRequest) (w w' : World) (tx : Transaction) :
  NewClient env nets config w0 = (Ret (Some c, None), w0') ->
  BurnBridge env c ctx request w = (Ret (Some tx, None), w') ->
  exists first rest probed w1 n cfg ci opts wei h t,
    clients c !! FromChainID request = Some (first :: rest)
    /\ GetClient env c (FromChainID request) w = (Ret (Some probed, None), w1)
    /\ In probed (first :: rest)
    /\ In (n, cfg) nets
    /\ ChainID cfg = FromChainID request
    /\ NewIDRX env (ContractAddress cfg) first = Ok ci
    /\ trace w' = h ++ [(t, EvBurnBridge ci opts wei (ToChainID request))].
Proof.
  intros Hbuilt Hb.
  destruct (BurnBridge_sent env c ctx request w w' (Some tx) Hb)
    as (ci & opts & ta & wei & w2 & sent & Hc & Ht & _ & _ & _ & _ & ->).
  destruct (NewClient_built env nets config w0 w0' c Hbuilt) as [Hpool _].
  specialize (Hpool (FromChainID request)). rewrite Hc in Hpool.
  destruct (clients c !! FromChainID request) as [held |] eqn:Hheld; [| destruct Hpool].
  destruct Hpool as (first & rest & ci0 & n & cfg & -> & Hci0 & Hin & Hid & _ & Hbind).
  inversion Hci0; subst ci0.
  destruct (CreateTransactor_signer env c ctx _ w w2 opts Ht) as (probed & w1 & Hg & _ & _).
  exists first, rest, probed, w1, n, cfg, ci, opts, wei, (trace w2), (now w2).
  repeat split; try assumption.
  pose proof (GetClient_cases env c (FromChainID request) w) as Hcases.
  rewrite Hheld in Hcases.
  destruct Hcases as [(i & cl & m & Hi & _ & _ & Hres) | [_ Hres]]; rewrite Hres in Hg;
    inversion Hg; subst.
  apply (list_elem_of_lookup_2 _ i) in Hi. apply list_elem_of_In. exact Hi.
Qed.

End FirstConnection.

Lemma burn_through_first_connection_witness :
  let first := mkEthClient "https://mainnet.base.org" in
  let second := mkEthClient "https://base.llamarpc.com" in
  let s := Sim.mkScenario (fun _ => true)
             (fun cl => if String.eqb (rpcEndpoint cl) "https://mainnet.base.org"
                        then Err (Errorf "connection reset" []) else Sim.honest cl)
             (Err (Errorf "not found" [])) (Ok (mkTransaction 77))
             (Err (Errorf "unused" [])) in
  exists ci opts wei h t,
    fst (GetClient (Sim.sim s) (Sim.client s) BaseChainID Sim.world0)
    = Ret (Some second, None)
    /\ boundClient ci = first
    /\ trace (snd (BurnBridge (Sim.sim s) (Sim.client s) Background Sim.request_500
                     Sim.world0))
       = h ++ [(t, EvBurnBridge ci opts wei PolygonChainID)].
Proof.
  cbv zeta.
  set (s := Sim.mkScenario (fun _ => true)
              (fun cl => if String.eqb (rpcEndpoint cl) "https://mainnet.base.org"
                         then Err (Errorf "connection reset" []) else Sim.honest cl)
              (Err (Errorf "not found" [])) (Ok (mkTransaction 77))
              (Err (Errorf "unused" []))).
  destruct (burn_through_first_connection (Sim.sim s) SupportedNetworks Sim.config0
              Sim.world0
              (snd (NewClient (Sim.sim s) SupportedNetworks Sim.config0 Sim.world0))
              (Sim.client s) Background Sim.request_500 Sim.world0
              (snd (BurnBridge (Sim.sim s) (Sim.client s) Background Sim.request_500
                      Sim.world0))
              (mkTransaction 77))
    as (first & rest & probed & w1 & n & cfg & ci & opts & wei & h & t
        & Hheld & Hg & _ & _ & _ & Hbind & Htrace).
  - vm_compute. reflexivity.
  - vm_compute. reflexivity.
  - exists ci, opts, wei, h, t.
    assert (Hfirst : first = mkEthClient "https://mainnet.base.org").
    { revert Hheld. vm_compute. intros H. inversion H. reflexivity. }
    split; [| split; [| exact Htrace]].
    + vm_compute. reflexivity.
    + subst first. cbn in Hbind. inversion Hbind. reflexivity.
Defined.

(** ** The token operations *)

Lemma ledger_eta (l : Ledger) : mkLedger (world l) (calls l) = l.
Proof. destruct l. reflexivity. Qed.

Lemma lift_bind_ret {A B : Type} (m : M A) (k : A -> T B) (l : Ledger) (a : A)
    (w' : World) :
  m (world l) = (Ret a, w') -> (lift m ≫= k) l = k a (mkLedger w' (calls l)).
Proof. intros H. unfold mbind, T_bind, lift. rewrite H. reflexivity. Qed.

Lemma lift_bind_panic {A B : Type} (m : M A) (k : A -> T B) (l : Ledger) (msg : string)
    (w' : World) :
  m (world l) = (Panic msg, w') -> (lift m ≫= k) l = (Panic msg, mkLedger w' (calls l)).
Proof. intros H. unfold mbind, T_bind, lift. rewrite H. reflexivity. Qed.

Lemma lift_bind_pure {A B : Type} (m : M A) (k : A -> T B) (l : Ledger) (a : A) :
  m (world l) = (Ret a, world l) -> (lift m ≫= k) l = k a l.
Proof. intros H. rewrite (lift_bind_ret m k l a (world l) H), ledger_eta. reflexivity. Qed.

(** Unfold the plumbing of a token operation. *)
Ltac runT :=
  cbv [mbind T_bind mret T_ret lift token_call M_bind M_ret deref or_panic panic];
  cbn [world calls now trace fst snd].

Section TokenWrites.

Variable env : Env.
Variable tenv : TokenEnv.

(** The steps the four writes share, when each of them passes. *)
Lemma write_sends (c : Client) (ctx : Context) (chainID : Z)
    (amount : option TokenAmount) (l : Ledger)
    (ev : IDRX -> TransactOpts -> Z -> TokenCall)
    (answer : History -> TokenHistory -> IDRX -> TransactOpts -> Z -> result Transaction)
    (msg : string) (ci : IDRX) (opts : TransactOpts) (ta : TokenAmount) (wei : Z)
    (w1 : World) :
  contracts c !! chainID = Some (Some ci) ->
  CreateTransactor env c ctx chainID (world l) = (Ret (Some opts, None), w1) ->
  amount = Some ta ->
  ToWei ta = Some wei ->
  ('(contract, err) ← lift (GetContract c chainID);
   match err with
   | Some e => mret (None, Some e)
   | None =>
       '(transactor, err) ← lift (CreateTransactor env c ctx chainID);
       match err with
       | Some e => mret (None, Some e)
       | None =>
           ta ← lift (deref amount);
           wei ← lift (or_panic "decimal" (ToWei ta));
           ci ← lift (deref contract);
           opts ← lift (deref transactor);
           r ← token_call (fun h th => answer h th ci opts wei) (ev ci opts wei);
           match r with
           | Err e => mret (None, Some (Errorf msg [OpErr e]))
           | Ok tx => mret (Some tx, None)
           end
       end
   end) l
  = (Ret match answer (trace w1) (calls l) ci opts wei with
         | Ok tx => (Some tx, None)
         | Err e => (None, Some (Errorf msg [OpErr e]))
         end,
     mkLedger w1 (calls l ++ [(now w1, ev ci opts wei)])).
Proof.
  intros Hc Ht -> Hw.
  rewrite (lift_bind_pure _ _ l _ (GetContract_found c chainID _ (world l) Hc)).
  rewrite (lift_bind_ret _ _ l _ _ Ht).
  runT. rewrite Hw. cbn [world calls now trace].
  destruct (answer (trace w1) (calls l) ci opts wei); reflexivity.
Qed.



End TokenWrites.

Lemma decimals_upto_16 (chainID : Z) : 0 <= GetDecimals chainID <= 16.
Proof.
  unfold GetDecimals.
  destruct (GetNetworkConfigByChainID chainID) as [[cfg n] found] eqn:Hf.
  destruct found; cbn [negb]; [| lia].
  destruct (find_chain_found _ _ _ _ Hf) as (c & -> & _ & _).
  destruct (registered_decimals chainID c n Hf) as [-> | ->]; lia.
Qed.

Lemma FromWei_back (n d : Z) :
  0 <= d <= 16 ->
  exists ta, FromWei n d = Some ta /\ Decimals ta = d /\ ToWei ta = Some n.
Proof.
  intros Hd. eexists. split; [apply FromWei_exact; exact Hd |]. split; [reflexivity |].
  rewrite ToWei_trunc by (cbn [Decimals Amount exp]; first [lia | reflexivity]).
  cbn [Amount Decimals value exp]. unfold trunc_scaled.
  destruct (Z.leb_spec 0 (-16 + d)) as [H | H].
  - assert (d = 16) as -> by lia.
    change (10 ^ (16 - 16)) with 1. change (10 ^ (-16 + 16)) with 1.
    rewrite !Z.mul_1_r. reflexivity.
  - replace (- (-16 + d)) with (16 - d) by lia.
    rewrite Z.quot_mul by (apply Z.pow_nonzero; lia). reflexivity.
Qed.

Section TokenReads.

Variable tenv : TokenEnv.

(** The steps the two reads share. *)
Lemma read_steps (c : Client) (chainID : Z) (l : Ledger) (ev : IDRX -> TokenCall)
    (answer : History -> TokenHistory -> IDRX -> result Z) (msg : string) :
  read_outcome c chainID l ev answer
    (('(contract, err) ← lift (GetContract c chainID);
      match err with
      | Some e => mret (None, Some e)
      | None =>
          ci ← lift (deref contract);
          r ← token_call (fun h th => answer h th ci) (ev ci);
          match r with
          | Err e => mret (None, Some (Errorf msg [OpErr e]))
          | Ok n =>
              ta ← lift (or_panic "decimal" (FromWei n (GetDecimals chainID)));
              mret (Some ta, None)
          end
      end) l).
Proof.
  unfold read_outcome.
  destruct (contracts c !! chainID) as [contract |] eqn:Hc.
  - rewrite (lift_bind_pure _ _ l _ (GetContract_found c chainID contract (world l) Hc)).
    destruct contract as [ci |]; [| split; [reflexivity | intros ta err H; discriminate]].
    runT.
    destruct (answer (trace (world l)) (calls l) ci) as [n | e] eqn:Hn;
      [| split; [reflexivity | intros ta err H; discriminate]].
    destruct (FromWei_back n (GetDecimals chainID) (decimals_upto_16 chainID))
      as (ta & Hta & Hd & Hback).
    rewrite Hta. cbn [world calls fst snd]. split; [reflexivity |].
    intros ta' err H. inversion H; subst. exists ci, n. repeat split; assumption.
  - rewrite (lift_bind_pure _ _ l _ (GetContract_missing c chainID (world l) Hc)).
    split; [reflexivity | intros ta err H; discriminate].
Qed.


End TokenReads.

(** ** The service, again *)

Section ServiceStatus.

Variable env : Env.
Variable tenv : TokenEnv.
Variable BlockNumber : Receipt -> option Z.
Variable GasUsed : Receipt -> Z.

Lemma status_of_receipt_text (txHash : string) (chainID : Z) (receipt : option Receipt)
    (l l' : Ledger) (st : idrx.TransactionStatus) (err : option error) :
  idrx.status_of_receipt BlockNumber GasUsed txHash chainID receipt l
  = (Ret (Some st, err), l') ->
  exists rc,
    receipt = Some rc
    /\ idrx.StatusText st
       = (if Status rc =? ReceiptStatusSuccessful then "success" else "failed").
Proof.
  unfold idrx.status_of_receipt. destruct receipt as [rc |]; [| discriminate]. runT.
  destruct (BlockNumber rc) as [bn |]; [| discriminate].
  intros H. inversion H; subst. exists rc. split; [reflexivity |].
  cbn [idrx.StatusText]. destruct (Status rc =? ReceiptStatusSuccessful); reflexivity.
Qed.

(** X30: [GetTransactionStatus], once [GetClient] has found a connection:
    when the receipt lookup fails and the second lookup finds the
    transaction not pending, the nil receipt is dereferenced and the
    call panics; a status that is returned reads "pending" (the receipt
    lookup failed and the transaction is pending) or, from a receipt,
    "success" when the receipt has the successful status and "failed"
    otherwise; it never reads anything else. *)
Theorem GetTransactionStatus_cases (bs : idrx.BlockchainService) (c : Client)
    (ctx : Context) (chainID : Z) (txHash : string) (l : Ledger) (cl : EthClient)
    (w1 : World) :
  idrx.client bs = Some c ->
  GetClient env c chainID (world l) = (Ret (Some cl, None), w1) ->
  let hash := common.HexToHash txHash in
  let w2 := mkWorld (now w1) (trace w1 ++ [(now w1, EvTransactionReceipt cl ctx hash)]) in
  let l3 := mkLedger w2 (calls l ++ [(now w1, CallTransactionByHash cl ctx hash)]) in
  let r := idrx.GetTransactionStatus env tenv BlockNumber GasUsed bs ctx chainID txHash l in
  (forall e,
      rpcTransactionReceipt env (trace w1) cl ctx hash = Err e ->
      rpcTransactionByHash tenv (trace w2) (calls l) cl ctx hash = Ok false ->
      r = (Panic nil_dereference, l3))
  /\ (forall e,
        rpcTransactionReceipt env (trace w1) cl ctx hash = Err e ->
        rpcTransactionByHash tenv (trace w2) (calls l) cl ctx hash = Ok true ->
        r = (Ret (Some (idrx.mkTransactionStatus txHash chainID "pending" 0 0), None), l3))
  /\ (forall st err l',
        r = (Ret (Some st, err), l') ->
        err = None
        /\ (idrx.StatusText st = "pending"
            /\ (exists e, rpcTransactionReceipt env (trace w1) cl ctx hash = Err e)
            \/ exists rc,
                rpcTransactionReceipt env (trace w1) cl ctx hash = Ok rc
                /\ idrx.StatusText st
                   = (if Status rc =? ReceiptStatusSuccessful then "success"
                      else "failed"))).
Proof.
  intros Hbs Hg. cbv zeta.
  set (hash := common.HexToHash txHash).
  set (w2 := mkWorld (now w1) (trace w1 ++ [(now w1, EvTransactionReceipt cl ctx hash)])).
  set (l3 := mkLedger w2 (calls l ++ [(now w1, CallTransactionByHash cl ctx hash)])).
  assert (Hrun :
    idrx.GetTransactionStatus env tenv BlockNumber GasUsed bs ctx chainID txHash l
    = match rpcTransactionReceipt env (trace w1) cl ctx hash with
      | Ok rc =>
          idrx.status_of_receipt BlockNumber GasUsed txHash chainID (Some rc)
            (mkLedger w2 (calls l))
      | Err _ =>
          match rpcTransactionByHash tenv (trace w2) (calls l) cl ctx hash with
          | Err e =>
              (Ret (None, Some (Errorf "failed to check transaction status: %w"
                                  [OpErr e])), l3)
          | Ok true =>
              (Ret (Some (idrx.mkTransactionStatus txHash chainID "pending" 0 0), None), l3)
          | Ok false => (Panic nil_dereference, l3)
          end
      end).
  { unfold idrx.GetTransactionStatus. rewrite Hbs.
    assert (Hd : deref (Some c) (world l) = (Ret c, world l)) by reflexivity.
    rewrite (lift_bind_pure _ _ l _ Hd), (lift_bind_ret _ _ l _ _ Hg).
    cbv beta iota. fold hash.
    assert (Hd2 : deref (Some cl) (world (mkLedger w1 (calls l))) = (Ret cl, w1))
      by reflexivity.
    rewrite (lift_bind_ret _ _ (mkLedger w1 (calls l)) _ _ Hd2). cbn [world calls].
    assert (Hcall : call (fun h => rpcTransactionReceipt env h cl ctx hash)
                         (EvTransactionReceipt cl ctx hash)
                         (world (mkLedger w1 (calls l)))
                    = (Ret (rpcTransactionReceipt env (trace w1) cl ctx hash), w2))
      by reflexivity.
    rewrite (lift_bind_ret _ _ (mkLedger w1 (calls l)) _ _ Hcall). cbn [world calls].
    destruct (rpcTransactionReceipt env (trace w1) cl ctx hash) as [rc | e0];
      [reflexivity |].
    unfold token_call, mbind, T_bind. cbn [world calls now trace].
    fold w2. fold l3.
    destruct (rpcTransactionByHash tenv (trace w2) (calls l) cl ctx hash) as [[|] | e1];
      reflexivity. }
  rewrite Hrun. clear Hrun.
  destruct (rpcTransactionReceipt env (trace w1) cl ctx hash) as [rc | e0] eqn:Hrc.
  - split; [intros e H; discriminate |]. split; [intros e H; discriminate |].
    intros st err l' Hrun. pose proof Hrun as Hrun'.
    apply status_of_receipt_text in Hrun as (rc' & Heq & Htext). inversion Heq; subst rc'.
    split.
    + revert Hrun'. unfold idrx.status_of_receipt. runT.
      destruct (BlockNumber rc); [| discriminate]. intros H. inversion H. reflexivity.
    + right. exists rc. split; [reflexivity | exact Htext].
  - destruct (rpcTransactionByHash tenv (trace w2) (calls l) cl ctx hash)
      as [[|] | e1] eqn:Hp.
    + split; [intros e _ H; discriminate |]. split; [intros e _ _; reflexivity |].
      intros st err l' Hrun. inversion Hrun; subst. split; [reflexivity |].
      left. split; [reflexivity | eauto].
    + split; [intros e _ _; reflexivity |]. split; [intros e _ H; discriminate |].
      intros st err l' Hrun. discriminate.
    + split; [intros e _ H; discriminate |]. split; [intros e _ H; discriminate |].
      intros st err l' Hrun. discriminate.
Qed.

End ServiceStatus.

Lemma GetTransactionStatus_cases_witness :
  let s := Sim.bridging (Err (Errorf "not found" [])) (Ok (mkTransaction 78)) in
  let tenv :=
    mkTokenEnv (fun _ _ _ _ => Ok 0) (fun _ _ _ => Ok 0)
      (fun _ _ _ _ _ _ => Ok (mkTransaction 79)) (fun _ _ _ _ _ _ => Ok (mkTransaction 79))
      (fun _ _ _ _ _ => Ok (mkTransaction 79)) (fun _ _ _ _ _ _ => Ok (mkTransaction 79))
      (fun _ _ _ _ _ => Ok false) in
  fst (idrx.GetTransactionStatus (Sim.sim s) tenv (fun _ => Some 1) (fun _ => 21000)
         (idrx.NewBlockchainService (Some (Sim.client s))) Background BaseChainID "0x4d"
         (mkLedger Sim.world0 []))
  = Panic nil_dereference.
Proof.
  cbv zeta.
  set (s := Sim.bridging (Err (Errorf "not found" [])) (Ok (mkTransaction 78))).
  set (tenv := mkTokenEnv _ _ _ _ _ _ _).
  destruct (GetTransactionStatus_cases (Sim.sim s) tenv (fun _ => Some 1) (fun _ => 21000)
              (idrx.NewBlockchainService (Some (Sim.client s))) (Sim.client s) Background
              BaseChainID "0x4d" (mkLedger Sim.world0 [])
              (mkEthClient "https://mainnet.base.org")
              (snd (GetClient (Sim.sim s) (Sim.client s) BaseChainID Sim.world0)))
    as (Hpanic & _ & _).
  - reflexivity.
  - vm_compute. reflexivity.
  - rewrite (Hpanic (Errorf "not found" []) eq_refl eq_refl). reflexivity.
Defined.

(** A literal of digits, with or without a point, at 18 decimals. *)
Lemma literal_at_18 (amount a b : string) (v : Z) :
  amount = (a ++ "." ++ b)%string \/ (amount = a /\ b = "") ->
  all_digits a = true ->
  a <> "" ->
  all_digits b = true ->
  (String.length b <= 18)%nat ->
  parse_digits (a ++ b) 0 = Some v ->
  exists ta,
    ParseTokenAmount amount 18 = (Some ta, None)
    /\ ToWei ta = Some (v * 10 ^ (18 - Z.of_nat (String.length b))).
Proof.
  intros Hamount Ha Hne Hb Hlen Hv.
  assert (Hne' : (a ++ b)%string <> "") by (destruct a; [congruence | discriminate]).
  exists (mkTokenAmount (mkDecimal v (- Z.of_nat (String.length b))) 18). split.
  - unfold ParseTokenAmount. destruct Hamount as [-> | [-> ->]].
    + rewrite (NewFromString_point a b v Ha Hb Hne' ltac:(lia) Hv). reflexivity.
    + rewrite append_nil_r in Hv.
      rewrite (NewFromString_integer a v Ha Hne Hv). reflexivity.
  - rewrite ToWei_trunc.
    + cbn [Amount Decimals value exp]. unfold trunc_scaled.
      destruct (Z.leb_spec 0 (- Z.of_nat (String.length b) + 18)); [| lia].
      replace (- Z.of_nat (String.length b) + 18) with (18 - Z.of_nat (String.length b))
        by lia.
      reflexivity.
    + cbn [Decimals]. lia.
    + cbn [Amount exp]. unfold in_int32, MinInt32, MaxInt32.
      apply andb_true_iff. split; apply Z.leb_le; lia.
Qed.

Section ServiceTokens.

Variable env : Env.
Variable tenv : TokenEnv.

(** X21: the service reads a balance through [BalanceOf], at the address
    its text spells, and so at the decimals registered for the chain; it
    writes at 18 decimals: [Transfer] and [BurnForRedemption] refuse an
    amount that does not parse, with no call, and for an amount written
    as digits [a], a point and at most 18 digits [b] (or as the digits
    [a] alone), on a chain with a bound contract and a signer, their one
    contract call carries the number the digits of [a] and [b] spell,
    times 10 to the power 18 less the number of digits of [b]. *)
Theorem service_token_operations (bs : idrx.BlockchainService) (c : Client)
    (ctx : Context) (chainID : Z) (address amount accountNumber : string) (l : Ledger) :
  idrx.client bs = Some c ->
  read_outcome c chainID l
    (fun ci => CallBalanceOf ci (common.HexToAddress address))
    (fun h th ci => callBalanceOf tenv h th ci (common.HexToAddress address))
    (idrx.GetBalance tenv bs ctx chainID address l)
  /\ (forall e,
        ParseTokenAmount amount 18 = (None, Some e) ->
        idrx.Transfer env tenv bs ctx chainID address amount l
        = (Ret (None, Some (Errorf "invalid amount: %w" [OpErr e])), l)
        /\ idrx.BurnForRedemption env tenv bs ctx chainID amount accountNumber l
           = (Ret (None, Some (Errorf "invalid amount: %w" [OpErr e])), l))
  /\ (forall a b v ci opts w1,
        amount = (a ++ "." ++ b)%string \/ (amount = a /\ b = "") ->
        all_digits a = true ->
        a <> "" ->
        all_digits b = true ->
        (String.length b <= 18)%nat ->
        parse_digits (a ++ b) 0 = Some v ->
        contracts c !! chainID = Some (Some ci) ->
        CreateTransactor env c ctx chainID (world l) = (Ret (Some opts, None), w1) ->
        let wei := v * 10 ^ (18 - Z.of_nat (String.length b)) in
        calls (snd (idrx.Transfer env tenv bs ctx chainID address amount l))
        = calls l ++ [(now w1, CallTransfer ci opts (common.HexToAddress address) wei)]
        /\ calls (snd (idrx.BurnForRedemption env tenv bs ctx chainID amount
                         accountNumber l))
           = calls l ++ [(now w1, CallBurnWithAccountNumber ci opts wei accountNumber)]).
Proof.
  intros Hbs.
  assert (Hd : deref (Some c) (world l) = (Ret c, world l)) by reflexivity.
  split; [| split].
  - unfold idrx.GetBalance. rewrite Hbs, (lift_bind_pure _ _ l _ Hd).
    apply (read_steps c chainID l
             (fun ci => CallBalanceOf ci (common.HexToAddress address))
             (fun h th ci => callBalanceOf tenv h th ci (common.HexToAddress address))).
  - intros e Hparse. unfold idrx.Transfer, idrx.BurnForRedemption. rewrite Hparse.
    split; reflexivity.
  - intros a b v ci opts w1 Hamount Ha Hne Hb Hlen Hv Hci Ht. cbv zeta.
    destruct (literal_at_18 amount a b v Hamount Ha Hne Hb Hlen Hv) as (ta & Hparse & Hwei).
    unfold idrx.Transfer, idrx.BurnForRedemption.
    rewrite Hparse, Hbs, !(lift_bind_pure _ _ l _ Hd). split.
    + unfold Transfer.
      unfold mbind at 1, T_bind at 1.
      rewrite (write_sends env c ctx chainID (Some ta) l
                 (fun ci opts wei => CallTransfer ci opts (common.HexToAddress address) wei)
                 (fun h th ci opts wei =>
                    txTransfer tenv h th ci opts (common.HexToAddress address) wei)
                 "failed to transfer tokens: %w" ci opts ta _ w1 Hci Ht eq_refl Hwei).
      destruct (txTransfer tenv (trace w1) (calls l) ci opts (common.HexToAddress address) _);
        reflexivity.
    + unfold BurnWithAccountNumber.
      unfold mbind at 1, T_bind at 1.
      rewrite (write_sends env c ctx chainID (Some ta) l
                 (fun ci opts wei => CallBurnWithAccountNumber ci opts wei accountNumber)
                 (fun h th ci opts wei =>
                    txBurnWithAccountNumber tenv h th ci opts wei accountNumber)
                 "failed to burn tokens with account number: %w" ci opts ta _ w1 Hci Ht
                 eq_refl Hwei).
      destruct (txBurnWithAccountNumber tenv (trace w1) (calls l) ci opts _ accountNumber);
        reflexivity.
Qed.

End ServiceTokens.

Lemma service_token_operations_witness :
  let s := Sim.bridging (Ok (mkReceipt 0 [])) (Ok (mkTransaction 78)) in
  let tenv :=
    mkTokenEnv (fun _ _ _ _ => Ok 10000) (fun _ _ _ => Ok 0)
      (fun _ _ _ _ _ _ => Ok (mkTransaction 79)) (fun _ _ _ _ _ _ => Ok (mkTransaction 79))
      (fun _ _ _ _ _ => Ok (mkTransaction 79)) (fun _ _ _ _ _ _ => Ok (mkTransaction 79))
      (fun _ _ _ _ _ => Ok false) in
  let bs := idrx.NewBlockchainService (Some (Sim.client s)) in
  exists ci opts t,
    calls (snd (idrx.Transfer (Sim.sim s) tenv bs Background BaseChainID "0xbeef" "100"
                  (mkLedger Sim.world0 [])))
    = [(t, CallTransfer ci opts 0xbeef 100000000000000000000)].
Proof.
  cbv zeta.
  set (s := Sim.bridging (Ok (mkReceipt 0 [])) (Ok (mkTransaction 78))).
  set (tenv := mkTokenEnv _ _ _ _ _ _ _).
  destruct (service_token_operations (Sim.sim s) tenv
              (idrx.NewBlockchainService (Some (Sim.client s))) (Sim.client s) Background
              BaseChainID "0xbeef" "100" "" (mkLedger Sim.world0 []) eq_refl)
    as (_ & _ & Hwrite).
  eexists _, _, _.
  refine (proj1 (Hwrite "100" "" 100 _ _
                   (snd (CreateTransactor (Sim.sim s) (Sim.client s) Background BaseChainID
                           Sim.world0))
                   (or_intror (conj eq_refl eq_refl)) eq_refl _ eq_refl _ eq_refl _ _)).
  - discriminate.
  - cbn. lia.
  - vm_compute. reflexivity.
  - vm_compute. reflexivity.
Defined.
